(** * gitsync: the branch synchronisation engine

    A shallow embedding of the Go sources of gitsync: the git wrappers
    ([IsGitRepo] ... [GetBranchesWithInfo]) and the bubbletea model
    ([Model], [Update], the key handlers, [updateNextBranch] and
    [deleteNextBranch]).

    Every external [git] process the program starts is recorded, by its
    argument vector, in a trace; what the process answers is given by an
    oracle that sees the commands run so far.  Branches live behind
    pointers ([*Branch]) that the model, the filtered view and the
    command closures share, so they are kept in a store addressed by
    locations.  A nil dereference or an index out of range is a panic. *)

From Stdlib Require Import String Ascii List ZArith Lia Bool Arith.
Import ListNotations.
Open Scope string_scope.

(** ** Go strings (package [strings]), on bytes *)

Module strings.

(** [strings.HasPrefix(s, prefix)] *)
Definition HasPrefix (s p : string) : bool := String.prefix p s.

(** [strings.Contains(s, substr)]: does [substr] occur in [s]? *)
Fixpoint Contains (s substr : string) : bool :=
  if String.prefix substr s then true
  else match s with
       | EmptyString => false
       | String _ s' => Contains s' substr
       end.

(** A string given by its bytes. *)
Definition bytes (l : list nat) : string :=
  fold_right (fun n s => String (ascii_of_nat n) s) EmptyString l.

(** White space as [unicode.IsSpace] has it, each character in its
    UTF-8 encoding: tab, line feed, vertical tab, form feed, carriage
    return, space, U+0085, U+00A0, U+1680, U+2000 to U+200A, U+2028,
    U+2029, U+202F, U+205F and U+3000.  Each encoding starts with a
    byte that is no continuation byte, so a white-space character is
    found at a position of a string exactly when its encoding starts
    there, whether the bytes around it are valid UTF-8 or not. *)
Definition spaces : list string :=
  map bytes
      [[9]; [10]; [11]; [12]; [13]; [32];
       [194; 133]; [194; 160]; [225; 154; 128];
       [226; 128; 128]; [226; 128; 129]; [226; 128; 130]; [226; 128; 131];
       [226; 128; 132]; [226; 128; 133]; [226; 128; 134]; [226; 128; 135];
       [226; 128; 136]; [226; 128; 137]; [226; 128; 138];
       [226; 128; 168]; [226; 128; 169]; [226; 128; 175];
       [226; 129; 159]; [227; 128; 128]].

(** [s] without the prefix [p], when it starts with [p]. *)
Fixpoint cutPrefix (p s : string) : option string :=
  match p, s with
  | EmptyString, _ => Some s
  | String a p', String b s' => if Ascii.eqb a b then cutPrefix p' s' else None
  | String _ _, EmptyString => None
  end.

(** [s] without the first of the strings [ps] it starts with. *)
Fixpoint cutFirst (ps : list string) (s : string) : option string :=
  match ps with
  | [] => None
  | p :: ps' =>
      match cutPrefix p s with
      | Some r => Some r
      | None => cutFirst ps' s
      end
  end.

(** Drops the strings of [ps] from the front of [s] as long as one is
    there; [fuel] bounds the number of rounds. *)
Fixpoint trimFront (ps : list string) (fuel : nat) (s : string) : string :=
  match fuel with
  | O => s
  | S fuel' =>
      match cutFirst ps s with
      | Some r => trimFront ps fuel' r
      | None => s
      end
  end.

Fixpoint reverse (s : string) : string :=
  match s with
  | EmptyString => EmptyString
  | String c s' => reverse s' ++ String c EmptyString
  end.

(** [strings.TrimLeftFunc(s, unicode.IsSpace)] *)
Definition TrimLeft (s : string) : string :=
  trimFront spaces (String.length s) s.

(** [strings.TrimRightFunc(s, unicode.IsSpace)]: the same from the end. *)
Definition TrimRight (s : string) : string :=
  reverse (trimFront (map reverse spaces) (String.length s) (reverse s)).

(** [strings.TrimSpace(s)] *)
Definition TrimSpace (s : string) : string := TrimRight (TrimLeft s).

(** [strings.Split(s, "\n")]: the separator of every call in the
    program is the line feed.  The empty string splits into one empty
    piece. *)
Fixpoint SplitLines (s : string) : list string :=
  match s with
  | EmptyString => [EmptyString]
  | String c s' =>
      if Ascii.eqb c "010"%char then EmptyString :: SplitLines s'
      else match SplitLines s' with
           | [] => [String c EmptyString]
           | p :: ps => String c p :: ps
           end
  end.

(** [strings.Fields(s)]: the maximal runs of characters that are not
    white space.  [cur] is the field being read; [fuel] bounds the
    number of steps. *)
Definition flush (cur : string) : list string :=
  match cur with
  | EmptyString => []
  | _ => [cur]
  end.

Fixpoint fields_aux (fuel : nat) (cur : string) (s : string) : list string :=
  match fuel with
  | O => flush cur
  | S fuel' =>
      match s with
      | EmptyString => flush cur
      | String c s' =>
          match cutFirst spaces s with
          | Some r => List.app (flush cur) (fields_aux fuel' EmptyString r)
          | None => fields_aux fuel' (cur ++ String c EmptyString) s'
          end
      end
  end.

Definition Fields (s : string) : list string :=
  fields_aux (S (String.length s)) EmptyString s.

(** [strings.ToLower(s)].  A string of ASCII bytes has its letters A
    to Z lowered, byte by byte.  For any other string Go returns
    [strings.Map(unicode.ToLower, s)], which goes by the case tables of
    package unicode; that mapping is the parameter [mapLower]. *)
Definition lowerChar (c : ascii) : ascii :=
  let n := nat_of_ascii c in
  if ((65 <=? n) && (n <=? 90))%nat then ascii_of_nat (n + 32) else c.

Fixpoint lowerASCII (s : string) : string :=
  match s with
  | EmptyString => EmptyString
  | String c s' => String (lowerChar c) (lowerASCII s')
  end.

Fixpoint isASCII (s : string) : bool :=
  match s with
  | EmptyString => true
  | String c s' => (nat_of_ascii c <? 128)%nat && isASCII s'
  end.

Definition ToLower (mapLower : string -> string) (s : string) : string :=
  if isASCII s then lowerASCII s else mapLower s.

End strings.

Arguments strings.TrimSpace s : simpl never.
Arguments strings.Fields s : simpl never.
Arguments strings.ToLower mapLower s : simpl never.

(** ** Go [int]: 64-bit, two's complement *)

Definition int_min : Z := - 2 ^ 63.
Definition int_max : Z := 2 ^ 63 - 1.

Definition int_wrap (z : Z) : Z := (z + 2 ^ 63) mod 2 ^ 64 - 2 ^ 63.

(** [x++] *)
Definition int_incr (x : Z) : Z := int_wrap (x + 1).

(** [len(l)] *)
Definition len {A} (l : list A) : Z := Z.of_nat (List.length l).

(** [l[i]]: [None] stands for the run-time panic (index out of range). *)
Definition index {A} (l : list A) (i : Z) : option A :=
  if (i <? 0)%Z then None else nth_error l (Z.to_nat i).

(** ** Package [fmt] *)

Module fmt.

Fixpoint digits_of (fuel : nat) (n : Z) (acc : string) : string :=
  match fuel with
  | O => acc
  | S f =>
      let d := ascii_of_nat (48 + Z.to_nat (n mod 10)) in
      let acc' := String d acc in
      if (n / 10 =? 0)%Z then acc' else digits_of f (n / 10) acc'
  end.

(** The verb [%d] on an [int]. *)
Definition itoa (n : Z) : string :=
  if (n <? 0)%Z then "-" ++ digits_of 20 (- n) "" else digits_of 20 n "".

Definition isDigit (c : ascii) : bool :=
  let n := nat_of_ascii c in ((48 <=? n) && (n <=? 57))%nat.

Fixpoint takeWhile (p : ascii -> bool) (s : string) : string :=
  match s with
  | EmptyString => EmptyString
  | String c s' => if p c then String c (takeWhile p s') else EmptyString
  end.

Fixpoint decimal (s : string) (acc : Z) : Z :=
  match s with
  | EmptyString => acc
  | String c s' => decimal s' (10 * acc + Z.of_nat (nat_of_ascii c - 48))
  end.

(** [fmt.Sscanf(s, "%d", &x)] on a field without white space: an
    optional sign, then the longest run of decimal digits, handed to
    [strconv.ParseInt(tok, 10, 64)]; what follows the digits is not
    read.  When the scan fails (no digit, out of range) [x] keeps its
    value; the program ignores the error. *)
Definition Sscanf_d (s : string) (x : Z) : Z :=
  let '(neg, rest) :=
    match s with
    | String "+"%char r => (false, r)
    | String "-"%char r => (true, r)
    | _ => (false, s)
    end in
  let tok := takeWhile isDigit rest in
  match tok with
  | EmptyString => x
  | _ =>
      let v := if neg then (- decimal tok 0)%Z else decimal tok 0 in
      if ((int_min <=? v) && (v <=? int_max))%Z then v else x
  end.

End fmt.

(** ** Data (git.go, config.go) *)

(** [type Branch struct] *)
Record Branch := mkBranch {
  Name : string;
  Description : string;
  Behind : Z;
  Ahead : Z;
  LastCommit : string;
  Selected : bool;
  Status : string  (* "ok", "behind", "conflict", "updated", "deleted" *)
}.

Definition zeroBranch : Branch := mkBranch "" "" 0 0 "" false "".

Definition with_Description (v : string) (b : Branch) : Branch :=
  mkBranch (Name b) v (Behind b) (Ahead b) (LastCommit b) (Selected b) (Status b).
Definition with_Behind (v : Z) (b : Branch) : Branch :=
  mkBranch (Name b) (Description b) v (Ahead b) (LastCommit b) (Selected b) (Status b).
Definition with_Ahead (v : Z) (b : Branch) : Branch :=
  mkBranch (Name b) (Description b) (Behind b) v (LastCommit b) (Selected b) (Status b).
Definition with_LastCommit (v : string) (b : Branch) : Branch :=
  mkBranch (Name b) (Description b) (Behind b) (Ahead b) v (Selected b) (Status b).
Definition with_Selected (v : bool) (b : Branch) : Branch :=
  mkBranch (Name b) (Description b) (Behind b) (Ahead b) (LastCommit b) v (Status b).
Definition with_Status (v : string) (b : Branch) : Branch :=
  mkBranch (Name b) (Description b) (Behind b) (Ahead b) (LastCommit b) (Selected b) v.

(** [type Config struct] *)
Record Config := mkConfig {
  BaseBranch : string;
  UpstreamRemote : string;
  OriginRemote : string;
  ExcludePatterns : list string
}.

(** ** The world outside the program *)

(** A [*Branch]. *)
Definition loc := nat.

(** What one finished process hands back: the captured output and the
    error of [Run], [Output] or [CombinedOutput] ([None] is [nil]). *)
Record CmdResult := mkResult {
  out : string;
  err : option string
}.

(** What is fixed for one run of the program: the answers of git, given
    the commands run before and the command; the [-m] flag; how
    package fmt renders a format string that comes without operands
    ([fmt.Errorf(text)], the identity on texts without a percent sign);
    and what the case tables of package unicode make of a string that
    is not all ASCII ([strings.Map(unicode.ToLower, s)]). *)
Record Env := mkEnv {
  git : list (list string) -> list string -> CmdResult;
  manualMode : bool;
  Errorf0 : string -> string;
  mapLower : string -> string
}.

Record World := mkWorld {
  trace : list (list string);   (* argument vectors, oldest first *)
  heap : loc -> Branch;         (* the branches behind the pointers *)
  next : loc                    (* the next free location *)
}.

Definition with_trace (t : list (list string)) (w : World) : World :=
  mkWorld t (heap w) (next w).
Definition with_heap (h : loc -> Branch) (w : World) : World :=
  mkWorld (trace w) h (next w).

Definition emptyWorld : World := mkWorld [] (fun _ => zeroBranch) 0.

(** A computation either returns in a new world or panics in one. *)
Inductive Outcome (A : Type) : Type :=
| Ok (a : A) (w : World)
| Panic (w : World).
Arguments Ok {A} a w.
Arguments Panic {A} w.

Definition M (A : Type) : Type := World -> Outcome A.

Definition ret {A} (a : A) : M A := fun w => Ok a w.

Definition bind {A B} (c : M A) (k : A -> M B) : M B :=
  fun w => match c w with
           | Ok a w' => k a w'
           | Panic w' => Panic w'
           end.

Definition panic {A} : M A := fun w => Panic w.

Declare Scope go_scope.
Delimit Scope go_scope with go.
Notation "x <- c ;; k" := (bind c (fun x => k))
  (at level 61, c at next level, right associativity) : go_scope.
Notation "' p <- c ;; k" := (bind c (fun x => let 'p := x in k))
  (at level 61, p pattern, c at next level, right associativity) : go_scope.
Notation "c ;;; k" := (bind c (fun _ => k))
  (at level 61, right associativity) : go_scope.
Open Scope go_scope.

(** The world an outcome ends in. *)
Definition world_of {A} (o : Outcome A) : World :=
  match o with Ok _ w => w | Panic w => w end.

(** [*p] and [*p = b] *)
Definition load (l : loc) : M Branch := fun w => Ok (heap w l) w.

Definition upd (h : loc -> Branch) (l : loc) (f : Branch -> Branch) : loc -> Branch :=
  fun l' => if Nat.eqb l' l then f (h l') else h l'.

Definition modify (l : loc) (f : Branch -> Branch) : M unit :=
  fun w => Ok tt (with_heap (upd (heap w) l f) w).

(** [&Branch{...}] *)
Definition alloc (b : Branch) : M loc :=
  fun w => Ok (next w)
              (mkWorld (trace w) (upd (heap w) (next w) (fun _ => b)) (S (next w))).

(** [for _, x := range l { body }] *)
Fixpoint forEach {A} (l : list A) (body : A -> M unit) : M unit :=
  match l with
  | [] => ret tt
  | x :: l' => body x ;;; forEach l' body
  end.

(** [for _, b := range bs { if cond(b) { body(b); break } }] *)
Fixpoint forFirst (bs : list loc) (cond : Branch -> bool) (body : loc -> M unit)
  : M unit :=
  match bs with
  | [] => ret tt
  | l :: bs' =>
      b <- load l ;;
      if cond b then body l else forFirst bs' cond body
  end.

Section Git.

Variable env : Env.

(** [exec.Command(argv...)] followed by [Output()] or
    [CombinedOutput()]: the process runs, and is logged. *)
Definition Output (argv : list string) : M (string * option string) :=
  fun w => let r := git env (trace w) argv in
           Ok (out r, err r) (with_trace (trace w ++ [argv]) w).

Definition CombinedOutput := Output.

(** [exec.Command(argv...).Run()] *)
Definition Run (argv : list string) : M (option string) :=
  '(_, e) <- Output argv ;; ret e.

(** *** tags.go *)

Definition GetBranchTag (branchName : string) : M string :=
  '(output, e) <- Output ["git"; "config"; "branch." ++ branchName ++ ".description"] ;;
  match e with
  | Some _ => ret ""
  | None => ret (strings.TrimSpace output)
  end.

Definition SetBranchTag (branchName description : string) : M (option string) :=
  Run ["git"; "config"; "branch." ++ branchName ++ ".description"; description].

Definition RemoveBranchTag (branchName : string) : M (option string) :=
  Run ["git"; "config"; "--unset"; "branch." ++ branchName ++ ".description"].

(** *** git.go *)

Definition GetAllBranches : M (list string * option string) :=
  '(output, e) <- Output ["git"; "branch"; "--format=%(refname:short)"] ;;
  match e with
  | Some msg => ret ([], Some msg)
  | None => ret (strings.SplitLines (strings.TrimSpace output), None)
  end.

Definition GetBranchInfo (branchName baseBranch : string)
  : M (loc * option string) :=
  branch <- alloc (mkBranch branchName "" 0 0 "" false "ok") ;;
  d <- GetBranchTag branchName ;;
  modify branch (with_Description d) ;;;
  '(output, e) <- Output ["git"; "log"; "-1"; "--format=%ar"; branchName] ;;
  match e with
  | None => modify branch (with_LastCommit (strings.TrimSpace output))
  | Some _ => ret tt
  end ;;;
  '(output, e) <- Output ["git"; "rev-list"; "--left-right"; "--count";
                          baseBranch ++ "..." ++ branchName] ;;
  match e with
  | None =>
      match strings.Fields output with
      | [p0; p1] =>
          modify branch (fun b => with_Behind (fmt.Sscanf_d p0 (Behind b)) b) ;;;
          modify branch (fun b => with_Ahead (fmt.Sscanf_d p1 (Ahead b)) b) ;;;
          b <- load branch ;;
          if (Behind b >? 0)%Z then modify branch (with_Status "behind") else ret tt
      | _ => ret tt
      end
  | Some _ => ret tt
  end ;;;
  ret (branch, None).

Definition FetchUpstream (remote baseBranch : string) : M (option string) :=
  Run ["git"; "fetch"; remote; baseBranch].

Definition UpdateBaseBranch (baseBranch remote : string) : M (option string) :=
  '(output, e) <- Output ["git"; "rev-list"; baseBranch;
                          "^" ++ remote ++ "/" ++ baseBranch] ;;
  match e with
  | Some msg => ret (Some ("could not check for branch divergence: " ++ msg))
  | None =>
      if (Z.of_nat (String.length (strings.TrimSpace output)) >? 0)%Z
      then ret (Some ("local base branch '" ++ baseBranch ++ "' has diverged from '"
                      ++ remote ++ "/" ++ baseBranch ++ "'. Please resolve manually"))
      else
        e <- Run ["git"; "checkout"; baseBranch] ;;
        match e with
        | Some msg => ret (Some ("failed to checkout " ++ baseBranch ++ ": " ++ msg))
        | None =>
            e <- Run ["git"; "reset"; "--hard"; remote ++ "/" ++ baseBranch] ;;
            match e with
            | Some msg =>
                ret (Some ("failed to reset to " ++ remote ++ "/" ++ baseBranch
                           ++ ": " ++ msg))
            | None =>
                e <- Run ["git"; "push"; "origin"; baseBranch; "--force-with-lease"] ;;
                match e with
                | Some msg => ret (Some ("failed to push to origin: " ++ msg))
                | None => ret None
                end
            end
        end
  end.

Definition RebaseBranch (branchName baseBranch : string) : M (option string) :=
  e <- Run ["git"; "checkout"; branchName] ;;
  match e with
  | Some msg => ret (Some ("failed to checkout: " ++ msg))
  | None =>
      e <- Run ["git"; "rebase"; baseBranch] ;;
      match e with
      | Some _ =>
          Run ["git"; "rebase"; "--abort"] ;;;
          ret (Some "rebase conflict")
      | None => ret None
      end
  end.

Definition PushBranch (branchName : string) : M (option string) :=
  Run ["git"; "push"; "origin"; branchName; "--force-with-lease"].

(** [fmt.Errorf(strings.TrimSpace(string(output)))] when the process
    failed. *)
Definition outputAsError (argv : list string) : M (option string) :=
  '(output, e) <- CombinedOutput argv ;;
  match e with
  | Some _ => ret (Some (Errorf0 env (strings.TrimSpace output)))
  | None => ret None
  end.

Definition DeleteLocalBranch (branchName : string) : M (option string) :=
  outputAsError ["git"; "branch"; "-d"; branchName].

Definition DeleteRemoteBranch (branchName : string) : M (option string) :=
  outputAsError ["git"; "push"; "origin"; "--delete"; branchName].

Definition StashChanges : M (option string) :=
  outputAsError ["git"; "stash"].

Definition StashPop : M (option string) :=
  outputAsError ["git"; "stash"; "pop"].

Definition HasUncommittedChanges : M bool :=
  '(output, e) <- Output ["git"; "status"; "--porcelain"; "-uno"] ;;
  match e with
  | Some _ => ret false
  | None => ret (Z.of_nat (String.length (strings.TrimSpace output)) >? 0)%Z
  end.

(** The body of the loop of [GetBranchesWithInfo], for one name;
    [branches] is the slice built so far. *)
Definition collectOne (baseBranch : string) (excludePatterns : list string)
           (name : string) (branches : list loc) : M (list loc) :=
  if String.eqb name baseBranch then ret branches
  else if existsb (fun pattern => strings.Contains name pattern) excludePatterns
  then ret branches
  else
    '(branch, e) <- GetBranchInfo name baseBranch ;;
    match e with
    | Some _ => ret branches
    | None => ret (branches ++ [branch])%list
    end.

Fixpoint collectAll (baseBranch : string) (excludePatterns : list string)
         (names : list string) (branches : list loc) : M (list loc) :=
  match names with
  | [] => ret branches
  | name :: rest =>
      branches' <- collectOne baseBranch excludePatterns name branches ;;
      collectAll baseBranch excludePatterns rest branches'
  end.

Definition GetBranchesWithInfo (baseBranch : string) (excludePatterns : list string)
  : M (list loc * option string) :=
  '(branchNames, e) <- GetAllBranches ;;
  match e with
  | Some msg => ret ([], Some msg)
  | None =>
      branches <- collectAll baseBranch excludePatterns branchNames [] ;;
      ret (branches, None)
  end.

End Git.

(** ** The bubbletea model (ui.go) *)

(** [type state int] *)
Inductive state : Set :=
| stateLoading
| stateBrowsing
| stateConfirming
| stateUpdating
| stateDone
| stateError
| stateTagging
| stateHelp
| stateConfirmingDelete
| stateDeleting
| stateConfirmingStash.

Definition state_eqb (a b : state) : bool :=
  match a, b with
  | stateLoading, stateLoading | stateBrowsing, stateBrowsing
  | stateConfirming, stateConfirming | stateUpdating, stateUpdating
  | stateDone, stateDone | stateError, stateError
  | stateTagging, stateTagging | stateHelp, stateHelp
  | stateConfirmingDelete, stateConfirmingDelete
  | stateDeleting, stateDeleting
  | stateConfirmingStash, stateConfirmingStash => true
  | _, _ => false
  end.

(** [type Model struct]; [config] is a [*Config], nil until the
    repository is loaded, and [branches] is a [[]*Branch]. *)
Module Model.

Record t := mk {
  state : state;
  config : option Config;
  branches : list loc;
  cursor : Z;
  message : string;
  error : string;
  currentBranch : string;
  originalBranch : string;
  updateIndex : Z;
  successCount : Z;
  failedBranches : list string;
  tagInput : string;
  tagMode : bool;
  commandLog : list string;
  searchMode : bool;
  searchQuery : string;
  loadingDots : string;
  deleteMode : bool;
  selectedForActionCount : Z;
  didStash : bool
}.

Definition set_state v (m : t) : t :=
  mk v (config m) (branches m) (cursor m) (message m) (error m)
     (currentBranch m) (originalBranch m) (updateIndex m) (successCount m)
     (failedBranches m) (tagInput m) (tagMode m) (commandLog m) (searchMode m)
     (searchQuery m) (loadingDots m) (deleteMode m) (selectedForActionCount m)
     (didStash m).
Definition set_config v (m : t) : t :=
  mk (state m) v (branches m) (cursor m) (message m) (error m)
     (currentBranch m) (originalBranch m) (updateIndex m) (successCount m)
     (failedBranches m) (tagInput m) (tagMode m) (commandLog m) (searchMode m)
     (searchQuery m) (loadingDots m) (deleteMode m) (selectedForActionCount m)
     (didStash m).
Definition set_branches v (m : t) : t :=
  mk (state m) (config m) v (cursor m) (message m) (error m) (currentBranch m)
     (originalBranch m) (updateIndex m) (successCount m) (failedBranches m)
     (tagInput m) (tagMode m) (commandLog m) (searchMode m) (searchQuery m)
     (loadingDots m) (deleteMode m) (selectedForActionCount m) (didStash m).
Definition set_cursor v (m : t) : t :=
  mk (state m) (config m) (branches m) v (message m) (error m)
     (currentBranch m) (originalBranch m) (updateIndex m) (successCount m)
     (failedBranches m) (tagInput m) (tagMode m) (commandLog m) (searchMode m)
     (searchQuery m) (loadingDots m) (deleteMode m) (selectedForActionCount m)
     (didStash m).
Definition set_message v (m : t) : t :=
  mk (state m) (config m) (branches m) (cursor m) v (error m)
     (currentBranch m) (originalBranch m) (updateIndex m) (successCount m)
     (failedBranches m) (tagInput m) (tagMode m) (commandLog m) (searchMode m)
     (searchQuery m) (loadingDots m) (deleteMode m) (selectedForActionCount m)
     (didStash m).
Definition set_error v (m : t) : t :=
  mk (state m) (config m) (branches m) (cursor m) (message m) v
     (currentBranch m) (originalBranch m) (updateIndex m) (successCount m)
     (failedBranches m) (tagInput m) (tagMode m) (commandLog m) (searchMode m)
     (searchQuery m) (loadingDots m) (deleteMode m) (selectedForActionCount m)
     (didStash m).
Definition set_currentBranch v (m : t) : t :=
  mk (state m) (config m) (branches m) (cursor m) (message m) (error m) v
     (originalBranch m) (updateIndex m) (successCount m) (failedBranches m)
     (tagInput m) (tagMode m) (commandLog m) (searchMode m) (searchQuery m)
     (loadingDots m) (deleteMode m) (selectedForActionCount m) (didStash m).
Definition set_originalBranch v (m : t) : t :=
  mk (state m) (config m) (branches m) (cursor m) (message m) (error m)
     (currentBranch m) v (updateIndex m) (successCount m) (failedBranches m)
     (tagInput m) (tagMode m) (commandLog m) (searchMode m) (searchQuery m)
     (loadingDots m) (deleteMode m) (selectedForActionCount m) (didStash m).
Definition set_updateIndex v (m : t) : t :=
  mk (state m) (config m) (branches m) (cursor m) (message m) (error m)
     (currentBranch m) (originalBranch m) v (successCount m)
     (failedBranches m) (tagInput m) (tagMode m) (commandLog m) (searchMode m)
     (searchQuery m) (loadingDots m) (deleteMode m) (selectedForActionCount m)
     (didStash m).
Definition set_successCount v (m : t) : t :=
  mk (state m) (config m) (branches m) (cursor m) (message m) (error m)
     (currentBranch m) (originalBranch m) (updateIndex m) v (failedBranches m)
     (tagInput m) (tagMode m) (commandLog m) (searchMode m) (searchQuery m)
     (loadingDots m) (deleteMode m) (selectedForActionCount m) (didStash m).
Definition set_failedBranches v (m : t) : t :=
  mk (state m) (config m) (branches m) (cursor m) (message m) (error m)
     (currentBranch m) (originalBranch m) (updateIndex m) (successCount m) v
     (tagInput m) (tagMode m) (commandLog m) (searchMode m) (searchQuery m)
     (loadingDots m) (deleteMode m) (selectedForActionCount m) (didStash m).
Definition set_tagInput v (m : t) : t :=
  mk (state m) (config m) (branches m) (cursor m) (message m) (error m)
     (currentBranch m) (originalBranch m) (updateIndex m) (successCount m)
     (failedBranches m) v (tagMode m) (commandLog m) (searchMode m)
     (searchQuery m) (loadingDots m) (deleteMode m) (selectedForActionCount m)
     (didStash m).
Definition set_tagMode v (m : t) : t :=
  mk (state m) (config m) (branches m) (cursor m) (message m) (error m)
     (currentBranch m) (originalBranch m) (updateIndex m) (successCount m)
     (failedBranches m) (tagInput m) v (commandLog m) (searchMode m)
     (searchQuery m) (loadingDots m) (deleteMode m) (selectedForActionCount m)
     (didStash m).
Definition set_commandLog v (m : t) : t :=
  mk (state m) (config m) (branches m) (cursor m) (message m) (error m)
     (currentBranch m) (originalBranch m) (updateIndex m) (successCount m)
     (failedBranches m) (tagInput m) (tagMode m) v (searchMode m)
     (searchQuery m) (loadingDots m) (deleteMode m) (selectedForActionCount m)
     (didStash m).
Definition set_searchMode v (m : t) : t :=
  mk (state m) (config m) (branches m) (cursor m) (message m) (error m)
     (currentBranch m) (originalBranch m) (updateIndex m) (successCount m)
     (failedBranches m) (tagInput m) (tagMode m) (commandLog m) v
     (searchQuery m) (loadingDots m) (deleteMode m) (selectedForActionCount m)
     (didStash m).
Definition set_searchQuery v (m : t) : t :=
  mk (state m) (config m) (branches m) (cursor m) (message m) (error m)
     (currentBranch m) (originalBranch m) (updateIndex m) (successCount m)
     (failedBranches m) (tagInput m) (tagMode m) (commandLog m) (searchMode m)
     v (loadingDots m) (deleteMode m) (selectedForActionCount m) (didStash m).
Definition set_loadingDots v (m : t) : t :=
  mk (state m) (config m) (branches m) (cursor m) (message m) (error m)
     (currentBranch m) (originalBranch m) (updateIndex m) (successCount m)
     (failedBranches m) (tagInput m) (tagMode m) (commandLog m) (searchMode m)
     (searchQuery m) v (deleteMode m) (selectedForActionCount m) (didStash m).
Definition set_deleteMode v (m : t) : t :=
  mk (state m) (config m) (branches m) (cursor m) (message m) (error m)
     (currentBranch m) (originalBranch m) (updateIndex m) (successCount m)
     (failedBranches m) (tagInput m) (tagMode m) (commandLog m) (searchMode m)
     (searchQuery m) (loadingDots m) v (selectedForActionCount m) (didStash m).
Definition set_selectedForActionCount v (m : t) : t :=
  mk (state m) (config m) (branches m) (cursor m) (message m) (error m)
     (currentBranch m) (originalBranch m) (updateIndex m) (successCount m)
     (failedBranches m) (tagInput m) (tagMode m) (commandLog m) (searchMode m)
     (searchQuery m) (loadingDots m) (deleteMode m) v (didStash m).
Definition set_didStash v (m : t) : t :=
  mk (state m) (config m) (branches m) (cursor m) (message m) (error m)
     (currentBranch m) (originalBranch m) (updateIndex m) (successCount m)
     (failedBranches m) (tagInput m) (tagMode m) (commandLog m) (searchMode m)
     (searchQuery m) (loadingDots m) (deleteMode m) (selectedForActionCount m)
     v.

End Model.

(** Messages.  A [tea.KeyMsg] is given by its [String()]; [otherMsg]
    is any message of the framework that [Update] has no case for. *)
Inductive Msg : Type :=
| KeyMsg (key : string)
| loadedMsg (branches : list loc) (config : option Config) (current : string)
| errorMsg (err : string)
| updateCompleteMsg
| branchUpdatedMsg (branch : string) (success : bool) (error : string)
| branchDeletedMsg (branch : string) (success : bool) (error : string)
| tickMsg
| otherMsg.

(** The commands [Update] hands to the runtime.  A closure made by
    [m.updateNextBranch()] or [m.deleteNextBranch()] keeps the model it
    was made from; the branches it reaches through the pointers are the
    ones in the store at the time it runs. *)
Inductive Cmd : Type :=
| CmdNil
| CmdQuit
| CmdTick
| CmdUpdateNext (m : Model.t)
| CmdDeleteNext (m : Model.t).

(** [InitialModel()] *)
Definition InitialModel : Model.t :=
  Model.mk stateLoading None [] 0 "Loading repository information..." ""
           "" "" 0 0 [] "" false [] false "" "" false 0 false.

(** [msg.String() == k1 || msg.String() == k2 || ...] *)
Definition keyIs (key : string) (ks : list string) : bool :=
  existsb (String.eqb key) ks.

(** Reading through the pointers. *)
Definition gets {A} (f : (loc -> Branch) -> A) : M A :=
  fun w => Ok (f (heap w)) w.

(** [m.config.F]: a nil [config] panics. *)
Definition derefConfig (c : option Config) : M Config :=
  match c with
  | Some cfg => ret cfg
  | None => panic
  end.

(** [selectedCount := 0; for _, b := range bs { if b.Selected { selectedCount++ } }] *)
Fixpoint countSelected (h : loc -> Branch) (bs : list loc) (selectedCount : Z) : Z :=
  match bs with
  | [] => selectedCount
  | b :: bs' =>
      countSelected h bs' (if Selected (h b) then int_incr selectedCount
                           else selectedCount)
  end.

(** The search for the target in [updateNextBranch] and
    [deleteNextBranch]: the selected branch at position [updateIndex]
    among the selected ones; [None] is the nil [targetBranch]. *)
Fixpoint findTarget (h : loc -> Branch) (bs : list loc) (currentIndex updateIndex : Z)
  : option loc :=
  match bs with
  | [] => None
  | b :: bs' =>
      if Selected (h b)
      then if (currentIndex =? updateIndex)%Z then Some b
           else findTarget h bs' (int_incr currentIndex) updateIndex
      else findTarget h bs' currentIndex updateIndex
  end.

(** The three lines logged for every selected branch. *)
Fixpoint branchCommands (h : loc -> Branch) (bs : list loc) (baseBranch : string)
  : list string :=
  match bs with
  | [] => []
  | b :: bs' =>
      List.app
        (if Selected (h b)
         then ["git checkout " ++ Name (h b);
               "git rebase " ++ baseBranch;
               "git push origin " ++ Name (h b) ++ " --force-with-lease"]
         else [])
        (branchCommands h bs' baseBranch)
  end.

(** [s[:len(s)-1]] *)
Definition dropLast (s : string) : string :=
  String.substring 0 (String.length s - 1) s.

Section Tea.

Variable env : Env.

(** The command log of an update, as the three places that start one
    build it. *)
Definition populateCommandLog (m : Model.t) : M (list string) :=
  cfg <- derefConfig (Model.config m) ;;
  rest <- gets (fun h => branchCommands h (Model.branches m) (BaseBranch cfg)) ;;
  ret (List.app
         ["git fetch " ++ UpstreamRemote cfg ++ " " ++ BaseBranch cfg;
          "git checkout " ++ BaseBranch cfg;
          "git reset --hard " ++ UpstreamRemote cfg ++ "/" ++ BaseBranch cfg;
          "git push origin " ++ BaseBranch cfg ++ " --force-with-lease"]
         rest).

(** [func (m Model) getFilteredBranches() []*Branch] *)
Definition matchesQuery (query : string) (b : Branch) : bool :=
  strings.Contains (strings.ToLower (mapLower env) (Name b)) query
  || strings.Contains (strings.ToLower (mapLower env) (Description b)) query.

Definition filterBranches (h : loc -> Branch) (m : Model.t) : list loc :=
  if String.eqb (Model.searchQuery m) "" then Model.branches m
  else filter (fun l => matchesQuery
                          (strings.ToLower (mapLower env) (Model.searchQuery m)) (h l))
              (Model.branches m).

Definition getFilteredBranches (m : Model.t) : M (list loc) :=
  gets (fun h => filterBranches h m).

(** The step of [updateNextBranch] that comes before the first branch:
    fetch, then [UpdateBaseBranch]; the result is the error text of
    the message, [None] when both went through. *)
Definition updateBase (m : Model.t) : M (option string) :=
  cfg <- derefConfig (Model.config m) ;;
  e <- FetchUpstream env (UpstreamRemote cfg) (BaseBranch cfg) ;;
  match e with
  | Some _ => ret (Some "fetch failed")
  | None => UpdateBaseBranch env (BaseBranch cfg) (UpstreamRemote cfg)
  end.

(** [func (m Model) updateNextBranch() tea.Cmd]: the body of the
    closure. *)
Definition updateNextBranch (m : Model.t) : M Msg :=
  targetBranch <- gets (fun h => findTarget h (Model.branches m) 0 (Model.updateIndex m)) ;;
  match targetBranch with
  | None => ret (branchUpdatedMsg "" false "branch not found")
  | Some target =>
      name <- gets (fun h => Name (h target)) ;;
      (* Update base branch first (only on first iteration) *)
      guard <- (if (Model.updateIndex m =? 0)%Z then updateBase m else ret None) ;;
      match guard with
      | Some msg => ret (branchUpdatedMsg name false msg)
      | None =>
          cfg <- derefConfig (Model.config m) ;;
          e <- RebaseBranch env name (BaseBranch cfg) ;;
          match e with
          | Some msg => ret (branchUpdatedMsg name false msg)
          | None =>
              e <- PushBranch env name ;;
              match e with
              | Some _ => ret (branchUpdatedMsg name false "push failed")
              | None => ret (branchUpdatedMsg name true "")
              end
          end
      end
  end.

(** [func (m Model) deleteNextBranch() tea.Cmd]: the body of the
    closure. *)
Definition deleteNextBranch (m : Model.t) : M Msg :=
  targetBranch <- gets (fun h => findTarget h (Model.branches m) 0 (Model.updateIndex m)) ;;
  match targetBranch with
  | None => ret (branchDeletedMsg "" false "branch not found")
  | Some target =>
      name <- gets (fun h => Name (h target)) ;;
      e <- DeleteLocalBranch env name ;;
      match e with
      | Some msg => ret (branchDeletedMsg name false msg)
      | None =>
          e <- DeleteRemoteBranch env name ;;
          match e with
          | Some msg => ret (branchDeletedMsg name false msg)
          | None => ret (branchDeletedMsg name true "")
          end
      end
  end.

(** [for _, b := range m.branches { b.Selected = false }] *)
Definition deselectAll (bs : list loc) : M unit :=
  forEach bs (fun b => modify b (with_Selected false)).

(** [if m.didStash { StashPop(); m.didStash = false }] *)
Definition popOwedStash (m : Model.t) : M Model.t :=
  if Model.didStash m
  then StashPop env ;;; ret (Model.set_didStash false m)
  else ret m.

(** The start of the update run: the assignments shared by the
    non-manual paths. *)
Definition startUpdating (selectedCount : Z) (m : Model.t) : Model.t :=
  let m := Model.set_state stateUpdating m in
  let m := Model.set_updateIndex 0%Z m in
  let m := Model.set_successCount 0%Z m in
  let m := Model.set_failedBranches [] m in
  Model.set_selectedForActionCount selectedCount m.

(** [func (m Model) handleSearchKeys] *)
Definition handleSearchKeys (m : Model.t) (key : string) : M (Model.t * Cmd) :=
  if keyIs key ["enter"; "esc"] then
    ret (Model.set_searchMode false m, CmdNil)
  else if keyIs key ["backspace"] then
    if (Z.of_nat (String.length (Model.searchQuery m)) >? 0)%Z then
      let m := Model.set_searchQuery (dropLast (Model.searchQuery m)) m in
      ret (Model.set_cursor 0%Z m, CmdNil)
    else ret (m, CmdNil)
  else if keyIs key ["ctrl+c"] then
    ret (m, CmdQuit)
  else if (String.length key =? 1)%nat then
    let m := Model.set_searchQuery (Model.searchQuery m ++ key) m in
    ret (Model.set_cursor 0%Z m, CmdNil)
  else ret (m, CmdNil).

(** [func (m Model) handleBrowsingKeys] *)
Definition handleBrowsingKeys (m : Model.t) (key : string) : M (Model.t * Cmd) :=
  if Model.searchMode m then handleSearchKeys m key
  else if keyIs key ["ctrl+c"; "q"] then
    ret (m, CmdQuit)
  else if keyIs key ["up"; "k"] then
    filtered <- getFilteredBranches m ;;
    let m := if (Model.cursor m >? 0)%Z
             then Model.set_cursor (Model.cursor m - 1)%Z m else m in
    let m := if ((Model.cursor m >=? len filtered) && (len filtered >? 0))%Z
             then Model.set_cursor (len filtered - 1)%Z m else m in
    ret (m, CmdNil)
  else if keyIs key ["down"; "j"] then
    filtered <- getFilteredBranches m ;;
    let m := if (Model.cursor m <? len filtered - 1)%Z
             then Model.set_cursor (int_incr (Model.cursor m)) m else m in
    ret (m, CmdNil)
  else if keyIs key [" "] then
    filtered <- getFilteredBranches m ;;
    (if (Model.cursor m <? len filtered)%Z
     then match index filtered (Model.cursor m) with
          | Some b => modify b (fun x => with_Selected (negb (Selected x)) x)
          | None => panic
          end
     else ret tt) ;;;
    ret (m, CmdNil)
  else if keyIs key ["a"] then
    filtered <- getFilteredBranches m ;;
    forEach filtered (fun b => modify b (with_Selected true)) ;;;
    ret (m, CmdNil)
  else if keyIs key ["n"] then
    filtered <- getFilteredBranches m ;;
    forEach filtered (fun b => modify b (with_Selected false)) ;;;
    ret (m, CmdNil)
  else if keyIs key ["d"] then
    if negb (Model.deleteMode m) then
      let m := Model.set_deleteMode true m in
      ret (Model.set_message
             "DELETE MODE: Select branches and press 'd' to confirm deletion." m,
           CmdNil)
    else
      selectedCount <- gets (fun h => countSelected h (Model.branches m) 0) ;;
      if (selectedCount >? 0)%Z then
        let m := Model.set_state stateConfirmingDelete m in
        ret (Model.set_message
               ("Ready to delete " ++ fmt.itoa selectedCount ++ " branch(es).") m,
             CmdNil)
      else ret (Model.set_message "No branches selected for deletion." m, CmdNil)
  else if keyIs key ["h"] then
    ret (Model.set_state stateHelp m, CmdNil)
  else if keyIs key ["t"] then
    filtered <- getFilteredBranches m ;;
    if (Model.cursor m <? len filtered)%Z
    then match index filtered (Model.cursor m) with
         | Some b =>
             d <- gets (fun h => Description (h b)) ;;
             let m := Model.set_state stateTagging m in
             ret (Model.set_tagInput d m, CmdNil)
         | None => panic
         end
    else ret (m, CmdNil)
  else if keyIs key ["/"] then
    let m := Model.set_searchMode true m in
    let m := Model.set_searchQuery "" m in
    ret (Model.set_cursor 0%Z m, CmdNil)
  else if keyIs key ["esc"] then
    if negb (String.eqb (Model.searchQuery m) "") then
      let m := Model.set_searchQuery "" m in
      ret (Model.set_cursor 0%Z m, CmdNil)
    else if Model.deleteMode m then
      let m := Model.set_deleteMode false m in
      let m := Model.set_message "" m in
      deselectAll (Model.branches m) ;;;
      ret (m, CmdNil)
    else ret (m, CmdNil)
  else if keyIs key ["enter"] then
    if Model.deleteMode m then ret (m, CmdNil)
    else
      dirty <- HasUncommittedChanges env ;;
      if dirty then
        let m := Model.set_state stateConfirmingStash m in
        ret (Model.set_message
               "You have uncommitted changes. Stash them and proceed? (y/n)" m,
             CmdNil)
      else
        selectedCount <- gets (fun h => countSelected h (Model.branches m) 0) ;;
        if (selectedCount =? 0)%Z then
          ret (Model.set_message "No branches selected" m, CmdNil)
        else
          log <- populateCommandLog m ;;
          let m := Model.set_commandLog log m in
          if manualMode env then
            let m := Model.set_state stateConfirming m in
            ret (Model.set_message
                   ("Ready to update " ++ fmt.itoa selectedCount
                    ++ " branch(es). Press 'y' to continue, 'n' to cancel.") m,
                 CmdNil)
          else
            let m := startUpdating selectedCount m in
            ret (m, CmdUpdateNext m)
  else ret (m, CmdNil).

(** [func (m Model) handleConfirmingKeys] *)
Definition handleConfirmingKeys (m : Model.t) (key : string) : M (Model.t * Cmd) :=
  if keyIs key ["y"; "Y"] then
    selectedCount <- gets (fun h => countSelected h (Model.branches m) 0) ;;
    let m := startUpdating selectedCount m in
    log <- populateCommandLog m ;;
    let m := Model.set_commandLog log m in
    ret (m, CmdUpdateNext m)
  else if keyIs key ["n"; "N"; "q"; "ctrl+c"] then
    let m := Model.set_state stateBrowsing m in
    ret (Model.set_message "Update cancelled" m, CmdNil)
  else ret (m, CmdNil).

(** The command log of a deletion. *)
Fixpoint deleteCommands (h : loc -> Branch) (bs : list loc) : list string :=
  match bs with
  | [] => []
  | b :: bs' =>
      List.app
        (if Selected (h b)
         then ["git branch -d " ++ Name (h b);
               "git push origin --delete " ++ Name (h b)]
         else [])
        (deleteCommands h bs')
  end.

(** [func (m Model) handleConfirmingDeleteKeys] *)
Definition handleConfirmingDeleteKeys (m : Model.t) (key : string)
  : M (Model.t * Cmd) :=
  if keyIs key ["y"; "Y"] then
    selectedCount <- gets (fun h => countSelected h (Model.branches m) 0) ;;
    let m := Model.set_state stateDeleting m in
    let m := Model.set_updateIndex 0%Z m in
    let m := Model.set_successCount 0%Z m in
    let m := Model.set_failedBranches [] m in
    let m := Model.set_selectedForActionCount selectedCount m in
    log <- gets (fun h => deleteCommands h (Model.branches m)) ;;
    let m := Model.set_commandLog log m in
    ret (m, CmdDeleteNext m)
  else if keyIs key ["n"; "N"; "q"; "ctrl+c"; "esc"] then
    let m := Model.set_state stateBrowsing m in
    let m := Model.set_deleteMode false m in
    let m := Model.set_message "Deletion cancelled" m in
    deselectAll (Model.branches m) ;;;
    ret (m, CmdNil)
  else ret (m, CmdNil).

(** [func (m Model) handleConfirmingStashKeys] *)
Definition handleConfirmingStashKeys (m : Model.t) (key : string)
  : M (Model.t * Cmd) :=
  if keyIs key ["y"; "Y"] then
    e <- StashChanges env ;;
    match e with
    | Some msg =>
        let m := Model.set_state stateError m in
        ret (Model.set_error msg m, CmdNil)
    | None =>
        let m := Model.set_didStash true m in
        log <- populateCommandLog m ;;
        let m := Model.set_commandLog log m in
        selectedCount <- gets (fun h => countSelected h (Model.branches m) 0) ;;
        if (selectedCount =? 0)%Z then
          let m := Model.set_message "No branches selected" m in
          ret (Model.set_state stateBrowsing m, CmdNil)
        else if manualMode env then
          let m := Model.set_state stateConfirming m in
          ret (Model.set_message
                 ("Ready to update " ++ fmt.itoa selectedCount
                  ++ " branch(es). Press 'y' to continue, 'n' to cancel.") m,
               CmdNil)
        else
          let m := startUpdating selectedCount m in
          ret (m, CmdUpdateNext m)
    end
  else if keyIs key ["n"; "N"; "q"; "ctrl+c"; "esc"] then
    let m := Model.set_state stateBrowsing m in
    ret (Model.set_message "Update cancelled." m, CmdNil)
  else ret (m, CmdNil).

(** [func (m Model) handleTaggingKeys] *)
Definition handleTaggingKeys (m : Model.t) (key : string) : M (Model.t * Cmd) :=
  if keyIs key ["enter"] then
    (if (Model.cursor m <? len (Model.branches m))%Z
     then match index (Model.branches m) (Model.cursor m) with
          | Some branch =>
              name <- gets (fun h => Name (h branch)) ;;
              if negb (String.eqb (Model.tagInput m) "")
              then SetBranchTag env name (Model.tagInput m) ;;;
                   modify branch (with_Description (Model.tagInput m))
              else RemoveBranchTag env name ;;;
                   modify branch (with_Description "")
          | None => panic
          end
     else ret tt) ;;;
    let m := Model.set_state stateBrowsing m in
    ret (Model.set_tagInput "" m, CmdNil)
  else if keyIs key ["esc"; "ctrl+c"] then
    let m := Model.set_state stateBrowsing m in
    ret (Model.set_tagInput "" m, CmdNil)
  else if keyIs key ["backspace"] then
    if (Z.of_nat (String.length (Model.tagInput m)) >? 0)%Z
    then ret (Model.set_tagInput (dropLast (Model.tagInput m)) m, CmdNil)
    else ret (m, CmdNil)
  else if (String.length key =? 1)%nat then
    ret (Model.set_tagInput (Model.tagInput m ++ key) m, CmdNil)
  else ret (m, CmdNil).

(** [func (m Model) handleHelpKeys] *)
Definition handleHelpKeys (m : Model.t) (key : string) : M (Model.t * Cmd) :=
  if keyIs key ["h"; "q"; "esc"] then ret (Model.set_state stateBrowsing m, CmdNil)
  else ret (m, CmdNil).

(** The reset done on space or enter in [stateDone] and [stateError]. *)
Definition resetSession (m : Model.t) : M (Model.t * Cmd) :=
  let m := Model.set_state stateBrowsing m in
  let m := Model.set_message "" m in
  let m := Model.set_successCount 0%Z m in
  let m := Model.set_failedBranches [] m in
  let m := Model.set_updateIndex 0%Z m in
  let m := Model.set_selectedForActionCount 0%Z m in
  let m := Model.set_commandLog [] m in
  let m := Model.set_didStash false m in
  let m := Model.set_deleteMode false m in
  deselectAll (Model.branches m) ;;;
  ret (m, CmdNil).

(** [func (m Model) handleKeyPress] *)
Definition handleKeyPress (m : Model.t) (key : string) : M (Model.t * Cmd) :=
  match Model.state m with
  | stateBrowsing => handleBrowsingKeys m key
  | stateConfirming => handleConfirmingKeys m key
  | stateConfirmingDelete => handleConfirmingDeleteKeys m key
  | stateConfirmingStash => handleConfirmingStashKeys m key
  | stateDone | stateError =>
      if keyIs key [" "; "enter"] then resetSession m
      else if keyIs key ["q"; "ctrl+c"] then
        (if Model.didStash m then StashPop env ;;; ret tt else ret tt) ;;;
        ret (Model.set_deleteMode false m, CmdQuit)
      else ret (m, CmdNil)
  | stateTagging => handleTaggingKeys m key
  | stateHelp => handleHelpKeys m key
  | stateLoading | stateUpdating | stateDeleting => ret (m, CmdNil)
  end.

(** The two cases of [Update] for a finished branch share their
    shape: count or record, advance, stop or go on. *)
Definition branchFinished (status : string) (next_cmd : Model.t -> Cmd)
           (m : Model.t) (branch : string) (success : bool) (error : string)
  : M (Model.t * Cmd) :=
  m <- (if success
        then
          let m := Model.set_successCount (int_incr (Model.successCount m)) m in
          forFirst (Model.branches m) (fun b => String.eqb (Name b) branch)
                   (fun b => modify b (with_Status status)) ;;;
          ret m
        else
          ret (Model.set_failedBranches
                 (List.app (Model.failedBranches m)
                           [branch ++ " (" ++ error ++ ")"]) m)) ;;
  let m := Model.set_updateIndex (int_incr (Model.updateIndex m)) m in
  if (Model.updateIndex m >=? Model.selectedForActionCount m)%Z then
    let m := Model.set_state stateDone m in
    m <- popOwedStash m ;;
    ret (m, CmdNil)
  else ret (m, next_cmd m).

(** [func (m Model) Update(msg tea.Msg) (tea.Model, tea.Cmd)] *)
Definition Update (m : Model.t) (msg : Msg) : M (Model.t * Cmd) :=
  match msg with
  | KeyMsg key => handleKeyPress m key
  | loadedMsg branches config current =>
      let m := Model.set_branches branches m in
      let m := Model.set_config config m in
      let m := Model.set_currentBranch current m in
      let m := Model.set_originalBranch current m in
      let m := Model.set_state stateBrowsing m in
      ret (Model.set_message "" m, CmdNil)
  | errorMsg e =>
      let m := Model.set_state stateError m in
      let m := Model.set_error e m in
      m <- popOwedStash m ;;
      ret (m, CmdNil)
  | branchUpdatedMsg branch success error =>
      branchFinished "updated" CmdUpdateNext m branch success error
  | tickMsg =>
      if state_eqb (Model.state m) stateLoading then
        let m := if (Z.of_nat (String.length (Model.loadingDots m)) <? 3)%Z
                 then Model.set_loadingDots (Model.loadingDots m ++ ".") m
                 else Model.set_loadingDots "" m in
        ret (m, CmdTick)
      else ret (m, CmdNil)
  | branchDeletedMsg branch success error =>
      branchFinished "deleted" CmdDeleteNext m branch success error
  | updateCompleteMsg | otherMsg => ret (m, CmdNil)
  end.

(** ** The runtime: commands run, their messages come back *)

(** Running a command gives the message it sends, if any. *)
Definition execCmd (c : Cmd) : M (option Msg) :=
  match c with
  | CmdNil | CmdQuit => ret None
  | CmdTick => ret (Some tickMsg)
  | CmdUpdateNext m => msg <- updateNextBranch m ;; ret (Some msg)
  | CmdDeleteNext m => msg <- deleteNextBranch m ;; ret (Some msg)
  end.

(** The message loop while no key is pressed: the pending command
    runs, its message is handed to [Update], and so on, for at most
    [fuel] rounds. *)
Fixpoint pump (fuel : nat) (m : Model.t) (c : Cmd) : M (Model.t * Cmd) :=
  match fuel with
  | O => ret (m, c)
  | S fuel' =>
      msg <- execCmd c ;;
      match msg with
      | None => ret (m, c)
      | Some msg =>
          '(m', c') <- Update m msg ;;
          pump fuel' m' c'
      end
  end.

(** A session: each key is handled, then the commands it started run
    to their end.  The session stops at [tea.Quit]; the flag tells
    whether it did.  This is the loop over [Update] only: the text that
    [View] renders after every [Update] is not part of the model.  The
    views of the browsing and the confirming screens read [m.config],
    so what a session says holds of the program for models that hold a
    configuration. *)
Fixpoint session (fuel : nat) (m : Model.t) (keys : list string)
  : M (Model.t * bool) :=
  match keys with
  | [] => ret (m, false)
  | key :: keys' =>
      '(m1, c1) <- Update m (KeyMsg key) ;;
      '(m2, c2) <- pump fuel m1 c1 ;;
      match c2 with
      | CmdQuit => ret (m2, true)
      | _ => session fuel m2 keys'
      end
  end.

End Tea.

(** ** Reading outcomes and traces *)

(** The value a computation returned, if it did not panic. *)
Definition result_of {A} (o : Outcome A) : option A :=
  match o with Ok a _ => Some a | Panic _ => None end.

(** The git subcommand of a logged process: [git <subcommand> ...]. *)
Definition subcommand (argv : list string) : string :=
  match argv with
  | _ :: sub :: _ => sub
  | _ => ""
  end.

(** What [GetBranchesWithInfo] keeps of the names it enumerates. *)
Definition kept (baseBranch : string) (excludePatterns : list string)
           (name : string) : bool :=
  negb (String.eqb name baseBranch)
  && negb (existsb (fun pattern => strings.Contains name pattern) excludePatterns).

(** ** Concrete repositories *)

Module Example.

(** Git answers that every command went through, with no output,
    except for the commands listed with their answers. *)
Fixpoint argv_eqb (a b : list string) : bool :=
  match a, b with
  | [], [] => true
  | x :: a', y :: b' => String.eqb x y && argv_eqb a' b'
  | _, _ => false
  end.

Fixpoint answer (script : list (list string * CmdResult)) (argv : list string)
  : CmdResult :=
  match script with
  | [] => mkResult "" None
  | (a, r) :: script' => if argv_eqb a argv then r else answer script' argv
  end.

Definition scripted (script : list (list string * CmdResult)) : Env :=
  mkEnv (fun _ argv => answer script argv) false (fun s => s) (fun s => s).

Definition quiet : Env := scripted [].

(** A working tree with a modified file. *)
Definition dirty : list string * CmdResult :=
  (["git"; "status"; "--porcelain"; "-uno"], mkResult " M main.go" None).

(** A local [main] with a commit that [upstream/main] lacks. *)
Definition diverged : list string * CmdResult :=
  (["git"; "rev-list"; "main"; "^upstream/main"],
   mkResult "3f2a9c1d" None).

(** Rebasing onto [main] stops on a conflict. *)
Definition conflicting : list string * CmdResult :=
  (["git"; "rebase"; "main"], mkResult "" (Some "exit status 1")).

(** [feature-a] holds commits that are not merged. *)
Definition unmerged : list string * CmdResult :=
  (["git"; "branch"; "-d"; "feature-a"],
   mkResult "error: The branch 'feature-a' is not fully merged." (Some "exit status 1")).

(** The local branches of the scenario with an excluded release line. *)
Definition listing : list string * CmdResult :=
  (["git"; "branch"; "--format=%(refname:short)"],
   mkResult "main
release/1.0
feature-x
" None).

Definition cfg : Config := mkConfig "main" "upstream" "origin" [].

(** Three branches behind the pointers 0, 1 and 2; [sel] says which
    of them are selected. *)
Definition store (sel : loc -> bool) : loc -> Branch :=
  fun l =>
    match l with
    | 0 => mkBranch "feature-a" "first" 2 0 "2 days ago" (sel 0) "behind"
    | 1 => mkBranch "feature-b" "second" 0 1 "3 hours ago" (sel 1) "ok"
    | 2 => mkBranch "feature-c" "" 1 1 "5 weeks ago" (sel 2) "behind"
    | _ => zeroBranch
    end.

Definition all : loc -> bool := fun _ => true.
Definition none : loc -> bool := fun _ => false.

Definition world (sel : loc -> bool) : World := mkWorld [] (store sel) 3.

(** The model once the repository is loaded. *)
Definition browsing : Model.t :=
  Model.set_state stateBrowsing
    (Model.set_config (Some cfg) (Model.set_branches [0; 1; 2] InitialModel)).

(** The model in the middle of a run over the three branches, at
    position [k]. *)
Definition running (st : state) (k : Z) : Model.t :=
  Model.set_updateIndex k
    (Model.set_selectedForActionCount 3%Z (Model.set_state st browsing)).

End Example.

(** ** Detection and configuration (git.go, config.go) *)

(** [strings.SplitN(s, ":", 2)]: cut at the first colon, if there is
    one. *)
Fixpoint cutColon (s : string) : option (string * string) :=
  match s with
  | EmptyString => None
  | String c s' =>
      if Ascii.eqb c ":"%char then Some (EmptyString, s')
      else match cutColon s' with
           | Some (a, b) => Some (String c a, b)
           | None => None
           end
  end.

Definition SplitN2 (s : string) : list string :=
  match cutColon s with
  | Some (a, b) => [a; b]
  | None => [s]
  end.

(** The fallback names of [DetectBaseBranch], in its order. *)
Definition candidates : list string := ["main"; "master"; "dev-integration"; "develop"].

(** [for _, candidate := range candidates { for _, branch := range
    branches { if branch == candidate { return candidate } } }] *)
Fixpoint firstCandidate (cands branches : list string) : option string :=
  match cands with
  | [] => None
  | candidate :: rest =>
      if existsb (fun branch => String.eqb branch candidate) branches
      then Some candidate
      else firstCandidate rest branches
  end.

Definition with_BaseBranch (v : string) (c : Config) : Config :=
  mkConfig v (UpstreamRemote c) (OriginRemote c) (ExcludePatterns c).
Definition with_UpstreamRemote (v : string) (c : Config) : Config :=
  mkConfig (BaseBranch c) v (OriginRemote c) (ExcludePatterns c).

Section Detect.

Variable env : Env.

(** [func IsGitRepo() bool] *)
Definition IsGitRepo : M bool :=
  e <- Run env ["git"; "rev-parse"; "--git-dir"] ;;
  ret (match e with None => true | Some _ => false end).

(** [func GetCurrentBranch() (string, error)] *)
Definition GetCurrentBranch : M (string * option string) :=
  '(output, e) <- Output env ["git"; "branch"; "--show-current"] ;;
  match e with
  | Some msg => ret ("", Some msg)
  | None => ret (strings.TrimSpace output, None)
  end.

(** [func GetRemotes() ([]string, error)] *)
Definition GetRemotes : M (list string * option string) :=
  '(output, e) <- Output env ["git"; "remote"] ;;
  match e with
  | Some msg => ret ([], Some msg)
  | None => ret (strings.SplitLines (strings.TrimSpace output), None)
  end.

(** [func DetectUpstreamRemote() (string, error)] *)
Definition DetectUpstreamRemote : M (string * option string) :=
  '(remotes, e) <- GetRemotes ;;
  match e with
  | Some msg => ret ("", Some msg)
  | None =>
      if existsb (fun remote => String.eqb remote "upstream") remotes
      then ret ("upstream", None)
      else if existsb (fun remote => String.eqb remote "origin") remotes
      then ret ("origin", None)
      else ret ("", Some "no remotes found")
  end.

(** The loop of [DetectBaseBranch] over the lines of [git remote show]:
    the first line that reads [HEAD branch: <name>] decides; the local
    branches are listed on the way, and the name is returned whether it
    is among them or not. *)
Fixpoint scanHead (lines : list string) : M (option string) :=
  match lines with
  | [] => ret None
  | line :: rest =>
      let line := strings.TrimSpace line in
      if strings.HasPrefix line "HEAD branch:"
      then match SplitN2 line with
           | [_; p] =>
               GetAllBranches env ;;;
               ret (Some (strings.TrimSpace p))
           | _ => scanHead rest
           end
      else scanHead rest
  end.

(** [func DetectBaseBranch() (string, error)] *)
Definition DetectBaseBranch : M (string * option string) :=
  '(upstream, e) <- DetectUpstreamRemote ;;
  found <- match e with
           | None =>
               '(output, e) <- Output env ["git"; "remote"; "show"; upstream] ;;
               match e with
               | None => scanHead (strings.SplitLines output)
               | Some _ => ret None
               end
           | Some _ => ret None
           end ;;
  match found with
  | Some branch => ret (branch, None)
  | None =>
      '(branches, e) <- GetAllBranches env ;;
      match e with
      | Some msg => ret ("", Some msg)
      | None =>
          match firstCandidate candidates branches with
          | Some candidate => ret (candidate, None)
          | None =>
              match branches with
              | b :: _ => ret (b, None)
              | [] => ret ("", Some "no branches found")
              end
          end
      end
  end.

(** [func LoadConfig()], which returns a [*Config] and an error
    ([None] is nil for both).  [file] is what reading
    [.gitsync.yaml] gave: [None] when the file could not be read,
    otherwise what [yaml.Unmarshal] does to the defaults it is handed
    (its error is ignored). *)
Definition LoadConfig (file : option (Config -> Config))
  : M (option Config * option string) :=
  let config := mkConfig "" "" "origin" [] in
  let config := match file with
                | Some unmarshal => unmarshal config
                | None => config
                end in
  config <- (if String.eqb (BaseBranch config) ""
             then
               '(branch, e) <- DetectBaseBranch ;;
               match e with
               | None => ret (with_BaseBranch branch config)
               | Some _ => ret config
               end
             else ret config) ;;
  if String.eqb (UpstreamRemote config) ""
  then
    '(remote, e) <- DetectUpstreamRemote ;;
    match e with
    | None => ret (Some (with_UpstreamRemote remote config), None)
    | Some msg => ret (None, Some msg)
    end
  else ret (Some config, None).

End Detect.

(** ** Vocabulary of the properties *)

(** The queue of a run: the selected branches, in the order of the
    list. *)
Definition selectedOf (h : loc -> Branch) (bs : list loc) : list loc :=
  filter (fun l => Selected (h l)) bs.

(** A store keeps the queue of another when no branch changed its name
    or its selection. *)
Definition keepsQueue (h h' : loc -> Branch) : Prop :=
  forall l, Selected (h' l) = Selected (h l) /\ Name (h' l) = Name (h l).

(** How often a trace holds [git stash pop]. *)
Definition stashPops (t : list (list string)) : nat :=
  count_occ (list_eq_dec string_dec) t ["git"; "stash"; "pop"].

(** [runs P c post]: in every world, [c] returns (it does not panic),
    what it returns satisfies [post], the queue is kept, and every
    process it started satisfies [P]. *)
Definition runs {A} (P : list string -> Prop) (c : M A) (post : A -> Prop) : Prop :=
  forall w, exists a w',
    c w = Ok a w'
    /\ post a
    /\ keepsQueue (heap w) (heap w')
    /\ exists ext, trace w' = List.app (trace w) ext /\ Forall P ext.

(** A process that is not a [git stash ...]. *)
Definition notStash (argv : list string) : Prop := subcommand argv <> "stash".

(** The processes of an update: fetch, rev-list, checkout, reset,
    rebase (and its abort) and push. *)
Definition updateProcess (argv : list string) : Prop :=
  In (subcommand argv) ["fetch"; "rev-list"; "checkout"; "reset"; "rebase"; "push"].

(** The processes of a deletion: [git branch -d] and [git push origin
    --delete], for some branch. *)
Definition deleteProcess (argv : list string) : Prop :=
  exists name,
    argv = ["git"; "branch"; "-d"; name]
    \/ argv = ["git"; "push"; "origin"; "--delete"; name].

(** The four processes of [UpdateBaseBranch], in its order. *)
Definition baseUpdateCommands (baseBranch remote : string) : list (list string) :=
  [["git"; "rev-list"; baseBranch; "^" ++ remote ++ "/" ++ baseBranch];
   ["git"; "checkout"; baseBranch];
   ["git"; "reset"; "--hard"; remote ++ "/" ++ baseBranch];
   ["git"; "push"; "origin"; baseBranch; "--force-with-lease"]].

(** Whether step [k] of [UpdateBaseBranch] goes through once the
    steps before it ran after the processes [t]: its process ends
    without error and, for step 0, the divergence query, prints nothing
    but white space. *)
Definition baseStepPasses (env : Env) (t : list (list string))
           (baseBranch remote : string) (k : nat) : bool :=
  let cmds := baseUpdateCommands baseBranch remote in
  let r := git env (List.app t (firstn k cmds)) (nth k cmds []) in
  match err r with
  | Some _ => false
  | None =>
      match k with
      | O => String.eqb (strings.TrimSpace (out r)) ""
      | S _ => true
      end
  end.

(** The process [argv], started after the processes [t], ends without
    error. *)
Definition succeeds (env : Env) (t : list (list string)) (argv : list string) : Prop :=
  err (git env t argv) = None.

(** The configuration [LoadConfig] starts from, before detection. *)
Definition configured (file : option (Config -> Config)) : Config :=
  match file with
  | Some unmarshal => unmarshal (mkConfig "" "" "origin" [])
  | None => mkConfig "" "" "origin" []
  end.

(** The process that saves a tag: [git config] sets the description,
    or unsets it when the input is empty. *)
Definition tagCommand (name input : string) : list string :=
  if String.eqb input ""
  then ["git"; "config"; "--unset"; "branch." ++ name ++ ".description"]
  else ["git"; "config"; "branch." ++ name ++ ".description"; input].

(** ** More concrete repositories *)

Module Setup.

(** [origin] and [upstream] are configured. *)
Definition twoRemotes : list string * CmdResult :=
  (["git"; "remote"], mkResult "origin
upstream
" None).

(** No remote can be listed. *)
Definition noRemotes : list string * CmdResult :=
  (["git"; "remote"], mkResult "" (Some "exit status 128")).

(** The remote cannot be reached. *)
Definition offline : list string * CmdResult :=
  (["git"; "remote"; "show"; "upstream"], mkResult "" (Some "exit status 128")).

(** The remote's HEAD is [trunk]. *)
Definition headIsTrunk : list string * CmdResult :=
  (["git"; "remote"; "show"; "upstream"],
   mkResult "* remote upstream
  Fetch URL: git@example.org:team/project.git
  HEAD branch: trunk
" None).

(** The local branches cannot be listed. *)
Definition noListing : list string * CmdResult :=
  (["git"; "branch"; "--format=%(refname:short)"], mkResult "" (Some "exit status 128")).

(** A [.gitsync.yaml] that sets everything. *)
Definition fullFile (c : Config) : Config :=
  mkConfig "develop" "origin" (OriginRemote c) ["wip/"].

End Setup.

(** * Properties *)

(** ** Facts about the library models *)

Lemma prefix_app (p s : string) : String.prefix p (p ++ s) = true.
Proof.
  induction p as [|c p IH]; simpl.
  - now destruct s.
  - destruct (ascii_dec c c) as [_|N]; [exact IH | now elim N].
Qed.

Lemma prefix_split (p s : string) :
  String.prefix p s = true -> exists r, s = p ++ r.
Proof.
  revert s; induction p as [|c p IH]; intros s H.
  - now exists s.
  - destruct s as [|d s]; simpl in H; [discriminate|].
    destruct (ascii_dec c d) as [->|]; [|discriminate].
    destruct (IH _ H) as [r ->]. now exists r.
Qed.

Lemma Contains_here (s substr : string) :
  String.prefix substr s = true -> strings.Contains s substr = true.
Proof. intros H. destruct s; cbn [strings.Contains]; now rewrite H. Qed.

Lemma Contains_later (a s substr : string) :
  strings.Contains s substr = true -> strings.Contains (a ++ s) substr = true.
Proof.
  intros H. induction a as [|c a IH]; [exact H|].
  change (String c a ++ s) with (String c (a ++ s)). cbn [strings.Contains].
  rewrite IH. now destruct (String.prefix substr (String c (a ++ s))).
Qed.

(** [strings.Contains] decides the occurrence of a substring. *)
Lemma Contains_spec (s substr : string) :
  strings.Contains s substr = true <-> exists a b, s = a ++ substr ++ b.
Proof.
  split.
  - induction s as [|c s IH]; cbn [strings.Contains].
    + destruct (String.prefix substr "") eqn:P; [|discriminate].
      intros _. destruct (prefix_split _ _ P) as [r E]. now exists "", r.
    + destruct (String.prefix substr (String c s)) eqn:P.
      * intros _. destruct (prefix_split _ _ P) as [r E]. now exists "", r.
      * intros H. destruct (IH H) as (a & b & ->). now exists (String c a), b.
  - intros (a & b & ->). apply Contains_later, Contains_here, prefix_app.
Qed.

Lemma int_incr_small (x : Z) :
  (int_min - 1 <= x < int_max)%Z -> int_incr x = (x + 1)%Z.
Proof.
  unfold int_incr, int_wrap, int_min, int_max. intros H.
  rewrite Z.mod_small; lia.
Qed.

(** ** The store *)

Lemma upd_same h l f : upd h l f l = f (h l).
Proof. unfold upd. now rewrite Nat.eqb_refl. Qed.

Lemma upd_other h l f l' : l' <> l -> upd h l f l' = h l'.
Proof. unfold upd. intros N. now destruct (Nat.eqb_spec l' l). Qed.

(** ** The branch collector *)

Section Collector.

Variable env : Env.

(** [GetBranchInfo] returns a fresh branch of the given name and a nil
    error, whatever git answers, and leaves the other branches alone. *)
Lemma GetBranchInfo_spec branchName baseBranch w :
  exists w',
    GetBranchInfo env branchName baseBranch w = Ok (next w, None) w'
    /\ next w' = S (next w)
    /\ Name (heap w' (next w)) = branchName
    /\ (forall l, l <> next w -> heap w' l = heap w l).
Proof.
  unfold GetBranchInfo, GetBranchTag, bind, alloc, modify, load, Output, ret.
  cbn.
  repeat match goal with
         | |- context [err ?r] => destruct (err r); cbn
         end;
    try (destruct (strings.Fields _) as [|p0 [|p1 [|p2 ps]]]; cbn);
    try match goal with
        | |- context [(?a >? 0)%Z] => destruct (a >? 0)%Z; cbn
        end;
    (eexists; split; [reflexivity|]; cbn;
     split; [reflexivity|];
     split; [now rewrite ?upd_same|];
     intros l Hl; now rewrite ?upd_other by exact Hl).
Qed.

Lemma collectAll_spec baseBranch excludePatterns names :
  forall branches w,
    (forall l, In l branches -> l < next w) ->
    exists branches' w',
      collectAll env baseBranch excludePatterns names branches w = Ok branches' w'
      /\ next w <= next w'
      /\ (forall l, l < next w -> heap w' l = heap w l)
      /\ (forall l, In l branches' -> l < next w')
      /\ map (fun l => Name (heap w' l)) branches'
         = (map (fun l => Name (heap w l)) branches
            ++ filter (kept baseBranch excludePatterns) names)%list.
Proof.
  induction names as [|name rest IH]; intros branches w Hlt.
  - exists branches, w. cbn. rewrite app_nil_r. auto.
  - cbn [collectAll filter]. unfold bind, collectOne, kept.
    destruct (String.eqb name baseBranch) eqn:Eb; cbn [negb andb].
    { unfold ret. apply IH, Hlt. }
    destruct (existsb _ excludePatterns) eqn:Ex; cbn [negb].
    { unfold ret. apply IH, Hlt. }
    destruct (GetBranchInfo_spec name baseBranch w) as (w1 & E1 & N1 & Nm & Fr).
    unfold bind. rewrite E1. unfold ret.
    destruct (IH (branches ++ [next w])%list w1) as (bs' & w' & E & Hn & Hh & Hb & Hm).
    { intros l Hl. rewrite N1. apply in_app_or in Hl as [Hl|[<-|[]]]; [|lia].
      specialize (Hlt _ Hl). lia. }
    exists bs', w'. split; [exact E|].
    split; [lia|]. split; [|split; [exact Hb|]].
    + intros l Hl. rewrite Hh by lia. apply Fr. lia.
    + rewrite Hm, map_app. cbn [map]. rewrite Nm, <- app_assoc. cbn [app].
      f_equal. apply map_ext_in. intros l Hl. rewrite Fr; [reflexivity|].
      specialize (Hlt _ Hl). lia.
Qed.

Lemma kept_true baseBranch excludePatterns name :
  kept baseBranch excludePatterns name = true <->
  name <> baseBranch
  /\ forall p, In p excludePatterns -> strings.Contains name p = false.
Proof.
  unfold kept. rewrite andb_true_iff, !negb_true_iff. split.
  - intros [Hb Hx]. split.
    + now apply String.eqb_neq.
    + intros p Hp. destruct (strings.Contains name p) eqn:C; [|reflexivity].
      assert (existsb (fun q => strings.Contains name q) excludePatterns = true)
        by (apply existsb_exists; now exists p).
      congruence.
  - intros [Hb Hx]. split.
    + now apply String.eqb_neq.
    + destruct (existsb _ excludePatterns) eqn:Ex; [|reflexivity].
      apply existsb_exists in Ex as (p & Hp & C).
      rewrite (Hx p Hp) in C. discriminate.
Qed.

(** The names of the collected branches are, in order, the enumerated
    names that are kept. *)
Lemma GetBranchesWithInfo_names baseBranch excludePatterns w :
  exists branches e w',
    GetBranchesWithInfo env baseBranch excludePatterns w = Ok (branches, e) w'
    /\ match err (git env (trace w) ["git"; "branch"; "--format=%(refname:short)"]) with
       | Some msg => branches = [] /\ e = Some msg
       | None =>
           e = None
           /\ map (fun l => Name (heap w' l)) branches
              = filter (kept baseBranch excludePatterns)
                  (strings.SplitLines
                     (strings.TrimSpace
                        (out (git env (trace w)
                                  ["git"; "branch"; "--format=%(refname:short)"]))))
       end.
Proof.
  unfold GetBranchesWithInfo, GetAllBranches, bind, Output. cbn.
  destruct (err _) as [msg|].
  - cbn. now eexists _, _, _.
  - cbn. unfold bind.
    match goal with
    | |- context [collectAll env ?b ?p ?ns ?bs ?w0] =>
        destruct (collectAll_spec b p ns bs w0) as (bs' & w' & E & _ & _ & _ & Hm)
    end.
    { intros l []. }
    rewrite E. cbn. exists bs', None, w'. auto.
Qed.

End Collector.

Lemma length_pos_nonempty (s : string) :
  s <> "" -> (Z.of_nat (String.length s) >? 0)%Z = true.
Proof.
  destruct s; [congruence|]. intros _. cbn [String.length].
  apply Z.gtb_lt. lia.
Qed.

(** C5: the list [GetBranchesWithInfo] returns holds neither the base
    branch nor a branch whose name has an exclude pattern as a substring,
    whatever git enumerates and answers. *)
Theorem C5_collected_has_no_base_no_excluded
        (env : Env) (baseBranch : string) (excludePatterns : list string) (w : World) :
  exists branches e w',
    GetBranchesWithInfo env baseBranch excludePatterns w = Ok (branches, e) w'
    /\ forall l, In l branches ->
         Name (heap w' l) <> baseBranch
         /\ forall p, In p excludePatterns ->
              strings.Contains (Name (heap w' l)) p = false
              /\ ~ (exists a b, Name (heap w' l) = a ++ p ++ b).
Proof.
  destruct (GetBranchesWithInfo_names env baseBranch excludePatterns w)
    as (branches & e & w' & E & H).
  exists branches, e, w'. split; [exact E|].
  intros l Hl. destruct (err _) as [msg|].
  - destruct H as [-> _]. destruct Hl.
  - destruct H as [_ Hm].
    assert (K : kept baseBranch excludePatterns (Name (heap w' l)) = true).
    { apply (in_map (fun l => Name (heap w' l))) in Hl. rewrite Hm in Hl.
      now apply filter_In in Hl. }
    apply kept_true in K as [Kb Kx]. split; [exact Kb|].
    intros p Hp. split; [now apply Kx|].
    intros Hsub. apply Contains_spec in Hsub. rewrite (Kx p Hp) in Hsub.
    discriminate.
Qed.

(** C8: [GetBranchInfo] returns a nil error on every input, so the
    [continue] after it in [GetBranchesWithInfo] is never taken: the
    collected names are exactly the enumerated names that are neither
    the base nor excluded, each of them present. *)
Theorem C8_info_never_fails_nothing_skipped
        (env : Env) (baseBranch : string) (excludePatterns : list string)
        (w : World) (output : string) :
  git env (trace w) ["git"; "branch"; "--format=%(refname:short)"]
  = mkResult output None ->
  (forall name base w0,
      exists l w0', GetBranchInfo env name base w0 = Ok (l, None) w0')
  /\ exists branches w',
      GetBranchesWithInfo env baseBranch excludePatterns w = Ok (branches, None) w'
      /\ map (fun l => Name (heap w' l)) branches
         = filter (kept baseBranch excludePatterns)
                  (strings.SplitLines (strings.TrimSpace output))
      /\ forall name,
          In name (strings.SplitLines (strings.TrimSpace output)) ->
          name <> baseBranch ->
          (forall p, In p excludePatterns -> strings.Contains name p = false) ->
          exists l, In l branches /\ Name (heap w' l) = name.
Proof.
  intros Hgit. split.
  - intros name base w0.
    destruct (GetBranchInfo_spec env name base w0) as (w0' & E & _).
    now exists (next w0), w0'.
  - destruct (GetBranchesWithInfo_names env baseBranch excludePatterns w)
      as (branches & e & w' & E & H).
    rewrite Hgit in H. cbn in H. destruct H as [-> Hm].
    exists branches, w'. split; [exact E|]. split; [exact Hm|].
    intros name Hin Hb Hx.
    assert (Hk : In name (map (fun l => Name (heap w' l)) branches)).
    { rewrite Hm. apply filter_In. split; [exact Hin|]. now apply kept_true. }
    apply in_map_iff in Hk as (l & Hn & Hl). now exists l.
Qed.

(** C2: when the local base holds a commit that upstream lacks (the
    rev-list query succeeds with a non-blank output), [UpdateBaseBranch]
    returns an error that says "has diverged" and runs nothing but that
    query: no checkout, no hard reset, no push; the store is untouched. *)
Theorem C2_diverged_base_not_mutated
        (env : Env) (baseBranch remote : string) (w : World) (output : string) :
  git env (trace w) ["git"; "rev-list"; baseBranch; "^" ++ remote ++ "/" ++ baseBranch]
  = mkResult output None ->
  strings.TrimSpace output <> "" ->
  exists msg w',
    UpdateBaseBranch env baseBranch remote w = Ok (Some msg) w'
    /\ strings.Contains msg "has diverged" = true
    /\ trace w'
       = List.app (trace w)
           [["git"; "rev-list"; baseBranch; "^" ++ remote ++ "/" ++ baseBranch]]
    /\ (forall argv, In argv (trace w') ->
        In argv (trace w)
        \/ (subcommand argv <> "checkout" /\ subcommand argv <> "reset"
            /\ subcommand argv <> "push"))
    /\ heap w' = heap w.
Proof.
  intros Hgit Hne.
  unfold UpdateBaseBranch, bind, Output. rewrite Hgit. cbn [out err].
  rewrite (length_pos_nonempty _ Hne). unfold ret.
  eexists _, _. split; [reflexivity|]. cbn [trace heap with_trace].
  split; [|split; [reflexivity|split; [|reflexivity]]].
  - apply (Contains_later "local base branch '").
    apply (Contains_later baseBranch). reflexivity.
  - intros argv Hin. apply in_app_or in Hin as [Hin|[<-|[]]]; [now left|right].
    cbn. repeat split; discriminate.
Qed.

(** ** Running processes *)

Lemma Output_eq env argv w :
  Output env argv w
  = Ok (out (git env (trace w) argv), err (git env (trace w) argv))
       (with_trace (List.app (trace w) [argv]) w).
Proof. reflexivity. Qed.

Lemma Run_eq env argv w :
  Run env argv w
  = Ok (err (git env (trace w) argv)) (with_trace (List.app (trace w) [argv]) w).
Proof. reflexivity. Qed.

(** Case analysis on the error of the process the goal waits for. *)
Ltac case_err :=
  match goal with
  | |- context [match err ?r with _ => _ end] => destruct (err r)
  end.

(** ** The driver *)

Section Driver.

Variable env : Env.

(** A failed branch is put on the list and, while positions remain,
    the next command is issued in the same state. *)
Lemma branchFinished_failure_goes_on status next_cmd m branch error w :
  (0 <= Model.updateIndex m)%Z ->
  (Model.updateIndex m + 1 < Model.selectedForActionCount m)%Z ->
  (Model.updateIndex m < int_max)%Z ->
  branchFinished env status next_cmd m branch false error w
  = Ok (Model.set_updateIndex (Model.updateIndex m + 1)%Z
          (Model.set_failedBranches
             (List.app (Model.failedBranches m) [branch ++ " (" ++ error ++ ")"]) m),
        next_cmd
          (Model.set_updateIndex (Model.updateIndex m + 1)%Z
             (Model.set_failedBranches
                (List.app (Model.failedBranches m) [branch ++ " (" ++ error ++ ")"]) m)))
       w.
Proof.
  intros H0 H1 H2. unfold branchFinished, bind, ret.
  cbn [Model.updateIndex Model.set_failedBranches Model.set_updateIndex
       Model.selectedForActionCount].
  rewrite int_incr_small by (unfold int_min; lia).
  destruct (Z.geb_spec (Model.updateIndex m + 1) (Model.selectedForActionCount m));
    [lia | reflexivity].
Qed.

(** An owed stash is popped by one [git stash pop]; none is popped
    otherwise. *)
Lemma popOwedStash_spec m w :
  exists w',
    popOwedStash env m w = Ok (Model.set_didStash false m) w'
    /\ heap w' = heap w
    /\ trace w' = List.app (trace w)
                    (if Model.didStash m then [["git"; "stash"; "pop"]] else []).
Proof.
  unfold popOwedStash. destruct (Model.didStash m) eqn:D.
  - unfold bind, StashPop, outputAsError, CombinedOutput, bind. rewrite Output_eq.
    case_err; unfold ret; eexists; (split; [reflexivity|]); cbn [heap trace with_trace];
      split; reflexivity.
  - exists w. split; [|split; [reflexivity | now rewrite app_nil_r]].
    unfold ret. f_equal. f_equal. destruct m; cbn in *; now subst.
Qed.

(** A failed branch at the last position is put on the list, the run is
    done, and an owed stash is popped. *)
Lemma branchFinished_failure_last status next_cmd m branch error w :
  (0 <= Model.updateIndex m < int_max)%Z ->
  (Model.selectedForActionCount m <= Model.updateIndex m + 1)%Z ->
  exists w',
    branchFinished env status next_cmd m branch false error w
    = Ok (Model.set_didStash false
            (Model.set_state stateDone
               (Model.set_updateIndex (Model.updateIndex m + 1)%Z
                  (Model.set_failedBranches
                     (List.app (Model.failedBranches m)
                               [branch ++ " (" ++ error ++ ")"]) m))),
          CmdNil) w'
    /\ heap w' = heap w
    /\ trace w' = List.app (trace w)
                    (if Model.didStash m then [["git"; "stash"; "pop"]] else []).
Proof.
  intros H0 H1. unfold branchFinished. unfold bind at 1, ret at 1.
  cbn [Model.updateIndex Model.set_failedBranches Model.set_updateIndex
       Model.selectedForActionCount].
  rewrite int_incr_small by (unfold int_min; lia).
  destruct (Z.geb_spec (Model.updateIndex m + 1) (Model.selectedForActionCount m));
    [|lia].
  match goal with
  | |- context [popOwedStash env ?m0] =>
      destruct (popOwedStash_spec m0 w) as (w' & E & Hh & Ht)
  end.
  exists w'. unfold bind. rewrite E. split; [reflexivity|]. split; [exact Hh|].
  exact Ht.
Qed.

(** Past position 0 the update command goes straight for its branch:
    the first process it starts is the checkout of that branch. *)
Lemma updateNextBranch_checks_out m w cfg target :
  Model.config m = Some cfg ->
  Model.updateIndex m <> 0%Z ->
  findTarget (heap w) (Model.branches m) 0 (Model.updateIndex m) = Some target ->
  exists msg w' rest,
    updateNextBranch env m w = Ok msg w'
    /\ trace w'
       = List.app (trace w) (["git"; "checkout"; Name (heap w target)] :: rest).
Proof.
  intros Hc Hk Ht. unfold updateNextBranch, bind, gets. rewrite Ht.
  destruct (Z.eqb_spec (Model.updateIndex m) 0) as [E|_]; [contradiction|].
  unfold ret at 1. rewrite Hc. cbn [derefConfig]. unfold ret at 1.
  unfold RebaseBranch, PushBranch, bind, ret. rewrite Run_eq.
  case_err.
  { eexists _, _, _. split; reflexivity. }
  rewrite Run_eq. case_err.
  { rewrite Run_eq. cbn [trace with_trace].
    eexists _, _, _. split; [reflexivity|]. cbn [trace with_trace].
    rewrite <- !app_assoc. reflexivity. }
  rewrite Run_eq. cbn [trace with_trace].
  case_err; eexists _, _, _; (split; [reflexivity|]);
    cbn [trace with_trace]; rewrite <- !app_assoc; reflexivity.
Qed.

(** The delete command goes straight for its branch: the first process
    it starts is the deletion of the local branch. *)
Lemma deleteNextBranch_deletes_local m w target :
  findTarget (heap w) (Model.branches m) 0 (Model.updateIndex m) = Some target ->
  exists msg w' rest,
    deleteNextBranch env m w = Ok msg w'
    /\ trace w'
       = List.app (trace w) (["git"; "branch"; "-d"; Name (heap w target)] :: rest).
Proof.
  intros Ht. unfold deleteNextBranch, bind, gets. rewrite Ht.
  unfold DeleteLocalBranch, DeleteRemoteBranch, outputAsError, CombinedOutput,
    bind, ret.
  rewrite Output_eq. case_err.
  { eexists _, _, _. split; reflexivity. }
  rewrite Output_eq. cbn [trace with_trace].
  case_err; eexists _, _, _; (split; [reflexivity|]);
    cbn [trace with_trace]; rewrite <- !app_assoc; reflexivity.
Qed.

End Driver.

(** C4: at every position [k > 0] of an update, the last one included,
    a failing rebase is aborted, the message names the branch with the
    reason "rebase conflict", and [Update] puts exactly that failure on
    the list and moves on by one position.  While positions remain the
    driver stays in its state and issues the command for position
    [k + 1], whose first process is the checkout of the branch at that
    position; at the last position the run is done and an owed stash is
    popped. *)
Theorem C4_conflict_recorded_queue_goes_on
        (env : Env) (m : Model.t) (w : World) (cfg : Config) (target : loc)
        (e : string) :
  Model.config m = Some cfg ->
  (0 < Model.updateIndex m < int_max)%Z ->
  findTarget (heap w) (Model.branches m) 0 (Model.updateIndex m) = Some target ->
  err (git env (trace w) ["git"; "checkout"; Name (heap w target)]) = None ->
  err (git env (List.app (trace w) [["git"; "checkout"; Name (heap w target)]])
           ["git"; "rebase"; BaseBranch cfg]) = Some e ->
  exists w1 m' c w2,
    updateNextBranch env m w
    = Ok (branchUpdatedMsg (Name (heap w target)) false "rebase conflict") w1
    /\ trace w1 = List.app (trace w)
                    [["git"; "checkout"; Name (heap w target)];
                     ["git"; "rebase"; BaseBranch cfg];
                     ["git"; "rebase"; "--abort"]]
    /\ heap w1 = heap w
    /\ strings.Contains "rebase conflict" "conflict" = true
    /\ Update env m (branchUpdatedMsg (Name (heap w target)) false "rebase conflict") w1
       = Ok (m', c) w2
    /\ Model.failedBranches m'
       = List.app (Model.failedBranches m)
           [Name (heap w target) ++ " (rebase conflict)"]
    /\ Model.successCount m' = Model.successCount m
    /\ Model.updateIndex m' = (Model.updateIndex m + 1)%Z
    /\ Model.branches m' = Model.branches m
    /\ heap w2 = heap w
    /\ ((Model.updateIndex m + 1 < Model.selectedForActionCount m)%Z ->
        c = CmdUpdateNext m' /\ w2 = w1 /\ Model.state m' = Model.state m
        /\ forall target',
            findTarget (heap w1) (Model.branches m') 0 (Model.updateIndex m + 1)
            = Some target' ->
            exists msg w3 rest,
              execCmd env c w2 = Ok (Some msg) w3
              /\ trace w3
                 = List.app (trace w2)
                     (["git"; "checkout"; Name (heap w1 target')] :: rest))
    /\ ((Model.selectedForActionCount m <= Model.updateIndex m + 1)%Z ->
        c = CmdNil /\ Model.state m' = stateDone /\ Model.didStash m' = false
        /\ trace w2
           = List.app (trace w1)
               (if Model.didStash m then [["git"; "stash"; "pop"]] else [])).
Proof.
  intros Hc Hk Ht Hco Hre.
  assert (E1 : updateNextBranch env m w
               = Ok (branchUpdatedMsg (Name (heap w target)) false "rebase conflict")
                    (with_trace
                       (List.app (trace w)
                          [["git"; "checkout"; Name (heap w target)];
                           ["git"; "rebase"; BaseBranch cfg];
                           ["git"; "rebase"; "--abort"]]) w)).
  { unfold updateNextBranch, bind, gets. rewrite Ht.
    destruct (Z.eqb_spec (Model.updateIndex m) 0) as [E|_]; [lia|].
    unfold ret at 1. rewrite Hc. cbn [derefConfig]. unfold ret at 1.
    unfold RebaseBranch, bind. rewrite Run_eq, Hco, Run_eq.
    cbn [trace with_trace heap]. rewrite Hre, Run_eq. unfold ret.
    cbn [trace with_trace]. rewrite <- !app_assoc. reflexivity. }
  set (w1 := with_trace _ w) in E1.
  destruct (Z.lt_ge_cases (Model.updateIndex m + 1) (Model.selectedForActionCount m))
    as [Hn|Hn].
  - eexists w1, _, _, w1. split; [exact E1|]. split; [reflexivity|].
    split; [reflexivity|]. split; [reflexivity|].
    split; [unfold Update; apply branchFinished_failure_goes_on; lia|].
    cbn [Model.failedBranches Model.successCount Model.updateIndex Model.branches
         Model.state Model.set_updateIndex Model.set_failedBranches].
    do 5 (split; [reflexivity|]). split; [|intros; lia].
    intros _. do 3 (split; [reflexivity|]). intros target' Ht'.
    cbn [execCmd].
    match goal with
    | |- context [updateNextBranch env ?m1] =>
        destruct (updateNextBranch_checks_out env m1 w1 cfg target')
          as (msg & w3 & rest & E3 & T3)
    end.
    + exact Hc.
    + cbn [Model.updateIndex Model.set_updateIndex]. lia.
    + exact Ht'.
    + exists msg, w3, rest. unfold bind. rewrite E3. split; [reflexivity | exact T3].
  - destruct (branchFinished_failure_last env "updated" CmdUpdateNext m
                (Name (heap w target)) "rebase conflict" w1) as (w2 & E2 & Hh & Htr);
      [lia | lia |].
    eexists w1, _, _, w2. split; [exact E1|]. split; [reflexivity|].
    split; [reflexivity|]. split; [reflexivity|].
    split; [unfold Update; exact E2|].
    cbn [Model.failedBranches Model.successCount Model.updateIndex Model.branches
         Model.state Model.didStash Model.set_updateIndex Model.set_failedBranches
         Model.set_state Model.set_didStash].
    do 4 (split; [reflexivity|]). split; [exact Hh|]. split; [intros; lia|].
    intros _. do 3 (split; [reflexivity|]). exact Htr.
Qed.

(** C10: at every position of a delete run, the last one included,
    when deleting the local branch fails the remote delete is not run
    for it and [Update] puts exactly one entry (name and reason) on the
    failure list and moves on by one position.  While positions remain
    the driver stays in its state and issues the command for the next
    position, whose first process is the local delete of the branch at
    that position; at the last position the run is done and an owed
    stash is popped.  The remote delete is run right after a local
    delete that succeeded. *)
Theorem C10_failed_local_delete_skips_remote
        (env : Env) (m : Model.t) (w : World) (target : loc)
        (output e : string) :
  (0 <= Model.updateIndex m < int_max)%Z ->
  findTarget (heap w) (Model.branches m) 0 (Model.updateIndex m) = Some target ->
  git env (trace w) ["git"; "branch"; "-d"; Name (heap w target)]
  = mkResult output (Some e) ->
  (exists w1 m' c w2,
      deleteNextBranch env m w
      = Ok (branchDeletedMsg (Name (heap w target)) false
              (Errorf0 env (strings.TrimSpace output))) w1
      /\ trace w1 = List.app (trace w) [["git"; "branch"; "-d"; Name (heap w target)]]
      /\ heap w1 = heap w
      /\ Update env m (branchDeletedMsg (Name (heap w target)) false
                         (Errorf0 env (strings.TrimSpace output))) w1
         = Ok (m', c) w2
      /\ Model.failedBranches m'
         = List.app (Model.failedBranches m)
             [Name (heap w target) ++ " ("
              ++ Errorf0 env (strings.TrimSpace output) ++ ")"]
      /\ Model.successCount m' = Model.successCount m
      /\ Model.updateIndex m' = (Model.updateIndex m + 1)%Z
      /\ Model.branches m' = Model.branches m
      /\ heap w2 = heap w
      /\ ((Model.updateIndex m + 1 < Model.selectedForActionCount m)%Z ->
          c = CmdDeleteNext m' /\ w2 = w1 /\ Model.state m' = Model.state m
          /\ forall target',
              findTarget (heap w1) (Model.branches m') 0 (Model.updateIndex m + 1)
              = Some target' ->
              exists msg w3 rest,
                execCmd env c w2 = Ok (Some msg) w3
                /\ trace w3
                   = List.app (trace w2)
                       (["git"; "branch"; "-d"; Name (heap w1 target')] :: rest))
      /\ ((Model.selectedForActionCount m <= Model.updateIndex m + 1)%Z ->
          c = CmdNil /\ Model.state m' = stateDone /\ Model.didStash m' = false
          /\ trace w2
             = List.app (trace w1)
                 (if Model.didStash m then [["git"; "stash"; "pop"]] else [])))
  /\ (forall m0 w0 t0,
         findTarget (heap w0) (Model.branches m0) 0 (Model.updateIndex m0) = Some t0 ->
         err (git env (trace w0) ["git"; "branch"; "-d"; Name (heap w0 t0)]) = None ->
         exists msg w0',
           deleteNextBranch env m0 w0 = Ok msg w0'
           /\ trace w0' = List.app (trace w0)
                            [["git"; "branch"; "-d"; Name (heap w0 t0)];
                             ["git"; "push"; "origin"; "--delete"; Name (heap w0 t0)]]).
Proof.
  intros H0 Ht Hgit. split.
  - assert (E1 : deleteNextBranch env m w
                 = Ok (branchDeletedMsg (Name (heap w target)) false
                         (Errorf0 env (strings.TrimSpace output)))
                      (with_trace
                         (List.app (trace w)
                            [["git"; "branch"; "-d"; Name (heap w target)]]) w)).
    { unfold deleteNextBranch, bind, gets. rewrite Ht.
      unfold DeleteLocalBranch, outputAsError, CombinedOutput, bind.
      rewrite Output_eq, Hgit. cbn [out err]. unfold ret. reflexivity. }
    set (w1 := with_trace _ w) in E1.
    destruct (Z.lt_ge_cases (Model.updateIndex m + 1) (Model.selectedForActionCount m))
      as [Hn|Hn].
    + eexists w1, _, _, w1. split; [exact E1|]. split; [reflexivity|].
      split; [reflexivity|].
      split; [unfold Update; apply branchFinished_failure_goes_on; lia|].
      cbn [Model.failedBranches Model.successCount Model.updateIndex Model.branches
           Model.state Model.set_updateIndex Model.set_failedBranches].
      do 5 (split; [reflexivity|]). split; [|intros; lia].
      intros _. do 3 (split; [reflexivity|]). intros target' Ht'.
      cbn [execCmd].
      match goal with
      | |- context [deleteNextBranch env ?m1] =>
          destruct (deleteNextBranch_deletes_local env m1 w1 target')
            as (msg & w3 & rest & E3 & T3)
      end.
      * exact Ht'.
      * exists msg, w3, rest. unfold bind. rewrite E3.
        split; [reflexivity | exact T3].
    + destruct (branchFinished_failure_last env "deleted" CmdDeleteNext m
                  (Name (heap w target)) (Errorf0 env (strings.TrimSpace output)) w1)
        as (w2 & E2 & Hh & Htr); [lia | lia |].
      eexists w1, _, _, w2. split; [exact E1|]. split; [reflexivity|].
      split; [reflexivity|].
      split; [unfold Update; exact E2|].
      cbn [Model.failedBranches Model.successCount Model.updateIndex Model.branches
           Model.state Model.didStash Model.set_updateIndex Model.set_failedBranches
           Model.set_state Model.set_didStash].
      do 4 (split; [reflexivity|]). split; [exact Hh|]. split; [intros; lia|].
      intros _. do 3 (split; [reflexivity|]). exact Htr.
  - intros m0 w0 t0 Ht0 Hok.
    unfold deleteNextBranch, bind, gets. rewrite Ht0.
    unfold DeleteLocalBranch, DeleteRemoteBranch, outputAsError, CombinedOutput,
      bind, ret.
    rewrite Output_eq, Hok. cbv beta iota. rewrite Output_eq.
    cbn [trace heap with_trace].
    case_err; eexists _, _; (split; [reflexivity|]);
      cbn [trace with_trace]; now rewrite <- app_assoc.
Qed.

(** C1, as the code has it: when the base update fails at position 0,
    the failure is put on the list under the name of the first branch
    and, in a queue of two or more, the driver does not stop: it issues
    the command for position 1, which skips the base update and checks
    that branch out. *)
Theorem C1_guard_failure_recorded_queue_goes_on
        (env : Env) (m : Model.t) (w w1 : World) (target : loc) (reason : string) :
  Model.updateIndex m = 0%Z ->
  (2 <= Model.selectedForActionCount m)%Z ->
  findTarget (heap w) (Model.branches m) 0 0 = Some target ->
  updateBase env m w = Ok (Some reason) w1 ->
  exists m',
    updateNextBranch env m w
    = Ok (branchUpdatedMsg (Name (heap w target)) false reason) w1
    /\ Update env m (branchUpdatedMsg (Name (heap w target)) false reason) w1
       = Ok (m', CmdUpdateNext m') w1
    /\ Model.failedBranches m'
       = List.app (Model.failedBranches m)
           [Name (heap w target) ++ " (" ++ reason ++ ")"]
    /\ Model.updateIndex m' = 1%Z
    /\ Model.state m' = Model.state m
    /\ forall target',
        findTarget (heap w1) (Model.branches m') 0 1 = Some target' ->
        exists msg w2 rest,
          updateNextBranch env m' w1 = Ok msg w2
          /\ trace w2
             = List.app (trace w1)
                 (["git"; "checkout"; Name (heap w1 target')] :: rest).
Proof.
  intros H0 Hn Ht Hg.
  assert (Hcfg : exists cfg, Model.config m = Some cfg).
  { unfold updateBase, bind in Hg. destruct (Model.config m) as [cfg|].
    - now exists cfg.
    - discriminate Hg. }
  destruct Hcfg as [cfg Hcfg].
  eexists. split.
  - unfold updateNextBranch, bind, gets. rewrite H0, Ht. cbn [Z.eqb].
    unfold ret at 1. rewrite Hg. reflexivity.
  - split.
    + unfold Update. rewrite branchFinished_failure_goes_on by (unfold int_max; lia).
      rewrite H0. reflexivity.
    + cbn. split; [reflexivity|]. split; [reflexivity|]. split; [reflexivity|].
      intros target' Ht'.
      cbn [Model.branches Model.set_updateIndex Model.set_failedBranches] in Ht'.
      unfold updateNextBranch, bind, gets, ret.
      cbn [Model.updateIndex Model.set_updateIndex Model.config
           Model.set_failedBranches Model.branches].
      rewrite Ht', Hcfg. cbn [Z.add Z.eqb Pos.add derefConfig]. unfold ret.
      unfold RebaseBranch, PushBranch, bind, ret. rewrite Run_eq.
      case_err.
      { eexists _, _, _. split; reflexivity. }
      rewrite Run_eq. case_err.
      { rewrite Run_eq. cbn [trace with_trace].
        eexists _, _, _. split; [reflexivity|]. cbn [trace with_trace].
        rewrite <- !app_assoc. reflexivity. }
      rewrite Run_eq. cbn [trace with_trace].
      case_err; eexists _, _, _; (split; [reflexivity|]);
        cbn [trace with_trace]; rewrite <- !app_assoc; reflexivity.
Qed.

(** ** The session *)

Lemma index_Some_lt {A} (l : list A) (i : Z) (x : A) :
  index l i = Some x -> (i <? len l)%Z = true.
Proof.
  unfold index, len. destruct (Z.ltb_spec i 0); [discriminate|].
  intros E. apply Z.ltb_lt.
  assert (Z.to_nat i < List.length l)%nat by (apply nth_error_Some; congruence).
  lia.
Qed.

Lemma with_Selected_idem v b : with_Selected v (with_Selected v b) = with_Selected v b.
Proof. reflexivity. Qed.

(** Deselecting touches the [Selected] field of the listed branches and
    nothing else; no process runs. *)
Lemma deselectAll_spec bs :
  forall w, exists w',
    deselectAll bs w = Ok tt w'
    /\ trace w' = trace w
    /\ next w' = next w
    /\ forall l, heap w' l = if in_dec Nat.eq_dec l bs
                             then with_Selected false (heap w l) else heap w l.
Proof.
  induction bs as [|b bs IH]; intros w.
  - exists w. cbn. auto.
  - unfold deselectAll. cbn [forEach]. unfold bind. unfold modify at 1.
    cbv beta iota.
    destruct (IH (with_heap (upd (heap w) b (with_Selected false)) w))
      as (w' & E & Ht & Hn & Hh).
    unfold deselectAll in E. rewrite E. exists w'.
    split; [reflexivity|]. split; [exact Ht|]. split; [exact Hn|].
    intros l. rewrite Hh. cbn [heap with_heap].
    destruct (Nat.eq_dec b l) as [->|Hbl].
    + rewrite upd_same.
      destruct (in_dec Nat.eq_dec l bs), (in_dec Nat.eq_dec l (l :: bs)) as [|N];
        try reflexivity; elim N; now left.
    + rewrite upd_other by congruence.
      destruct (in_dec Nat.eq_dec l bs) as [I|I],
               (in_dec Nat.eq_dec l (b :: bs)) as [J|J]; try reflexivity.
      * elim J. now right.
      * destruct J as [J|J]; [congruence | contradiction].
Qed.

Section Session.

Variable env : Env.

Lemma pump_idle fuel m w : pump env fuel m CmdNil w = Ok (m, CmdNil) w.
Proof. now destruct fuel. Qed.

Lemma pump_quit fuel m w : pump env fuel m CmdQuit w = Ok (m, CmdQuit) w.
Proof. now destruct fuel. Qed.

(** What the enter key does while browsing. *)
Lemma handleBrowsingKeys_enter m :
  Model.searchMode m = false ->
  Model.deleteMode m = false ->
  handleBrowsingKeys env m "enter"
  = (dirty <- HasUncommittedChanges env ;;
     if dirty then
       ret (Model.set_message
              "You have uncommitted changes. Stash them and proceed? (y/n)"
              (Model.set_state stateConfirmingStash m), CmdNil)
     else
       selectedCount <- gets (fun h => countSelected h (Model.branches m) 0) ;;
       if (selectedCount =? 0)%Z then
         ret (Model.set_message "No branches selected" m, CmdNil)
       else
         log <- populateCommandLog m ;;
         if manualMode env then
           ret (Model.set_message
                  ("Ready to update " ++ fmt.itoa selectedCount
                   ++ " branch(es). Press 'y' to continue, 'n' to cancel.")
                  (Model.set_state stateConfirming (Model.set_commandLog log m)),
                CmdNil)
         else
           ret (startUpdating selectedCount (Model.set_commandLog log m),
                CmdUpdateNext (startUpdating selectedCount (Model.set_commandLog log m)))).
Proof.
  intros Hs Hd. unfold handleBrowsingKeys. rewrite Hs, Hd. reflexivity.
Qed.

Lemma handleBrowsingKeys_quit m key :
  Model.searchMode m = false ->
  keyIs key ["ctrl+c"; "q"] = true ->
  handleBrowsingKeys env m key = ret (m, CmdQuit).
Proof. intros Hs Hk. unfold handleBrowsingKeys. now rewrite Hs, Hk. Qed.

Lemma HasUncommittedChanges_dirty w output :
  git env (trace w) ["git"; "status"; "--porcelain"; "-uno"] = mkResult output None ->
  strings.TrimSpace output <> "" ->
  HasUncommittedChanges env w
  = Ok true (with_trace (List.app (trace w) [["git"; "status"; "--porcelain"; "-uno"]]) w).
Proof.
  intros Hg Hne. unfold HasUncommittedChanges, bind. rewrite Output_eq, Hg.
  cbn [out err]. unfold ret. now rewrite (length_pos_nonempty _ Hne).
Qed.

End Session.

Lemma decline_is_not_yes key :
  keyIs key ["n"; "N"; "q"; "ctrl+c"; "esc"] = true -> keyIs key ["y"; "Y"] = false.
Proof.
  unfold keyIs. cbn [existsb]. rewrite !orb_true_iff.
  intros H. repeat destruct H as [H|H]; try discriminate H;
    apply String.eqb_eq in H; subst; reflexivity.
Qed.

(** C7: with uncommitted changes, enter leads to the stash prompt after
    the one status query; declining there runs no process at all and
    gives back the browsing model, only the message changed: branches,
    selection and configuration are as before. *)
Theorem C7_declined_stash_changes_nothing
        (env : Env) (m : Model.t) (w : World) (output key : string) :
  Model.state m = stateBrowsing ->
  Model.searchMode m = false ->
  Model.deleteMode m = false ->
  git env (trace w) ["git"; "status"; "--porcelain"; "-uno"] = mkResult output None ->
  strings.TrimSpace output <> "" ->
  keyIs key ["n"; "N"; "q"; "ctrl+c"; "esc"] = true ->
  exists m1 w1,
    Update env m (KeyMsg "enter") w = Ok (m1, CmdNil) w1
    /\ Model.state m1 = stateConfirmingStash
    /\ trace w1 = List.app (trace w) [["git"; "status"; "--porcelain"; "-uno"]]
    /\ heap w1 = heap w
    /\ Update env m1 (KeyMsg key) w1
       = Ok (Model.set_message "Update cancelled." m, CmdNil) w1
    /\ Model.branches (Model.set_message "Update cancelled." m) = Model.branches m
    /\ Model.config (Model.set_message "Update cancelled." m) = Model.config m
    /\ Model.state (Model.set_message "Update cancelled." m) = stateBrowsing.
Proof.
  intros Hst Hs Hd Hg Hne Hk.
  eexists _, _. split.
  - unfold Update, handleKeyPress. rewrite Hst, handleBrowsingKeys_enter by assumption.
    unfold bind. rewrite (HasUncommittedChanges_dirty env w output Hg Hne).
    unfold ret. reflexivity.
  - split; [reflexivity|]. split; [reflexivity|]. split; [reflexivity|].
    split; [|repeat split; try reflexivity; exact Hst].
    unfold Update, handleKeyPress. cbn [Model.state Model.set_message Model.set_state].
    unfold handleConfirmingStashKeys. rewrite (decline_is_not_yes _ Hk), Hk.
    unfold ret. f_equal. f_equal.
    destruct m; cbn in *; subst; reflexivity.
Qed.

(** C3, where the code leaves a stash behind: the stash prompt is
    answered with yes while no branch is selected; the stash is made,
    the session is back at browsing with the restore still owed, and
    quitting there ends the program without any [git stash pop]. *)
Theorem C3_stash_left_behind_on_quit
        (env : Env) (fuel : nat) (m : Model.t) (w : World) (cfg : Config) :
  Model.state m = stateConfirmingStash ->
  Model.searchMode m = false ->
  Model.config m = Some cfg ->
  err (git env (trace w) ["git"; "stash"]) = None ->
  countSelected (heap w) (Model.branches m) 0 = 0%Z ->
  exists m',
    session env fuel m ["y"; "q"] w
    = Ok (m', true) (with_trace (List.app (trace w) [["git"; "stash"]]) w)
    /\ Model.didStash m' = true
    /\ Model.state m' = stateBrowsing.
Proof.
  intros Hst Hs Hc He Hn.
  eexists. split.
  - cbn [session]. unfold bind at 1.
    unfold Update at 1, handleKeyPress. rewrite Hst.
    unfold handleConfirmingStashKeys.
    change (keyIs "y" ["y"; "Y"]) with true. cbv beta iota.
    unfold bind at 1. unfold StashChanges, outputAsError, CombinedOutput.
    unfold bind at 1. rewrite Output_eq, He. cbv beta iota. unfold ret at 1.
    unfold bind at 1. unfold populateCommandLog, bind at 1.
    cbn [Model.config Model.set_didStash]. rewrite Hc. cbn [derefConfig].
    unfold ret at 1. unfold bind at 1, gets at 1. unfold ret at 1.
    unfold bind at 1, gets at 1.
    cbn [Model.branches Model.set_commandLog Model.set_didStash heap with_trace].
    rewrite Hn. cbn [Z.eqb]. unfold ret at 1. cbv beta iota.
    unfold bind at 1. rewrite pump_idle. cbv beta iota.
    unfold bind at 1. unfold Update, handleKeyPress.
    cbn [Model.state Model.set_state Model.set_message].
    rewrite handleBrowsingKeys_quit by (cbn; auto). unfold ret at 1.
    unfold bind at 1. rewrite pump_quit. reflexivity.
  - cbn. auto.
Qed.

(** Marking the finished branch runs no process. *)
Lemma forFirst_trace cond (body : loc -> M unit) bs :
  (forall l w, exists w', body l w = Ok tt w' /\ trace w' = trace w) ->
  forall w, exists w', forFirst bs cond body w = Ok tt w' /\ trace w' = trace w.
Proof.
  intros Hbody. induction bs as [|b bs IH]; intros w.
  - now exists w.
  - cbn [forFirst]. unfold bind, load. destruct (cond (heap w b)).
    + apply Hbody.
    + apply IH.
Qed.

(** Where the code does restore the stash: when the last position of a
    run reports, whatever its result, the session is done, an owed
    stash is popped by one [git stash pop], and the flag is cleared, so
    that quitting afterwards pops nothing more. *)
Lemma stash_popped_when_done env status next_cmd m branch success error w :
  (Model.updateIndex m < int_max)%Z ->
  (int_min <= Model.updateIndex m)%Z ->
  (Model.selectedForActionCount m <= Model.updateIndex m + 1)%Z ->
  Model.didStash m = true ->
  exists m' w',
    branchFinished env status next_cmd m branch success error w = Ok (m', CmdNil) w'
    /\ Model.state m' = stateDone
    /\ Model.didStash m' = false
    /\ trace w' = List.app (trace w) [["git"; "stash"; "pop"]].
Proof.
  intros Hmax Hmin Hlast Hd. unfold branchFinished.
  assert (Hstep : forall m0 w0,
             Model.updateIndex m0 = Model.updateIndex m ->
             Model.selectedForActionCount m0 = Model.selectedForActionCount m ->
             Model.didStash m0 = true ->
             exists m' w',
               (let m1 := Model.set_updateIndex (int_incr (Model.updateIndex m0)) m0 in
                if (Model.updateIndex m1 >=? Model.selectedForActionCount m1)%Z
                then m2 <- popOwedStash env (Model.set_state stateDone m1) ;;
                     ret (m2, CmdNil)
                else ret (m1, next_cmd m1)) w0 = Ok (m', CmdNil) w'
               /\ Model.state m' = stateDone
               /\ Model.didStash m' = false
               /\ trace w' = List.app (trace w0) [["git"; "stash"; "pop"]]).
  { intros m0 w0 Hi Hn Hs. cbv zeta.
    cbn [Model.updateIndex Model.set_updateIndex Model.selectedForActionCount].
    rewrite Hi, Hn, int_incr_small by lia.
    destruct (Z.geb_spec (Model.updateIndex m + 1) (Model.selectedForActionCount m));
      [|lia].
    unfold bind, popOwedStash. cbn [Model.didStash Model.set_state Model.set_updateIndex].
    rewrite Hs. unfold StashPop, outputAsError, CombinedOutput, bind.
    rewrite Output_eq. case_err; unfold ret; eexists _, _;
      (split; [reflexivity|]); now cbn. }
  unfold bind at 1. destruct success.
  - unfold bind at 1.
    destruct (forFirst_trace (fun b => String.eqb (Name b) branch)
                (fun b => modify b (with_Status status))
                (Model.branches
                   (Model.set_successCount (int_incr (Model.successCount m)) m))
                (fun l w0 => ex_intro _ _ (conj eq_refl eq_refl)) w)
      as (w1 & E & Ht).
    rewrite E. unfold ret at 1. rewrite <- Ht. now apply Hstep.
  - unfold ret at 1. now apply Hstep.
Qed.

(** C6, as the code has it: in [stateDone] and [stateError], space and
    enter reset the session to browsing (every branch deselected, the
    counts, the failure list, the index and the mode flags cleared, no
    process run); q and ctrl+c pop a stash that is still owed and quit;
    every other key leaves the model and the world as they are. *)
Theorem C6_done_error_keys
        (env : Env) (m : Model.t) (key : string) (w : World) :
  Model.state m = stateDone \/ Model.state m = stateError ->
  (keyIs key [" "; "enter"] = true ->
   exists m' w',
     Update env m (KeyMsg key) w = Ok (m', CmdNil) w'
     /\ Model.state m' = stateBrowsing
     /\ trace w' = trace w
     /\ (forall l, In l (Model.branches m) -> Selected (heap w' l) = false)
     /\ (forall l, heap w' l = with_Selected (Selected (heap w' l)) (heap w l))
     /\ Model.successCount m' = 0%Z
     /\ Model.failedBranches m' = []
     /\ Model.updateIndex m' = 0%Z
     /\ Model.selectedForActionCount m' = 0%Z
     /\ Model.deleteMode m' = false
     /\ Model.didStash m' = false
     /\ Model.branches m' = Model.branches m
     /\ Model.config m' = Model.config m)
  /\ (keyIs key [" "; "enter"] = false ->
      keyIs key ["q"; "ctrl+c"] = true ->
      exists w',
        Update env m (KeyMsg key) w = Ok (Model.set_deleteMode false m, CmdQuit) w'
        /\ trace w' = List.app (trace w)
                        (if Model.didStash m then [["git"; "stash"; "pop"]] else [])
        /\ heap w' = heap w)
  /\ (keyIs key [" "; "enter"] = false ->
      keyIs key ["q"; "ctrl+c"] = false ->
      Update env m (KeyMsg key) w = Ok (m, CmdNil) w).
Proof.
  intros Hst.
  assert (E : handleKeyPress env m key
              = if keyIs key [" "; "enter"] then resetSession m
                else if keyIs key ["q"; "ctrl+c"] then
                       (if Model.didStash m then StashPop env ;;; ret tt else ret tt) ;;;
                       ret (Model.set_deleteMode false m, CmdQuit)
                     else ret (m, CmdNil)).
  { unfold handleKeyPress. now destruct Hst as [-> | ->]. }
  unfold Update. rewrite E. clear E. split; [|split].
  - intros ->. unfold resetSession, bind.
    match goal with
    | |- context [deselectAll ?bs w] =>
        destruct (deselectAll_spec bs w) as (w' & Ed & Ht & _ & Hh)
    end.
    rewrite Ed. unfold ret. eexists _, w'. split; [reflexivity|].
    cbn. split; [reflexivity|]. split; [exact Ht|]. split; [|split].
    + intros l Hl. rewrite Hh.
      match goal with
      | |- context [in_dec ?d ?x ?bs] => destruct (in_dec d x bs) as [|N]
      end; [reflexivity | now elim N].
    + intros l. rewrite Hh.
      match goal with
      | |- context [in_dec ?d ?x ?bs] => destruct (in_dec d x bs)
      end; [reflexivity | now destruct (heap w l)].
    + repeat split; reflexivity.
  - intros -> ->. unfold bind. destruct (Model.didStash m).
    + unfold StashPop, outputAsError, CombinedOutput, bind. rewrite Output_eq.
      case_err; unfold ret; eexists; (split; [reflexivity|]); now cbn.
    + unfold ret. eexists. split; [reflexivity|]. cbn. now rewrite app_nil_r.
  - now intros -> ->.
Qed.

Section Tagging.

Variable env : Env.

(** What the t key does while browsing. *)
Lemma handleBrowsingKeys_t m :
  Model.searchMode m = false ->
  handleBrowsingKeys env m "t"
  = (filtered <- getFilteredBranches env m ;;
     if (Model.cursor m <? len filtered)%Z
     then match index filtered (Model.cursor m) with
          | Some b =>
              d <- gets (fun h => Description (h b)) ;;
              ret (Model.set_tagInput d (Model.set_state stateTagging m), CmdNil)
          | None => panic
          end
     else ret (m, CmdNil)).
Proof. intros Hs. unfold handleBrowsingKeys. rewrite Hs. reflexivity. Qed.

(** Enter in the tag editor saves the input for [m.branches[m.cursor]]:
    one [git config] process that names that branch, then the write to
    its description. *)
Lemma tag_saved_at_cursor m w b :
  Model.state m = stateTagging ->
  index (Model.branches m) (Model.cursor m) = Some b ->
  exists w',
    Update env m (KeyMsg "enter") w
    = Ok (Model.set_tagInput "" (Model.set_state stateBrowsing m), CmdNil) w'
    /\ trace w'
       = List.app (trace w) [tagCommand (Name (heap w b)) (Model.tagInput m)]
    /\ Description (heap w' b) = Model.tagInput m
    /\ (forall l, l <> b -> heap w' l = heap w l).
Proof.
  intros Hst Hi. unfold Update, handleKeyPress. rewrite Hst.
  unfold handleTaggingKeys. change (keyIs "enter" ["enter"]) with true.
  cbv beta iota. rewrite (index_Some_lt _ _ _ Hi), Hi.
  unfold bind, gets, SetBranchTag, RemoveBranchTag, tagCommand.
  destruct (String.eqb_spec (Model.tagInput m) "") as [E|E]; cbn [negb];
    rewrite Run_eq; unfold modify, ret; eexists; (split; [reflexivity|]);
    cbn [heap trace with_heap with_trace]; (split; [reflexivity|]);
    (split; [rewrite upd_same; now cbn|]);
    intros l Hl; now rewrite upd_other.
Qed.

End Tagging.

(** C9: the tag editor is opened on the branch under the cursor in the
    filtered view, and enter saves for the branch under the cursor in
    the full list: the [git config] process it runs names that branch,
    and the description of that branch is the one written.  With an
    empty query both are the same branch; with a filter on, the text
    shown can come from one branch and be saved, in git and in the
    list, to another. *)
Theorem C9_tag_saved_by_unfiltered_cursor :
  (forall (env : Env) (m : Model.t) (w : World) (b : loc),
      Model.state m = stateBrowsing ->
      Model.searchMode m = false ->
      Model.searchQuery m = "" ->
      index (Model.branches m) (Model.cursor m) = Some b ->
      Update env m (KeyMsg "t") w
      = Ok (Model.set_tagInput (Description (heap w b))
              (Model.set_state stateTagging m), CmdNil) w
      /\ forall m2 w2,
          Model.state m2 = stateTagging ->
          Model.cursor m2 = Model.cursor m ->
          Model.branches m2 = Model.branches m ->
          exists w3,
            Update env m2 (KeyMsg "enter") w2
            = Ok (Model.set_tagInput "" (Model.set_state stateBrowsing m2), CmdNil) w3
            /\ trace w3
               = List.app (trace w2)
                   [tagCommand (Name (heap w2 b)) (Model.tagInput m2)]
            /\ Description (heap w3 b) = Model.tagInput m2
            /\ (forall l, l <> b -> heap w3 l = heap w2 l))
  /\ (exists (env : Env) (m : Model.t) (w : World) (shown saved : loc),
         Model.state m = stateBrowsing
         /\ Model.searchMode m = false
         /\ Model.searchQuery m <> ""
         /\ shown <> saved
         /\ Name (heap w saved) <> Name (heap w shown)
         /\ Description (heap w saved) <> Description (heap w shown)
         /\ Update env m (KeyMsg "t") w
            = Ok (Model.set_tagInput (Description (heap w shown))
                    (Model.set_state stateTagging m), CmdNil) w
         /\ exists m3 w3,
             Update env (Model.set_tagInput (Description (heap w shown))
                           (Model.set_state stateTagging m)) (KeyMsg "enter") w
             = Ok (m3, CmdNil) w3
             /\ trace w3
                = List.app (trace w)
                    [["git"; "config";
                      "branch." ++ Name (heap w saved) ++ ".description";
                      Description (heap w shown)]]
             /\ Description (heap w3 saved) = Description (heap w shown)
             /\ heap w3 shown = heap w shown).
Proof.
  split.
  - intros env m w b Hst Hs Hq Hi. split.
    + unfold Update, handleKeyPress. rewrite Hst, handleBrowsingKeys_t by exact Hs.
      unfold bind, getFilteredBranches, gets, filterBranches. rewrite Hq.
      cbn [String.eqb]. rewrite (index_Some_lt _ _ _ Hi), Hi. reflexivity.
    + intros m2 w2 Hst2 Hc Hb. apply tag_saved_at_cursor; [exact Hst2|].
      now rewrite Hc, Hb.
  - exists Example.quiet,
           (Model.set_searchQuery "feature-b" Example.browsing),
           (Example.world Example.none), 1, 0.
    split; [reflexivity|]. split; [reflexivity|].
    split; [discriminate|]. split; [discriminate|]. split; [discriminate|].
    split; [discriminate|]. split; [reflexivity|].
    eexists _, _. split; [reflexivity|]. split; [reflexivity|].
    split; reflexivity.
Qed.

(** ** The theorems at work on concrete repositories *)

(** C1 as stated fails: the base has diverged, so the base update fails
    at position 0 and is put down against the first branch, and yet the
    second and the third branch are checked out, rebased and pushed
    before the run is done. *)
Lemma C1_later_branches_still_processed :
  result_of (updateBase (Example.scripted [Example.diverged])
                        (Example.running stateUpdating 0) (Example.world Example.all))
  = Some (Some "local base branch 'main' has diverged from 'upstream/main'. Please resolve manually")
  /\ option_map
       (fun r => (Model.state (fst r), Model.successCount (fst r),
                  Model.failedBranches (fst r)))
       (result_of (session (Example.scripted [Example.diverged]) 5 Example.browsing
                           ["enter"] (Example.world Example.all)))
     = Some (stateDone, 2%Z,
             ["feature-a (local base branch 'main' has diverged from 'upstream/main'. Please resolve manually)"])
  /\ trace (world_of (session (Example.scripted [Example.diverged]) 5 Example.browsing
                              ["enter"] (Example.world Example.all)))
     = [["git"; "status"; "--porcelain"; "-uno"];
        ["git"; "fetch"; "upstream"; "main"];
        ["git"; "rev-list"; "main"; "^upstream/main"];
        ["git"; "checkout"; "feature-b"];
        ["git"; "rebase"; "main"];
        ["git"; "push"; "origin"; "feature-b"; "--force-with-lease"];
        ["git"; "checkout"; "feature-c"];
        ["git"; "rebase"; "main"];
        ["git"; "push"; "origin"; "feature-c"; "--force-with-lease"]].
Proof. vm_compute. repeat split; reflexivity. Qed.

(** C1, witness: the diverged base at position 0 of a run over three
    branches. *)
Lemma C1_guard_failure_witness :
  exists m',
    Update (Example.scripted [Example.diverged]) (Example.running stateUpdating 0)
           (branchUpdatedMsg "feature-a" false
              "local base branch 'main' has diverged from 'upstream/main'. Please resolve manually")
           (with_trace [["git"; "fetch"; "upstream"; "main"];
                        ["git"; "rev-list"; "main"; "^upstream/main"]]
                       (Example.world Example.all))
    = Ok (m', CmdUpdateNext m')
         (with_trace [["git"; "fetch"; "upstream"; "main"];
                      ["git"; "rev-list"; "main"; "^upstream/main"]]
                     (Example.world Example.all))
    /\ Model.updateIndex m' = 1%Z.
Proof.
  destruct (C1_guard_failure_recorded_queue_goes_on
              (Example.scripted [Example.diverged])
              (Example.running stateUpdating 0)
              (Example.world Example.all)
              (with_trace [["git"; "fetch"; "upstream"; "main"];
                           ["git"; "rev-list"; "main"; "^upstream/main"]]
                          (Example.world Example.all))
              0
              "local base branch 'main' has diverged from 'upstream/main'. Please resolve manually")
    as (m' & _ & HU & _ & Hi & _).
  - reflexivity.
  - vm_compute. discriminate.
  - reflexivity.
  - reflexivity.
  - exists m'. split; [exact HU | exact Hi].
Defined.

(** C2, witness: [main] with one commit that [upstream/main] lacks. *)
Lemma C2_diverged_witness :
  exists msg w',
    UpdateBaseBranch (Example.scripted [Example.diverged]) "main" "upstream" emptyWorld
    = Ok (Some msg) w'
    /\ strings.Contains msg "has diverged" = true
    /\ trace w' = [["git"; "rev-list"; "main"; "^upstream/main"]].
Proof.
  destruct (C2_diverged_base_not_mutated
              (Example.scripted [Example.diverged]) "main" "upstream" emptyWorld
              "3f2a9c1d")
    as (msg & w' & E & C & T & _).
  - reflexivity.
  - vm_compute. discriminate.
  - exists msg, w'. split; [exact E|]. split; [exact C | exact T].
Defined.

(** C3, the failing input: a modified file, no branch selected; the
    keys are y at the stash prompt, then q. *)
Lemma C3_stash_left_behind_witness :
  exists m',
    session (Example.scripted [Example.dirty]) 5
            (Model.set_state stateConfirmingStash Example.browsing) ["y"; "q"]
            (Example.world Example.none)
    = Ok (m', true) (with_trace [["git"; "stash"]] (Example.world Example.none))
    /\ Model.didStash m' = true.
Proof.
  destruct (C3_stash_left_behind_on_quit
              (Example.scripted [Example.dirty]) 5
              (Model.set_state stateConfirmingStash Example.browsing)
              (Example.world Example.none) Example.cfg)
    as (m' & E & D & _).
  - reflexivity.
  - reflexivity.
  - reflexivity.
  - reflexivity.
  - reflexivity.
  - exists m'. split; [exact E | exact D].
Defined.

(** C3, the whole session of the failing input, from browsing: enter
    with a modified file and nothing selected, y at the prompt, then q.
    Git is asked for the status and for the stash, and never to pop. *)
Example C3_session_from_browsing :
  option_map (fun r => (Model.didStash (fst r), snd r))
             (result_of (session (Example.scripted [Example.dirty]) 5 Example.browsing
                                 ["enter"; "y"; "q"] (Example.world Example.none)))
  = Some (true, true)
  /\ trace (world_of (session (Example.scripted [Example.dirty]) 5 Example.browsing
                              ["enter"; "y"; "q"] (Example.world Example.none)))
     = [["git"; "status"; "--porcelain"; "-uno"]; ["git"; "stash"]].
Proof. vm_compute. split; reflexivity. Qed.

(** C4, witness: the rebase stops on a conflict for [feature-b], second
    of three, and the driver goes on to [feature-c]; and for
    [feature-c], last of three, where the run is done. *)
Lemma C4_conflict_witness :
  (exists w1 m',
      updateNextBranch (Example.scripted [Example.conflicting])
                       (Example.running stateUpdating 1) (Example.world Example.all)
      = Ok (branchUpdatedMsg "feature-b" false "rebase conflict") w1
      /\ trace w1 = [["git"; "checkout"; "feature-b"];
                     ["git"; "rebase"; "main"];
                     ["git"; "rebase"; "--abort"]]
      /\ Update (Example.scripted [Example.conflicting])
                (Example.running stateUpdating 1)
                (branchUpdatedMsg "feature-b" false "rebase conflict") w1
         = Ok (m', CmdUpdateNext m') w1
      /\ Model.updateIndex m' = 2%Z)
  /\ (exists w1 m' w2,
        updateNextBranch (Example.scripted [Example.conflicting])
                         (Example.running stateUpdating 2) (Example.world Example.all)
        = Ok (branchUpdatedMsg "feature-c" false "rebase conflict") w1
        /\ trace w1 = [["git"; "checkout"; "feature-c"];
                       ["git"; "rebase"; "main"];
                       ["git"; "rebase"; "--abort"]]
        /\ Update (Example.scripted [Example.conflicting])
                  (Example.running stateUpdating 2)
                  (branchUpdatedMsg "feature-c" false "rebase conflict") w1
           = Ok (m', CmdNil) w2
        /\ Model.failedBranches m' = ["feature-c (rebase conflict)"]
        /\ Model.state m' = stateDone
        /\ trace w2 = trace w1).
Proof.
  split.
  - destruct (C4_conflict_recorded_queue_goes_on
                (Example.scripted [Example.conflicting])
                (Example.running stateUpdating 1)
                (Example.world Example.all) Example.cfg 1 "exit status 1")
      as (w1 & m' & c & w2 & E & T & _ & _ & U & _ & _ & I & _ & _ & Hgo & _).
    + reflexivity.
    + split; reflexivity.
    + reflexivity.
    + reflexivity.
    + reflexivity.
    + destruct Hgo as (Ec & Ew & _); [reflexivity|].
      exists w1, m'. split; [exact E|]. split; [exact T|].
      split; [rewrite Ec, Ew in U; exact U | exact I].
  - destruct (C4_conflict_recorded_queue_goes_on
                (Example.scripted [Example.conflicting])
                (Example.running stateUpdating 2)
                (Example.world Example.all) Example.cfg 2 "exit status 1")
      as (w1 & m' & c & w2 & E & T & _ & _ & U & F & _ & _ & _ & _ & _ & Hlast).
    + reflexivity.
    + split; reflexivity.
    + reflexivity.
    + reflexivity.
    + reflexivity.
    + destruct Hlast as (Ec & S & _ & Tr); [vm_compute; discriminate|].
      exists w1, m', w2. split; [exact E|]. split; [exact T|].
      split; [rewrite Ec in U; exact U|]. split; [exact F|]. split; [exact S|].
      rewrite Tr. apply app_nil_r.
Defined.

(** C6 as stated fails: in [stateDone] the key x is not a quit key, and
    the session stays where it is, selection and all. *)
Lemma C6_other_keys_do_not_reset :
  Update Example.quiet (Example.running stateDone 3) (KeyMsg "x")
         (Example.world Example.all)
  = Ok (Example.running stateDone 3, CmdNil) (Example.world Example.all)
  /\ Model.state (Example.running stateDone 3) = stateDone
  /\ Selected (heap (Example.world Example.all) 0) = true.
Proof. repeat split; reflexivity. Qed.

(** C6, witness: enter after a finished run over three branches. *)
Lemma C6_done_error_keys_witness :
  exists m' w',
    Update Example.quiet (Example.running stateDone 3) (KeyMsg "enter")
           (Example.world Example.all)
    = Ok (m', CmdNil) w'
    /\ Model.state m' = stateBrowsing
    /\ Selected (heap w' 1) = false.
Proof.
  destruct (C6_done_error_keys Example.quiet (Example.running stateDone 3) "enter"
              (Example.world Example.all)) as (H & _).
  - left. reflexivity.
  - destruct H as (m' & w' & E & S & _ & Hsel & _).
    + reflexivity.
    + exists m', w'. split; [exact E|]. split; [exact S|].
      apply Hsel. simpl. auto.
Defined.

(** C7, witness: a modified file, and n at the stash prompt. *)
Lemma C7_declined_stash_witness :
  exists m1 w1,
    Update (Example.scripted [Example.dirty]) Example.browsing (KeyMsg "enter")
           (Example.world Example.all)
    = Ok (m1, CmdNil) w1
    /\ trace w1 = [["git"; "status"; "--porcelain"; "-uno"]]
    /\ Update (Example.scripted [Example.dirty]) m1 (KeyMsg "n") w1
       = Ok (Model.set_message "Update cancelled." Example.browsing, CmdNil) w1.
Proof.
  destruct (C7_declined_stash_changes_nothing
              (Example.scripted [Example.dirty]) Example.browsing
              (Example.world Example.all) " M main.go" "n")
    as (m1 & w1 & E & _ & T & _ & U & _).
  - reflexivity.
  - reflexivity.
  - reflexivity.
  - reflexivity.
  - vm_compute. discriminate.
  - reflexivity.
  - exists m1, w1. split; [exact E|]. split; [exact T | exact U].
Defined.

(** C8, witness: [main], [release/1.0] and [feature-x] with the pattern
    [release/]: [feature-x] is collected. *)
Lemma C8_nothing_skipped_witness :
  exists branches w',
    GetBranchesWithInfo (Example.scripted [Example.listing]) "main" ["release/"]
                        emptyWorld
    = Ok (branches, None) w'
    /\ exists l, In l branches /\ Name (heap w' l) = "feature-x".
Proof.
  destruct (C8_info_never_fails_nothing_skipped
              (Example.scripted [Example.listing]) "main" ["release/"] emptyWorld
              "main
release/1.0
feature-x
")
    as (_ & branches & w' & E & _ & H).
  - reflexivity.
  - exists branches, w'. split; [exact E|]. apply H.
    + vm_compute. auto.
    + discriminate.
    + intros p [<-|[]]. reflexivity.
Defined.

(** C9, witness: no filter, the cursor on the second branch,
    [feature-b]: t shows its description, and enter with the input
    [wip] runs [git config] for [feature-b] and writes its
    description. *)
Lemma C9_tag_witness :
  Update Example.quiet (Model.set_cursor 1%Z Example.browsing) (KeyMsg "t")
         (Example.world Example.none)
  = Ok (Model.set_tagInput "second"
          (Model.set_state stateTagging (Model.set_cursor 1%Z Example.browsing)),
        CmdNil)
       (Example.world Example.none)
  /\ exists m3 w3,
      Update Example.quiet
             (Model.set_tagInput "wip"
                (Model.set_state stateTagging (Model.set_cursor 1%Z Example.browsing)))
             (KeyMsg "enter") (Example.world Example.none)
      = Ok (m3, CmdNil) w3
      /\ trace w3 = [["git"; "config"; "branch.feature-b.description"; "wip"]]
      /\ Description (heap w3 1) = "wip"
      /\ heap w3 0 = heap (Example.world Example.none) 0.
Proof.
  destruct (proj1 C9_tag_saved_by_unfiltered_cursor Example.quiet
              (Model.set_cursor 1%Z Example.browsing)
              (Example.world Example.none) 1) as (E & H).
  - reflexivity.
  - reflexivity.
  - reflexivity.
  - reflexivity.
  - split; [exact E|].
    destruct (H (Model.set_tagInput "wip"
                   (Model.set_state stateTagging
                      (Model.set_cursor 1%Z Example.browsing)))
                (Example.world Example.none))
      as (w3 & E3 & T3 & D3 & O3).
    + reflexivity.
    + reflexivity.
    + reflexivity.
    + eexists _, w3. split; [exact E3|]. split; [exact T3|]. split; [exact D3|].
      apply O3. discriminate.
Defined.

(** C10, witness: the only selected branch of a queue of one,
    [feature-a], is not fully merged: no remote delete, one entry, and
    the run is done. *)
Lemma C10_failed_local_delete_witness :
  exists w1 m' w2,
    deleteNextBranch (Example.scripted [Example.unmerged])
                     (Model.set_selectedForActionCount 1%Z
                        (Example.running stateDeleting 0))
                     (Example.world (fun l => Nat.eqb l 0))
    = Ok (branchDeletedMsg "feature-a" false
            "error: The branch 'feature-a' is not fully merged.") w1
    /\ trace w1 = [["git"; "branch"; "-d"; "feature-a"]]
    /\ Update (Example.scripted [Example.unmerged])
              (Model.set_selectedForActionCount 1%Z (Example.running stateDeleting 0))
              (branchDeletedMsg "feature-a" false
                 "error: The branch 'feature-a' is not fully merged.") w1
       = Ok (m', CmdNil) w2
    /\ Model.failedBranches m'
       = ["feature-a (error: The branch 'feature-a' is not fully merged.)"]
    /\ Model.state m' = stateDone
    /\ trace w2 = [["git"; "branch"; "-d"; "feature-a"]].
Proof.
  destruct (C10_failed_local_delete_skips_remote
              (Example.scripted [Example.unmerged])
              (Model.set_selectedForActionCount 1%Z (Example.running stateDeleting 0))
              (Example.world (fun l => Nat.eqb l 0)) 0
              "error: The branch 'feature-a' is not fully merged." "exit status 1")
    as ((w1 & m' & c & w2 & E & T & _ & U & F & _ & _ & _ & _ & _ & Hlast) & _).
  - split; [vm_compute; discriminate | reflexivity].
  - reflexivity.
  - reflexivity.
  - destruct Hlast as (Ec & S & _ & Tr); [vm_compute; discriminate|].
    exists w1, m', w2. split; [exact E|]. split; [exact T|].
    split; [rewrite Ec in U; exact U|]. split; [exact F|]. split; [exact S|].
    rewrite Tr, T. reflexivity.
Defined.

(** * More properties *)

(** ** Computations that return and keep the queue *)

Lemma keepsQueue_refl h : keepsQueue h h.
Proof. intros l. auto. Qed.

Lemma keepsQueue_trans h1 h2 h3 :
  keepsQueue h1 h2 -> keepsQueue h2 h3 -> keepsQueue h1 h3.
Proof.
  intros H12 H23 l. destruct (H12 l) as [A B], (H23 l) as [C D].
  split; congruence.
Qed.

Lemma keepsQueue_upd h l f :
  (forall b, Selected (f b) = Selected b /\ Name (f b) = Name b) ->
  keepsQueue h (upd h l f).
Proof.
  intros Hf l'. unfold upd. destruct (Nat.eqb l' l); [apply Hf | auto].
Qed.

Section Runs.

Variable P : list string -> Prop.

Lemma runs_ret {A} (a : A) (post : A -> Prop) : post a -> runs P (ret a) post.
Proof.
  intros Ha w. exists a, w. split; [reflexivity|]. split; [exact Ha|].
  split; [apply keepsQueue_refl|]. exists []. now rewrite app_nil_r.
Qed.

Lemma runs_bind {A B} (c : M A) (k : A -> M B) (Q : A -> Prop) (post : B -> Prop) :
  runs P c Q -> (forall a, Q a -> runs P (k a) post) -> runs P (bind c k) post.
Proof.
  intros Hc Hk w. destruct (Hc w) as (a & w1 & E1 & Qa & K1 & ext1 & T1 & F1).
  destruct (Hk a Qa w1) as (b & w2 & E2 & Pb & K2 & ext2 & T2 & F2).
  exists b, w2. unfold bind. rewrite E1. split; [exact E2|]. split; [exact Pb|].
  split; [eapply keepsQueue_trans; eassumption|].
  exists (ext1 ++ ext2)%list. rewrite T2, T1, app_assoc. split; [reflexivity|].
  apply Forall_app. auto.
Qed.

Lemma runs_Output env argv :
  P argv -> runs P (Output env argv) (fun _ => True).
Proof.
  intros Hp w. eexists _, _. split; [apply Output_eq|]. split; [exact I|].
  split; [apply keepsQueue_refl|]. exists [argv]. split; [reflexivity|].
  now constructor.
Qed.

Lemma runs_Run env argv :
  P argv -> runs P (Run env argv) (fun _ => True).
Proof.
  intros Hp w. eexists _, _. split; [apply Run_eq|]. split; [exact I|].
  split; [apply keepsQueue_refl|]. exists [argv]. split; [reflexivity|].
  now constructor.
Qed.

Lemma runs_gets {A} (f : (loc -> Branch) -> A) :
  runs P (gets f) (fun _ => True).
Proof.
  intros w. exists (f (heap w)), w. split; [reflexivity|]. split; [exact I|].
  split; [apply keepsQueue_refl|]. exists []. now rewrite app_nil_r.
Qed.

Lemma runs_modify l f :
  (forall b, Selected (f b) = Selected b /\ Name (f b) = Name b) ->
  runs P (modify l f) (fun _ => True).
Proof.
  intros Hf w. eexists _, _. split; [reflexivity|]. split; [exact I|].
  split; [now apply keepsQueue_upd|]. exists []. cbn. now rewrite app_nil_r.
Qed.

Lemma runs_forFirst cond body bs :
  (forall l, runs P (body l) (fun _ => True)) ->
  runs P (forFirst bs cond body) (fun _ => True).
Proof.
  intros Hb. induction bs as [|b bs IH].
  - now apply runs_ret.
  - cbn [forFirst]. intros w. unfold bind, load. destruct (cond (heap w b)).
    + apply Hb.
    + apply IH.
Qed.

End Runs.

Lemma updateProcess_notStash argv : updateProcess argv -> notStash argv.
Proof.
  unfold updateProcess, notStash. cbn [In]. intros H E. rewrite E in H.
  repeat destruct H as [H|H]; try discriminate H; exact H.
Qed.

Lemma deleteProcess_notStash argv : deleteProcess argv -> notStash argv.
Proof. intros (name & [-> | ->]); unfold notStash; cbn; discriminate. Qed.

(** The process at hand is one of the kind. *)
Ltac is_process :=
  solve [ unfold updateProcess; cbn;
          repeat (first [left; reflexivity | right])
        | unfold deleteProcess; eexists; first [left; reflexivity | right; reflexivity] ].

(** One step of the symbolic run of a computation. *)
Ltac runs_step :=
  first
    [ apply runs_ret
    | eapply runs_bind;
      [ first [ apply runs_Output; is_process
              | apply runs_Run; is_process
              | apply runs_gets ]
      | intros ? _; cbv beta iota ]
    | match goal with
      | |- runs _ (let '(_, _) := ?x in _) _ => destruct x; cbv beta iota
      | |- runs _ (match ?x with _ => _ end) _ => destruct x; cbv beta iota
      end ].

Section Commands.

Variable env : Env.

Lemma UpdateBaseBranch_runs baseBranch remote :
  runs updateProcess (UpdateBaseBranch env baseBranch remote) (fun _ => True).
Proof. unfold UpdateBaseBranch. repeat runs_step; exact I. Qed.

Lemma RebaseBranch_runs branchName baseBranch :
  runs updateProcess (RebaseBranch env branchName baseBranch) (fun _ => True).
Proof. unfold RebaseBranch. repeat runs_step; exact I. Qed.

(** What [updateNextBranch] does once it has its target, for a branch
    of the given name: the message is about that branch. *)
Lemma updateTail_runs m cfg name :
  Model.config m = Some cfg ->
  runs updateProcess
       (guard <- (if (Model.updateIndex m =? 0)%Z then updateBase env m else ret None) ;;
        match guard with
        | Some msg => ret (branchUpdatedMsg name false msg)
        | None =>
            cfg <- derefConfig (Model.config m) ;;
            e <- RebaseBranch env name (BaseBranch cfg) ;;
            match e with
            | Some msg => ret (branchUpdatedMsg name false msg)
            | None =>
                e <- PushBranch env name ;;
                match e with
                | Some _ => ret (branchUpdatedMsg name false "push failed")
                | None => ret (branchUpdatedMsg name true "")
                end
            end
        end)
       (fun msg => exists s e, msg = branchUpdatedMsg name s e).
Proof.
  intros E. rewrite E. cbn [derefConfig].
  eapply runs_bind with (Q := fun _ => True).
  { destruct (Model.updateIndex m =? 0)%Z; [|now apply runs_ret].
    unfold updateBase, FetchUpstream. rewrite E. cbn [derefConfig].
    eapply runs_bind; [apply runs_ret; exact I|]. intros ? _.
    eapply runs_bind; [apply runs_Run; is_process|].
    intros [?|] _; [now apply runs_ret | apply UpdateBaseBranch_runs]. }
  intros [msg|] _; [apply runs_ret; eauto|].
  eapply runs_bind; [apply runs_ret; exact I|]. intros ? _.
  eapply runs_bind; [apply RebaseBranch_runs|].
  intros [msg|] _; [apply runs_ret; eauto|].
  unfold PushBranch.
  eapply runs_bind; [apply runs_Run; is_process|].
  intros [?|] _; apply runs_ret; eauto.
Qed.

(** The update command of a loaded model returns a
    [branchUpdatedMsg], changes no selection and never touches the
    stash. *)
Lemma updateNextBranch_runs m :
  Model.config m <> None ->
  runs updateProcess (updateNextBranch env m)
       (fun msg => exists b s e, msg = branchUpdatedMsg b s e).
Proof.
  intros Hc. destruct (Model.config m) as [cfg|] eqn:E; [clear Hc | congruence].
  unfold updateNextBranch.
  eapply runs_bind; [apply runs_gets|]. intros [target|] _; [|apply runs_ret; eauto].
  eapply runs_bind; [apply runs_gets|]. intros name _.
  intros w. destruct (updateTail_runs m cfg name E w)
    as (msg & w' & Em & (s & e & ->) & H).
  exists (branchUpdatedMsg name s e), w'. split; [exact Em|]. split; [eauto | exact H].
Qed.

Lemma outputAsError_runs argv :
  deleteProcess argv -> runs deleteProcess (outputAsError env argv) (fun _ => True).
Proof.
  intros Hn. unfold outputAsError, CombinedOutput.
  eapply runs_bind; [now apply runs_Output|].
  intros [o [e|]] _; now apply runs_ret.
Qed.

(** What [deleteNextBranch] does once it has its target. *)
Lemma deleteTail_runs name :
  runs deleteProcess
       (e <- DeleteLocalBranch env name ;;
        match e with
        | Some msg => ret (branchDeletedMsg name false msg)
        | None =>
            e <- DeleteRemoteBranch env name ;;
            match e with
            | Some msg => ret (branchDeletedMsg name false msg)
            | None => ret (branchDeletedMsg name true "")
            end
        end)
       (fun msg => exists s e, msg = branchDeletedMsg name s e).
Proof.
  unfold DeleteLocalBranch, DeleteRemoteBranch.
  eapply runs_bind; [apply outputAsError_runs; is_process|].
  intros [msg|] _; [apply runs_ret; eauto|].
  eapply runs_bind; [apply outputAsError_runs; is_process|].
  intros [msg|] _; apply runs_ret; eauto.
Qed.

(** The delete command returns a [branchDeletedMsg], changes no
    selection and never touches the stash. *)
Lemma deleteNextBranch_runs m :
  runs deleteProcess (deleteNextBranch env m)
       (fun msg => exists b s e, msg = branchDeletedMsg b s e).
Proof.
  unfold deleteNextBranch.
  eapply runs_bind; [apply runs_gets|]. intros [target|] _; [|apply runs_ret; eauto].
  eapply runs_bind; [apply runs_gets|]. intros name _.
  intros w. destruct (deleteTail_runs name w) as (msg & w' & Em & (s & e & ->) & H).
  exists (branchDeletedMsg name s e), w'. split; [exact Em|]. split; [eauto | exact H].
Qed.

End Commands.

(** ** The whole run *)

Lemma stashPops_app t ext :
  stashPops (List.app t ext) = stashPops t + stashPops ext.
Proof. apply count_occ_app. Qed.

Lemma stashPops_notStash ext : Forall notStash ext -> stashPops ext = 0.
Proof.
  intros H. apply count_occ_not_In. intros Hin.
  rewrite Forall_forall in H. now apply (H _ Hin).
Qed.

Lemma stashPops_pop : stashPops [["git"; "stash"; "pop"]] = 1.
Proof. reflexivity. Qed.

Lemma len_app_one {A} (l : list A) (x : A) : len (List.app l [x]) = (len l + 1)%Z.
Proof. unfold len. rewrite length_app. cbn. lia. Qed.

Section Step.

Variable env : Env.

(** What [Update] does with the message of a finished branch, while
    the counters are those of a run in progress. *)
Lemma branchFinished_step status next_cmd m branch success error w :
  (0 <= Model.successCount m <= Model.updateIndex m)%Z ->
  (0 <= Model.updateIndex m < Model.selectedForActionCount m)%Z ->
  (Model.selectedForActionCount m <= int_max)%Z ->
  exists m' c w',
    branchFinished env status next_cmd m branch success error w = Ok (m', c) w'
    /\ Model.updateIndex m' = (Model.updateIndex m + 1)%Z
    /\ Model.selectedForActionCount m' = Model.selectedForActionCount m
    /\ Model.config m' = Model.config m
    /\ (Model.branches m' = Model.branches m
        /\ Model.deleteMode m' = Model.deleteMode m)
    /\ (0 <= Model.successCount m' <= Model.updateIndex m')%Z
    /\ (Model.successCount m' + len (Model.failedBranches m')
        = Model.successCount m + len (Model.failedBranches m) + 1)%Z
    /\ keepsQueue (heap w) (heap w')
    /\ ((Model.updateIndex m + 1 < Model.selectedForActionCount m)%Z
        /\ c = next_cmd m'
        /\ Model.state m' = Model.state m
        /\ Model.didStash m' = Model.didStash m
        /\ trace w' = trace w
        \/ (Model.updateIndex m + 1 = Model.selectedForActionCount m)%Z
           /\ c = CmdNil
           /\ Model.state m' = stateDone
           /\ Model.didStash m' = false
           /\ trace w'
              = List.app (trace w)
                  (if Model.didStash m then [["git"; "stash"; "pop"]] else [])).
Proof.
  intros Hs Hk Hn.
  assert (Hmark : exists w1,
             forFirst (Model.branches m) (fun b => String.eqb (Name b) branch)
                      (fun b => modify b (with_Status status)) w = Ok tt w1
             /\ keepsQueue (heap w) (heap w1) /\ trace w1 = trace w).
  { destruct (runs_forFirst (fun _ => False)
                (fun b => String.eqb (Name b) branch)
                (fun b => modify b (with_Status status)) (Model.branches m)
                (fun l => runs_modify _ l (with_Status status)
                            (fun b => conj eq_refl eq_refl)) w)
      as ([] & w1 & E & _ & K & ext & T & F).
    exists w1. split; [exact E|]. split; [exact K|].
    destruct ext as [|a ext]; [now rewrite app_nil_r in T|].
    inversion F; contradiction. }
  unfold branchFinished.
  set (m1 := if success
             then Model.set_successCount (int_incr (Model.successCount m)) m
             else Model.set_failedBranches
                    (List.app (Model.failedBranches m)
                              [branch ++ " (" ++ error ++ ")"]) m).
  assert (Hfirst : exists w1,
             (if success
              then
                forFirst (Model.branches
                            (Model.set_successCount (int_incr (Model.successCount m)) m))
                         (fun b => String.eqb (Name b) branch)
                         (fun b => modify b (with_Status status)) ;;;
                ret (Model.set_successCount (int_incr (Model.successCount m)) m)
              else
                ret (Model.set_failedBranches
                       (List.app (Model.failedBranches m)
                                 [branch ++ " (" ++ error ++ ")"]) m)) w
             = Ok m1 w1
             /\ keepsQueue (heap w) (heap w1) /\ trace w1 = trace w).
  { subst m1. destruct success.
    - destruct Hmark as (w1 & E & K & T). exists w1. unfold bind.
      cbn [Model.branches Model.set_successCount]. rewrite E. now unfold ret.
    - exists w. split; [reflexivity|]. split; [apply keepsQueue_refl | reflexivity]. }
  destruct Hfirst as (w1 & E1 & K1 & T1).
  unfold bind at 1. rewrite E1.
  assert (Hm1 : Model.updateIndex m1 = Model.updateIndex m
                /\ Model.selectedForActionCount m1 = Model.selectedForActionCount m
                /\ Model.config m1 = Model.config m
                /\ (Model.branches m1 = Model.branches m
                    /\ Model.deleteMode m1 = Model.deleteMode m)
                /\ Model.state m1 = Model.state m
                /\ Model.didStash m1 = Model.didStash m
                /\ (0 <= Model.successCount m1 <= Model.updateIndex m + 1)%Z
                /\ (Model.successCount m1 + len (Model.failedBranches m1)
                    = Model.successCount m + len (Model.failedBranches m) + 1)%Z).
  { subst m1. destruct success; cbn.
    - rewrite int_incr_small by (unfold int_min; lia). repeat split; lia.
    - rewrite len_app_one. repeat split; lia. }
  clearbody m1.
  destruct Hm1 as (Hi & Hc & Hcfg & (Hb & Hdm) & Hst & Hd & Hsc & Hsum).
  cbn [Model.updateIndex Model.set_updateIndex Model.selectedForActionCount].
  rewrite Hi, Hc, int_incr_small by (unfold int_min; lia).
  destruct (Z.geb_spec (Model.updateIndex m + 1) (Model.selectedForActionCount m)).
  - destruct (popOwedStash_spec env
                (Model.set_state stateDone
                   (Model.set_updateIndex (Model.updateIndex m + 1)%Z m1)) w1)
      as (w2 & E2 & H2 & P2).
    unfold bind. rewrite E2. unfold ret. eexists _, _, _. split; [reflexivity|].
    cbn. rewrite H2, T1 in *. cbn in P2. rewrite Hd in P2.
    repeat split; try assumption; try lia; try apply K1.
    all: try (right; repeat split; (lia || exact P2)).
  - unfold ret. eexists _, _, _. split; [reflexivity|]. cbn.
    repeat split; try assumption; try lia; try apply K1.
    all: try (left; repeat split; (assumption || lia)).
Qed.

End Step.

(** The run of a queue, for either kind of command: [mk] makes the
    command of a model, [body] is what the command does, [mkmsg] the
    message it sends, [P] the processes it may start. *)
Section Run.

Variable env : Env.
Variable status : string.
Variable mk : Model.t -> Cmd.
Variable body : Model.t -> M Msg.
Variable mkmsg : string -> bool -> string -> Msg.
Variable ready : Model.t -> Prop.
Variable P : list string -> Prop.

Hypothesis exec_mk :
  forall m, execCmd env (mk m) = (msg <- body m ;; ret (Some msg)).
Hypothesis update_mkmsg :
  forall m b s e,
    Update env m (mkmsg b s e) = branchFinished env status mk m b s e.
Hypothesis ready_config :
  forall m m', Model.config m' = Model.config m -> ready m -> ready m'.
Hypothesis P_notStash : forall argv, P argv -> notStash argv.
Hypothesis body_runs :
  forall m, ready m ->
            runs P (body m) (fun msg => exists b s e, msg = mkmsg b s e).

Lemma run_reaches_done :
  forall (d fuel : nat) (m : Model.t) (w : World),
    ready m ->
    (0 <= Model.successCount m <= Model.updateIndex m)%Z ->
    (0 <= Model.updateIndex m < Model.selectedForActionCount m)%Z ->
    (Model.selectedForActionCount m <= int_max)%Z ->
    Z.to_nat (Model.selectedForActionCount m - Model.updateIndex m) = d ->
    d <= fuel ->
    exists m' w',
      pump env fuel m (mk m) w = Ok (m', CmdNil) w'
      /\ Model.state m' = stateDone
      /\ Model.updateIndex m' = Model.selectedForActionCount m
      /\ (Model.successCount m' + len (Model.failedBranches m')
          = Model.successCount m + len (Model.failedBranches m)
            + (Model.selectedForActionCount m - Model.updateIndex m))%Z
      /\ Model.didStash m' = false
      /\ stashPops (trace w')
         = stashPops (trace w) + (if Model.didStash m then 1 else 0)
      /\ keepsQueue (heap w) (heap w')
      /\ (Model.branches m' = Model.branches m
          /\ Model.deleteMode m' = Model.deleteMode m)
      /\ exists ext,
          trace w' = List.app (trace w) ext
          /\ Forall (fun argv => P argv \/ argv = ["git"; "stash"; "pop"]) ext.
Proof.
  induction d as [|d IH]; intros fuel m w Hcfg Hs Hk Hn Hd Hf; [lia|].
  destruct fuel as [|fuel]; [lia|].
  cbn [pump]. unfold bind at 1. rewrite exec_mk. unfold bind at 1.
  destruct (body_runs m Hcfg w)
    as (msg & w1 & E1 & (b & s & e & ->) & K1 & ext & T1 & F1).
  rewrite E1. unfold ret at 1. cbv beta iota. unfold bind at 1.
  rewrite update_mkmsg.
  destruct (branchFinished_step env status mk m b s e w1 Hs Hk Hn)
    as (m1 & c & w2 & E2 & Hi & Hc & Hcf & Hb & Hs1 & Hsum & K2 & Hcase).
  rewrite E2. cbv beta iota.
  assert (F1' : Forall (fun argv => P argv \/ argv = ["git"; "stash"; "pop"]) ext)
    by (eapply Forall_impl; [|exact F1]; intros; now left).
  assert (Hp1 : stashPops (trace w1) = stashPops (trace w)).
  { rewrite T1, stashPops_app, (stashPops_notStash ext); [lia|].
    eapply Forall_impl; [|exact F1]. exact P_notStash. }
  destruct Hcase as [(Hlt & -> & Hst & Hds & Ht) | (Heq & -> & Hst & Hds & Hp)].
  - destruct (IH fuel m1 w2)
      as (m' & w' & E & Sd & Si & Ss & Sds & Sp & Sk & Sb & ext2 & T2 & F2);
      try lia.
    + now apply (ready_config m).
    + exists m', w'. split; [exact E|]. split; [exact Sd|].
      split; [congruence|]. split; [lia|]. split; [exact Sds|].
      split; [rewrite Sp, Ht, Hds, Hp1; reflexivity|].
      split.
      { eapply keepsQueue_trans; [|exact Sk].
        eapply keepsQueue_trans; eassumption. }
      split; [destruct Sb, Hb; split; congruence|].
      exists (List.app ext ext2). rewrite T2, Ht, T1, app_assoc.
      split; [reflexivity | now apply Forall_app].
  - exists m1, w2. rewrite pump_idle. split; [reflexivity|]. split; [exact Hst|].
    split; [lia|]. split; [lia|]. split; [exact Hds|].
    split.
    { rewrite Hp, stashPops_app, Hp1. destruct (Model.didStash m); cbn; lia. }
    split; [eapply keepsQueue_trans; eassumption|]. split; [exact Hb|].
    exists (List.app ext (if Model.didStash m then [["git"; "stash"; "pop"]] else [])).
    rewrite Hp, T1, app_assoc. split; [reflexivity|].
    apply Forall_app. split; [exact F1'|].
    destruct (Model.didStash m); [constructor; [now right | constructor] | constructor].
Qed.

End Run.

(** ** The queue *)

Lemma findTarget_from h bs :
  forall c k,
    (0 <= c <= k)%Z ->
    (c + len bs <= int_max)%Z ->
    findTarget h bs c k = nth_error (selectedOf h bs) (Z.to_nat (k - c)).
Proof.
  induction bs as [|b bs IH]; intros c k Hc Hn.
  - cbn. now destruct (Z.to_nat (k - c)).
  - unfold len in *. cbn [List.length] in Hn. cbn [findTarget selectedOf filter].
    fold (selectedOf h bs). destruct (Selected (h b)).
    + destruct (Z.eqb_spec c k) as [->|Hne].
      * now rewrite Z.sub_diag.
      * rewrite int_incr_small by (unfold int_min; lia).
        rewrite IH by lia.
        replace (Z.to_nat (k - c)) with (S (Z.to_nat (k - (c + 1)))) by lia.
        reflexivity.
    + apply IH; lia.
Qed.

(** X1: the target of a command at position [k] is the [k]-th selected
    branch, in the order of the list; beyond the selected ones there is
    none. *)
Theorem X1_findTarget_is_kth_selected
        (h : loc -> Branch) (bs : list loc) (k : Z) :
  (len bs <= int_max)%Z ->
  (0 <= k)%Z ->
  findTarget h bs 0 k = nth_error (selectedOf h bs) (Z.to_nat k)
  /\ ((len (selectedOf h bs) <= k)%Z -> findTarget h bs 0 k = None).
Proof.
  intros Hn Hk.
  assert (E : findTarget h bs 0 k = nth_error (selectedOf h bs) (Z.to_nat k)).
  { rewrite findTarget_from by lia. now rewrite Z.sub_0_r. }
  split; [exact E|]. intros Hge. rewrite E. apply nth_error_None.
  unfold len in Hge. lia.
Qed.

Lemma countSelected_from h bs :
  forall c,
    (0 <= c)%Z ->
    (c + len bs <= int_max)%Z ->
    countSelected h bs c = (c + len (selectedOf h bs))%Z.
Proof.
  induction bs as [|b bs IH]; intros c Hc Hn.
  - cbn. unfold len. cbn. lia.
  - unfold len in *. cbn [List.length] in Hn. cbn [countSelected selectedOf filter].
    fold (selectedOf h bs). destruct (Selected (h b)).
    + rewrite int_incr_small by (unfold int_min; lia). rewrite IH by lia.
      cbn [List.length]. lia.
    + apply IH; lia.
Qed.

(** X2: the count that decides whether a run starts, and how long it
    is, is the number of selected branches. *)
Theorem X2_countSelected_is_queue_length (h : loc -> Branch) (bs : list loc) :
  (len bs <= int_max)%Z ->
  countSelected h bs 0 = len (selectedOf h bs).
Proof. intros Hn. rewrite countSelected_from by lia. lia. Qed.

(** X3: an update run that is under way comes to its end: with fuel for
    the positions left, the message loop stops in [stateDone] with no
    command pending; every position left was counted once, as a success
    or as a failure; an owed stash was popped exactly once and is owed
    no more; no branch changed its name or its selection; and every
    process run was a fetch, rev-list, checkout, reset, rebase or push,
    or that one stash pop. *)
Theorem X3_update_run_completes
        (env : Env) (fuel : nat) (m : Model.t) (w : World) :
  Model.config m <> None ->
  (0 <= Model.successCount m <= Model.updateIndex m)%Z ->
  (0 <= Model.updateIndex m < Model.selectedForActionCount m)%Z ->
  (Model.selectedForActionCount m <= int_max)%Z ->
  Z.to_nat (Model.selectedForActionCount m - Model.updateIndex m) <= fuel ->
  exists m' w',
    pump env fuel m (CmdUpdateNext m) w = Ok (m', CmdNil) w'
    /\ Model.state m' = stateDone
    /\ Model.updateIndex m' = Model.selectedForActionCount m
    /\ (Model.successCount m' + len (Model.failedBranches m')
        = Model.successCount m + len (Model.failedBranches m)
          + (Model.selectedForActionCount m - Model.updateIndex m))%Z
    /\ Model.didStash m' = false
    /\ stashPops (trace w')
       = stashPops (trace w) + (if Model.didStash m then 1 else 0)
    /\ keepsQueue (heap w) (heap w')
    /\ (Model.branches m' = Model.branches m
        /\ Model.deleteMode m' = Model.deleteMode m)
    /\ exists ext,
        trace w' = List.app (trace w) ext
        /\ Forall (fun argv => updateProcess argv \/ argv = ["git"; "stash"; "pop"]) ext.
Proof.
  intros Hc Hs Hk Hn Hf.
  eapply (run_reaches_done env "updated" CmdUpdateNext (updateNextBranch env)
            branchUpdatedMsg (fun m0 => Model.config m0 <> None) updateProcess);
    try eassumption; try reflexivity.
  - intros m0 m1 E H0. now rewrite E.
  - apply updateProcess_notStash.
  - intros m0 H0. now apply updateNextBranch_runs.
Qed.

(** X4: the same for a delete run, which needs no configuration: it
    comes to its end in [stateDone], every position left is counted
    once, an owed stash is popped exactly once, and every process run
    was a [git branch -d] or a [git push origin --delete], or that one
    stash pop. *)
Theorem X4_delete_run_completes
        (env : Env) (fuel : nat) (m : Model.t) (w : World) :
  (0 <= Model.successCount m <= Model.updateIndex m)%Z ->
  (0 <= Model.updateIndex m < Model.selectedForActionCount m)%Z ->
  (Model.selectedForActionCount m <= int_max)%Z ->
  Z.to_nat (Model.selectedForActionCount m - Model.updateIndex m) <= fuel ->
  exists m' w',
    pump env fuel m (CmdDeleteNext m) w = Ok (m', CmdNil) w'
    /\ Model.state m' = stateDone
    /\ Model.updateIndex m' = Model.selectedForActionCount m
    /\ (Model.successCount m' + len (Model.failedBranches m')
        = Model.successCount m + len (Model.failedBranches m)
          + (Model.selectedForActionCount m - Model.updateIndex m))%Z
    /\ Model.didStash m' = false
    /\ stashPops (trace w')
       = stashPops (trace w) + (if Model.didStash m then 1 else 0)
    /\ keepsQueue (heap w) (heap w')
    /\ (Model.branches m' = Model.branches m
        /\ Model.deleteMode m' = Model.deleteMode m)
    /\ exists ext,
        trace w' = List.app (trace w) ext
        /\ Forall (fun argv => deleteProcess argv \/ argv = ["git"; "stash"; "pop"]) ext.
Proof.
  intros Hs Hk Hn Hf.
  eapply (run_reaches_done env "deleted" CmdDeleteNext (deleteNextBranch env)
            branchDeletedMsg (fun _ => True) deleteProcess);
    try eassumption; try reflexivity; auto.
  - apply deleteProcess_notStash.
  - intros m0 _. apply deleteNextBranch_runs.
Qed.

(** X5: a run visits the queue in its order.  The update command at
    position [k] reports on the [k]-th selected branch of the list, and
    the delete command does the same; past the last selected branch
    either command reports "branch not found" and starts no process. *)
Theorem X5_commands_follow_the_queue (env : Env) (m : Model.t) (w : World) :
  (len (Model.branches m) <= int_max)%Z ->
  (0 <= Model.updateIndex m)%Z ->
  match nth_error (selectedOf (heap w) (Model.branches m))
                  (Z.to_nat (Model.updateIndex m)) with
  | Some target =>
      (Model.config m <> None ->
       exists s e w',
         updateNextBranch env m w
         = Ok (branchUpdatedMsg (Name (heap w target)) s e) w')
      /\ exists s e w',
          deleteNextBranch env m w
          = Ok (branchDeletedMsg (Name (heap w target)) s e) w'
  | None =>
      updateNextBranch env m w = Ok (branchUpdatedMsg "" false "branch not found") w
      /\ deleteNextBranch env m w = Ok (branchDeletedMsg "" false "branch not found") w
  end.
Proof.
  intros Hn Hk.
  assert (E : findTarget (heap w) (Model.branches m) 0 (Model.updateIndex m)
              = nth_error (selectedOf (heap w) (Model.branches m))
                          (Z.to_nat (Model.updateIndex m))).
  { rewrite findTarget_from by lia. now rewrite Z.sub_0_r. }
  destruct (nth_error _ _) as [target|].
  - split.
    + intros Hc. destruct (Model.config m) as [cfg|] eqn:Ec; [|congruence].
      unfold updateNextBranch. unfold bind at 1, gets at 1. rewrite E.
      unfold bind at 1, gets at 1.
      destruct (updateTail_runs env m cfg (Name (heap w target)) Ec w)
        as (msg & w' & Em & (s & e & ->) & _).
      rewrite Ec in Em. rewrite Ec. eauto.
    + unfold deleteNextBranch. unfold bind at 1, gets at 1. rewrite E.
      unfold bind at 1, gets at 1.
      destruct (deleteTail_runs env (Name (heap w target)) w)
        as (msg & w' & Em & (s & e & ->) & _).
      eauto.
  - unfold updateNextBranch, deleteNextBranch, bind, gets. now rewrite E.
Qed.

Lemma HasUncommittedChanges_clean env w output :
  git env (trace w) ["git"; "status"; "--porcelain"; "-uno"] = mkResult output None ->
  strings.TrimSpace output = "" ->
  HasUncommittedChanges env w
  = Ok false (with_trace (List.app (trace w) [["git"; "status"; "--porcelain"; "-uno"]]) w).
Proof.
  intros Hg He. unfold HasUncommittedChanges, bind. rewrite Output_eq, Hg.
  cbn [out err]. unfold ret. now rewrite He.
Qed.

(** X6: enter, pressed while browsing with a clean tree and a loaded
    configuration, in non-manual mode, runs the whole queue: the session
    ends in [stateDone] and the successes and failures together are as
    many as the branches that were selected. *)
Theorem X6_enter_runs_the_whole_queue
        (env : Env) (fuel : nat) (m : Model.t) (w : World) (cfg : Config)
        (output : string) :
  Model.state m = stateBrowsing ->
  Model.searchMode m = false ->
  Model.deleteMode m = false ->
  manualMode env = false ->
  Model.config m = Some cfg ->
  git env (trace w) ["git"; "status"; "--porcelain"; "-uno"] = mkResult output None ->
  strings.TrimSpace output = "" ->
  (len (Model.branches m) <= int_max)%Z ->
  selectedOf (heap w) (Model.branches m) <> [] ->
  List.length (selectedOf (heap w) (Model.branches m)) <= fuel ->
  exists m' w',
    session env fuel m ["enter"] w = Ok (m', false) w'
    /\ Model.state m' = stateDone
    /\ (Model.successCount m' + len (Model.failedBranches m')
        = len (selectedOf (heap w) (Model.branches m)))%Z
    /\ Model.didStash m' = false
    /\ stashPops (trace w')
       = stashPops (trace w) + (if Model.didStash m then 1 else 0)
    /\ keepsQueue (heap w) (heap w').
Proof.
  intros Hst Hs Hd Hm Hc Hg Ho Hn Hq Hf.
  assert (Hcount : countSelected (heap w) (Model.branches m) 0
                   = len (selectedOf (heap w) (Model.branches m)))
    by (rewrite countSelected_from by lia; lia).
  assert (Hpos : (0 < len (selectedOf (heap w) (Model.branches m)))%Z).
  { unfold len. destruct (selectedOf (heap w) (Model.branches m)); [congruence|].
    cbn [List.length]. lia. }
  assert (Hle : (len (selectedOf (heap w) (Model.branches m)) <= int_max)%Z).
  { pose proof (filter_length_le (fun l => Selected (heap w l)) (Model.branches m)) as L.
    unfold len, selectedOf in *. lia. }
  remember (len (selectedOf (heap w) (Model.branches m))) as n eqn:En in *.
  cbn [session]. unfold bind at 1. unfold Update at 1, handleKeyPress.
  rewrite Hst, handleBrowsingKeys_enter by assumption.
  unfold bind at 1. rewrite (HasUncommittedChanges_clean env w output Hg Ho).
  unfold bind at 1, gets at 1. cbn [heap with_trace]. rewrite Hcount.
  destruct (Z.eqb_spec n 0) as [E0|_]; [lia|].
  unfold bind at 1, populateCommandLog. rewrite Hc. cbn [derefConfig].
  unfold bind at 1. unfold ret at 1. unfold bind at 1, gets at 1. unfold ret at 1.
  rewrite Hm. unfold ret at 1. cbv beta iota. unfold bind at 1.
  match goal with
  | |- context [pump env fuel ?m1 (CmdUpdateNext ?m1) ?w1] =>
      destruct (run_reaches_done env "updated" CmdUpdateNext (updateNextBranch env)
                  branchUpdatedMsg (fun m0 => Model.config m0 <> None) updateProcess
                  (fun m0 => eq_refl) (fun m0 b s e => eq_refl)
                  (fun m0 m1' E H0 => eq_ind_r (fun c => c <> None) H0 E)
                  updateProcess_notStash
                  (fun m0 H0 => updateNextBranch_runs env m0 H0)
                  (Z.to_nat n) fuel m1 w1)
        as (m' & w' & E & Sd & Si & Ss & Sds & Sp & Sk & Sb & _)
  end.
  - cbn. rewrite Hc. discriminate.
  - cbn. lia.
  - cbn. lia.
  - cbn -[int_max]. exact Hle.
  - cbn. lia.
  - unfold len in En. lia.
  - rewrite E. cbv beta iota. cbn [session]. unfold ret.
    exists m', w'. split; [reflexivity|]. split; [exact Sd|].
    cbn in Ss, Sk. split; [unfold len in *; cbn [List.length] in Ss; lia|].
    split; [exact Sds|]. split; [|exact Sk].
    unfold startUpdating in Sp.
    cbn [trace with_trace Model.didStash Model.set_state Model.set_updateIndex
         Model.set_successCount Model.set_failedBranches
         Model.set_selectedForActionCount Model.set_commandLog] in Sp.
    rewrite Sp, stashPops_app.
    change (stashPops [["git"; "status"; "--porcelain"; "-uno"]]) with 0. lia.
Qed.

(** ** The git wrappers *)

Lemma baseStepPasses_0 env t b r :
  baseStepPasses env t b r 0
  = match err (git env t ["git"; "rev-list"; b; "^" ++ r ++ "/" ++ b]) with
    | Some _ => false
    | None => String.eqb (strings.TrimSpace
                (out (git env t ["git"; "rev-list"; b; "^" ++ r ++ "/" ++ b]))) ""
    end.
Proof. unfold baseStepPasses. cbn [firstn nth baseUpdateCommands]. now rewrite app_nil_r. Qed.

(** X7: [UpdateBaseBranch] always returns; it runs a beginning of
    rev-list, checkout, reset --hard, push, in this order, and stops at
    the first step that fails: every step before the last one run went
    through, an error is returned exactly when the last step run did
    not, and nil is returned only after all four ran and went
    through. *)
Theorem X7_UpdateBaseBranch_stops_at_first_failure
        (env : Env) (baseBranch remote : string) (w : World) :
  exists res w' n,
    UpdateBaseBranch env baseBranch remote w = Ok res w'
    /\ heap w' = heap w
    /\ trace w' = List.app (trace w) (firstn n (baseUpdateCommands baseBranch remote))
    /\ 1 <= n <= 4
    /\ (forall k, k + 1 < n ->
                  baseStepPasses env (trace w) baseBranch remote k = true)
    /\ (res <> None ->
        baseStepPasses env (trace w) baseBranch remote (n - 1) = false)
    /\ (res = None ->
        n = 4 /\ baseStepPasses env (trace w) baseBranch remote 3 = true).
Proof.
  assert (P0 := baseStepPasses_0 env (trace w) baseBranch remote).
  unfold UpdateBaseBranch, bind. rewrite Output_eq.
  destruct (err (git env (trace w) _)) as [e|] eqn:E0; cbv beta iota.
  { unfold ret. eexists _, _, 1. split; [reflexivity|]. cbn [heap trace with_trace firstn baseUpdateCommands Nat.sub].
    split; [reflexivity|]. split; [reflexivity|]. split; [lia|].
    split; [intros; lia|]. split; [intros _; exact P0 | discriminate]. }
  destruct (strings.TrimSpace _) as [|c s] eqn:Et.
  2:{ cbn [String.length]. destruct (Z.gtb_spec (Z.of_nat (S (String.length s))) 0);
        [|lia].
      unfold ret. eexists _, _, 1. split; [reflexivity|].
      cbn [heap trace with_trace firstn baseUpdateCommands Nat.sub].
      split; [reflexivity|]. split; [reflexivity|]. split; [lia|].
      split; [intros; lia|]. split; [intros _; exact P0 | discriminate]. }
  cbn [String.eqb] in P0.
  cbn [String.length Z.of_nat Z.gtb Z.compare].
  rewrite Run_eq. cbn [trace with_trace].
  assert (P1 : baseStepPasses env (trace w) baseBranch remote 1
               = match err (git env (List.app (trace w)
                                       [["git"; "rev-list"; baseBranch;
                                         "^" ++ remote ++ "/" ++ baseBranch]])
                                ["git"; "checkout"; baseBranch]) with
                 | Some _ => false | None => true end) by reflexivity.
  destruct (err (git env (List.app (trace w) [_]) ["git"; "checkout"; baseBranch]))
    as [e1|] eqn:E1.
  { unfold ret. eexists _, _, 2. split; [reflexivity|].
    cbn [heap trace with_trace firstn baseUpdateCommands Nat.sub].
    rewrite <- app_assoc. split; [reflexivity|]. split; [reflexivity|]. split; [lia|].
    split; [intros [|k] Hk; [exact P0 | lia]|].
    split; [intros _; exact P1 | discriminate]. }
  rewrite Run_eq. cbn [trace with_trace]. rewrite <- !app_assoc. cbn [app].
  assert (P2 : baseStepPasses env (trace w) baseBranch remote 2
               = match err (git env (List.app (trace w)
                                       [["git"; "rev-list"; baseBranch;
                                         "^" ++ remote ++ "/" ++ baseBranch];
                                        ["git"; "checkout"; baseBranch]])
                                ["git"; "reset"; "--hard"; remote ++ "/" ++ baseBranch]) with
                 | Some _ => false | None => true end) by reflexivity.
  destruct (err (git env (List.app (trace w) [_; _]) ["git"; "reset"; _; _]))
    as [e2|] eqn:E2.
  { unfold ret. eexists _, _, 3. split; [reflexivity|].
    cbn [heap trace with_trace firstn baseUpdateCommands Nat.sub].
    split; [reflexivity|]. split; [reflexivity|]. split; [lia|].
    split; [intros [|[|k]] Hk; [exact P0 | exact P1 | lia]|].
    split; [intros _; exact P2 | discriminate]. }
  rewrite Run_eq. cbn [trace with_trace]. rewrite <- !app_assoc. cbn [app].
  assert (P3 : baseStepPasses env (trace w) baseBranch remote 3
               = match err (git env (List.app (trace w)
                                       [["git"; "rev-list"; baseBranch;
                                         "^" ++ remote ++ "/" ++ baseBranch];
                                        ["git"; "checkout"; baseBranch];
                                        ["git"; "reset"; "--hard";
                                         remote ++ "/" ++ baseBranch]])
                                ["git"; "push"; "origin"; baseBranch;
                                 "--force-with-lease"]) with
                 | Some _ => false | None => true end) by reflexivity.
  destruct (err (git env (List.app (trace w) [_; _; _]) ["git"; "push"; _; _; _]))
    as [e3|] eqn:E3;
    unfold ret; eexists _, _, 4; (split; [reflexivity|]);
    cbn [heap trace with_trace firstn baseUpdateCommands Nat.sub];
    (split; [reflexivity|]); (split; [reflexivity|]); (split; [lia|]);
    (split; [intros [|[|[|k]]] Hk; [exact P0 | exact P1 | exact P2 | lia]|]).
  - split; [intros _; exact P3 | discriminate].
  - split; [intros H; now contradiction H | intros _; split; [reflexivity | exact P3]].
Qed.

(** X8: past position 0, the command of an update checks the branch
    out, rebases it and pushes it, and stops at the first step that
    fails: the rebase is run exactly when the checkout went through, the
    push exactly when checkout and rebase did, and the branch is
    reported as updated exactly when all three did.  A failed rebase is
    followed by the abort and reported as "rebase conflict", a failed
    push as "push failed". *)
Theorem X8_push_only_after_rebase
        (env : Env) (m : Model.t) (w : World) (cfg : Config) (target : loc) :
  Model.config m = Some cfg ->
  (0 < Model.updateIndex m)%Z ->
  findTarget (heap w) (Model.branches m) 0 (Model.updateIndex m) = Some target ->
  exists s e w' ext,
    updateNextBranch env m w = Ok (branchUpdatedMsg (Name (heap w target)) s e) w'
    /\ heap w' = heap w
    /\ trace w' = List.app (trace w) (["git"; "checkout"; Name (heap w target)] :: ext)
    /\ (In ["git"; "rebase"; BaseBranch cfg] ext <->
        succeeds env (trace w) ["git"; "checkout"; Name (heap w target)])
    /\ (In ["git"; "push"; "origin"; Name (heap w target); "--force-with-lease"] ext <->
        succeeds env (trace w) ["git"; "checkout"; Name (heap w target)]
        /\ succeeds env (List.app (trace w) [["git"; "checkout"; Name (heap w target)]])
                    ["git"; "rebase"; BaseBranch cfg])
    /\ (s = true <->
        succeeds env (trace w) ["git"; "checkout"; Name (heap w target)]
        /\ succeeds env (List.app (trace w) [["git"; "checkout"; Name (heap w target)]])
                    ["git"; "rebase"; BaseBranch cfg]
        /\ succeeds env (List.app (trace w)
                           [["git"; "checkout"; Name (heap w target)];
                            ["git"; "rebase"; BaseBranch cfg]])
                    ["git"; "push"; "origin"; Name (heap w target);
                     "--force-with-lease"])
    /\ (s = true ->
        ext = [["git"; "rebase"; BaseBranch cfg];
               ["git"; "push"; "origin"; Name (heap w target); "--force-with-lease"]])
    /\ (~ succeeds env (trace w) ["git"; "checkout"; Name (heap w target)] ->
        ext = [])
    /\ (succeeds env (trace w) ["git"; "checkout"; Name (heap w target)] ->
        ~ succeeds env (List.app (trace w) [["git"; "checkout"; Name (heap w target)]])
                   ["git"; "rebase"; BaseBranch cfg] ->
        ext = [["git"; "rebase"; BaseBranch cfg]; ["git"; "rebase"; "--abort"]]
        /\ e = "rebase conflict")
    /\ (In ["git"; "push"; "origin"; Name (heap w target); "--force-with-lease"] ext ->
        s = false -> e = "push failed").
Proof.
  intros Hc Hk Ht. unfold succeeds.
  unfold updateNextBranch, bind, gets. rewrite Ht.
  destruct (Z.eqb_spec (Model.updateIndex m) 0) as [E|_]; [lia|].
  unfold ret at 1. rewrite Hc. cbn [derefConfig]. unfold ret at 1.
  unfold RebaseBranch, PushBranch, bind. rewrite Run_eq. cbn [trace with_trace].
  destruct (err (git env (trace w) ["git"; "checkout"; _])) as [ec|] eqn:Ec.
  { unfold ret. eexists _, _, _, []. split; [reflexivity|].
    cbn [heap trace with_trace]. split; [reflexivity|]. split; [reflexivity|].
    split; [split; [intros [] | discriminate]|].
    split; [split; [intros [] | intros [H _]; discriminate H]|].
    split; [split; [discriminate | intros [H _]; discriminate H]|].
    split; [discriminate|]. split; [reflexivity|].
    split; [intros H; discriminate H | intros []]. }
  rewrite Run_eq. cbn [trace with_trace].
  destruct (err (git env (List.app (trace w) _) ["git"; "rebase"; BaseBranch cfg]))
    as [er|] eqn:Er.
  { rewrite Run_eq. unfold ret. cbn [trace with_trace].
    eexists _, _, _, [_; _]. split; [reflexivity|].
    cbn [heap trace with_trace]. split; [reflexivity|].
    split; [rewrite <- !app_assoc; reflexivity|].
    split; [split; [reflexivity | intros _; now left]|].
    split; [split; [intros [H|[H|[]]]; discriminate H | intros [_ H]; discriminate H]|].
    split; [split; [discriminate | intros (_ & H & _); discriminate H]|].
    split; [discriminate|]. split; [intros H; now contradiction H|].
    split; [intros _ _; split; reflexivity|].
    intros [H|[H|[]]]; discriminate H. }
  unfold ret at 1. cbv beta iota. rewrite Run_eq. cbn [trace with_trace].
  rewrite <- !app_assoc. cbn [app].
  destruct (err (git env _ ["git"; "push"; _; _; _])) as [ep|] eqn:Ep;
    unfold ret; eexists _, _, _, [_; _]; (split; [reflexivity|]);
    cbn [heap trace with_trace]; (split; [reflexivity|]);
    (split; [reflexivity|]);
    (split; [split; [reflexivity | intros _; now left]|]);
    (split; [split; [intros _; now split | intros _; right; now left]|]).
  - split; [split; [discriminate | intros (_ & _ & H); discriminate H]|].
    split; [discriminate|]. split; [intros H; now contradiction H|].
    split; [intros _ H; now contradiction H | reflexivity].
  - split; [split; [now intros _ | reflexivity]|].
    split; [reflexivity|]. split; [intros H; now contradiction H|].
    split; [intros _ H; now contradiction H | discriminate].
Qed.

(** X9: whatever git answers, [GetBranchInfo] runs its three queries
    and returns a fresh branch of the given name that is not selected;
    its status is "behind" exactly when its behind count is positive and
    "ok" otherwise; when the count query fails both counts are 0. *)
Theorem X9_GetBranchInfo_status_follows_behind
        (env : Env) (branchName baseBranch : string) (w : World) :
  exists l w',
    GetBranchInfo env branchName baseBranch w = Ok (l, None) w'
    /\ trace w'
       = List.app (trace w)
           [["git"; "config"; "branch." ++ branchName ++ ".description"];
            ["git"; "log"; "-1"; "--format=%ar"; branchName];
            ["git"; "rev-list"; "--left-right"; "--count";
             baseBranch ++ "..." ++ branchName]]
    /\ Name (heap w' l) = branchName
    /\ Selected (heap w' l) = false
    /\ Status (heap w' l)
       = (if (Behind (heap w' l) >? 0)%Z then "behind" else "ok")
    /\ (err (git env
                 (List.app (trace w)
                    [["git"; "config"; "branch." ++ branchName ++ ".description"];
                     ["git"; "log"; "-1"; "--format=%ar"; branchName]])
                 ["git"; "rev-list"; "--left-right"; "--count";
                  baseBranch ++ "..." ++ branchName]) <> None ->
        Behind (heap w' l) = 0%Z /\ Ahead (heap w' l) = 0%Z).
Proof.
  unfold GetBranchInfo, GetBranchTag, bind, alloc, modify, load, Output, ret.
  cbn [trace heap next with_trace with_heap out err].
  destruct (err (git env (trace w) _)); cbv beta iota;
    cbn [trace heap next with_trace with_heap];
    (destruct (err (git env (List.app (trace w) [_]) _)); cbv beta iota;
     cbn [trace heap next with_trace with_heap];
     rewrite <- ?app_assoc; cbn [app];
     (destruct (err (git env (List.app (trace w) [_; _]) _)) eqn:Ec; cbv beta iota;
      cbn [trace heap next with_trace with_heap];
      [| destruct (strings.Fields _) as [|p0 [|p1 [|p2 ps]]]; cbv beta iota;
         cbn [trace heap next with_trace with_heap];
         try (rewrite ?upd_same; cbn [Behind with_Behind with_Ahead with_Description
                                       with_LastCommit];
              destruct (fmt.Sscanf_d p0 0 >? 0)%Z eqn:Eb; cbv beta iota;
              cbn [trace heap next with_trace with_heap]) ];
      eexists _, _; (split; [reflexivity|]);
      cbn [trace heap next with_trace with_heap];
      rewrite <- ?app_assoc; cbn [app];
      (split; [reflexivity|]);
      rewrite ?upd_same; cbn;
      rewrite ?Eb;
      repeat split; try reflexivity; try congruence)).
Qed.

Lemma Contains_empty (s : string) : strings.Contains s "" = true.
Proof. destruct s; reflexivity. Qed.

Lemma filter_none {A} (f : A -> bool) (l : list A) :
  (forall x, In x l -> f x = false) -> filter f l = [].
Proof.
  induction l as [|x l IH]; intros H; [reflexivity|]. cbn [filter].
  rewrite (H x) by now left. apply IH. intros y Hy. apply H. now right.
Qed.

(** X10: an empty exclude pattern excludes every branch: with [""]
    among the patterns the collector returns no branch at all. *)
Theorem X10_empty_pattern_excludes_everything
        (env : Env) (baseBranch : string) (excludePatterns : list string) (w : World) :
  In "" excludePatterns ->
  exists e w', GetBranchesWithInfo env baseBranch excludePatterns w = Ok ([], e) w'.
Proof.
  intros Hin.
  destruct (GetBranchesWithInfo_names env baseBranch excludePatterns w)
    as (branches & e & w' & E & H).
  exists e, w'. rewrite E. f_equal. f_equal.
  destruct (err _) as [msg|].
  - now destruct H.
  - destruct H as [_ Hm].
    assert (F : filter (kept baseBranch excludePatterns)
                  (strings.SplitLines
                     (strings.TrimSpace
                        (out (git env (trace w)
                                  ["git"; "branch"; "--format=%(refname:short)"]))))
                = []).
    { apply filter_none. intros name _. unfold kept.
      assert (X : existsb (fun p => strings.Contains name p) excludePatterns = true).
      { apply existsb_exists. exists "". split; [exact Hin | apply Contains_empty]. }
      rewrite X. now rewrite andb_false_r. }
    rewrite F in Hm. now destruct branches.
Qed.

Lemma Contains_in_empty (p : string) : strings.Contains "" p = true -> p = "".
Proof. destruct p; [reflexivity | discriminate]. Qed.

(** X11: a blank listing is not an empty one.  When [git branch] prints
    nothing, [GetAllBranches] returns one empty name, and the collector
    returns one branch with the empty name, unless the base branch is
    the empty name or a pattern is empty. *)
Theorem X11_blank_listing_gives_nameless_branch
        (env : Env) (baseBranch : string) (excludePatterns : list string)
        (w : World) (output : string) :
  git env (trace w) ["git"; "branch"; "--format=%(refname:short)"]
  = mkResult output None ->
  strings.TrimSpace output = "" ->
  baseBranch <> "" ->
  ~ In "" excludePatterns ->
  GetAllBranches env w
  = Ok ([""], None)
       (with_trace (List.app (trace w) [["git"; "branch"; "--format=%(refname:short)"]]) w)
  /\ exists l w',
      GetBranchesWithInfo env baseBranch excludePatterns w = Ok ([l], None) w'
      /\ Name (heap w' l) = "".
Proof.
  intros Hg Hb Hbase Hpat. split.
  - unfold GetAllBranches, bind. rewrite Output_eq, Hg. cbn [out err].
    now rewrite Hb.
  - destruct (GetBranchesWithInfo_names env baseBranch excludePatterns w)
      as (branches & e & w' & E & H).
    rewrite Hg in H. cbn [out err] in H. rewrite Hb in H. destruct H as [-> Hm].
    assert (K : kept baseBranch excludePatterns "" = true).
    { apply kept_true. split; [congruence|]. intros p Hp.
      destruct (strings.Contains "" p) eqn:C; [|reflexivity].
      apply Contains_in_empty in C. now subst. }
    cbn [strings.SplitLines filter] in Hm. rewrite K in Hm.
    destruct branches as [|l [|l' bs]]; try discriminate Hm.
    exists l, w'. split; [exact E|]. now inversion Hm.
Qed.

(** ** Detection and configuration *)

Lemma existsb_eqb_In (x : string) (l : list string) :
  existsb (fun y => String.eqb y x) l = true <-> In x l.
Proof.
  rewrite existsb_exists. split.
  - intros (y & Hy & E). apply String.eqb_eq in E. now subst.
  - intros H. exists x. split; [exact H | apply String.eqb_refl].
Qed.

Lemma existsb_eqb_notIn (x : string) (l : list string) :
  existsb (fun y => String.eqb y x) l = false <-> ~ In x l.
Proof.
  rewrite <- existsb_eqb_In. destruct (existsb _ l); split; congruence.
Qed.

Lemma DetectUpstreamRemote_eq env w :
  DetectUpstreamRemote env w
  = Ok (match err (git env (trace w) ["git"; "remote"]) with
        | Some msg => ("", Some msg)
        | None =>
            let remotes :=
              strings.SplitLines
                (strings.TrimSpace (out (git env (trace w) ["git"; "remote"]))) in
            if existsb (fun remote => String.eqb remote "upstream") remotes
            then ("upstream", None)
            else if existsb (fun remote => String.eqb remote "origin") remotes
                 then ("origin", None)
                 else ("", Some "no remotes found")
        end)
       (with_trace (List.app (trace w) [["git"; "remote"]]) w).
Proof.
  unfold DetectUpstreamRemote, GetRemotes, bind. rewrite Output_eq.
  destruct (err _); unfold ret; cbv beta iota zeta; [reflexivity|].
  now repeat destruct (existsb _ _).
Qed.

(** X12: of the remotes that [git remote] lists, [upstream] is taken
    when it is there, else [origin]; with neither the detection fails
    with "no remotes found".  Only [git remote] is run. *)
Theorem X12_upstream_before_origin (env : Env) (w : World) (output : string) :
  git env (trace w) ["git"; "remote"] = mkResult output None ->
  exists r,
    DetectUpstreamRemote env w
    = Ok r (with_trace (List.app (trace w) [["git"; "remote"]]) w)
    /\ (In "upstream" (strings.SplitLines (strings.TrimSpace output)) ->
        r = ("upstream", None))
    /\ (~ In "upstream" (strings.SplitLines (strings.TrimSpace output)) ->
        In "origin" (strings.SplitLines (strings.TrimSpace output)) ->
        r = ("origin", None))
    /\ (~ In "upstream" (strings.SplitLines (strings.TrimSpace output)) ->
        ~ In "origin" (strings.SplitLines (strings.TrimSpace output)) ->
        r = ("", Some "no remotes found")).
Proof.
  intros Hg. eexists. split; [apply DetectUpstreamRemote_eq|].
  rewrite Hg. cbn [out err]. cbv zeta.
  destruct (existsb (fun remote => String.eqb remote "upstream")
                    (strings.SplitLines (strings.TrimSpace output))) eqn:U;
    [apply existsb_eqb_In in U | apply existsb_eqb_notIn in U];
    (destruct (existsb (fun remote => String.eqb remote "origin")
                       (strings.SplitLines (strings.TrimSpace output))) eqn:O;
     [apply existsb_eqb_In in O | apply existsb_eqb_notIn in O]);
    repeat split; intros; try reflexivity; contradiction.
Qed.

Lemma SplitLines_nonempty (s : string) : strings.SplitLines s <> [].
Proof.
  destruct s as [|c s]; [discriminate|]. cbn [strings.SplitLines].
  destruct (Ascii.eqb c "010"); [discriminate|].
  destruct (strings.SplitLines s); discriminate.
Qed.

(** X13: when the remote cannot be asked for its HEAD ([git remote
    show] fails), the base branch is the first of main, master,
    dev-integration, develop that is among the local branches, and else
    the first local branch listed.  The listing is never empty, so the
    error "no branches found" is never returned; a blank listing gives
    the empty name. *)
Theorem X13_base_branch_fallback_order
        (env : Env) (w w1 : World) (upstream e output : string) :
  DetectUpstreamRemote env w = Ok (upstream, None) w1 ->
  err (git env (trace w1) ["git"; "remote"; "show"; upstream]) = Some e ->
  git env (List.app (trace w1) [["git"; "remote"; "show"; upstream]])
      ["git"; "branch"; "--format=%(refname:short)"]
  = mkResult output None ->
  exists b w',
    DetectBaseBranch env w = Ok (b, None) w'
    /\ (In "main" (strings.SplitLines (strings.TrimSpace output)) -> b = "main")
    /\ (~ In "main" (strings.SplitLines (strings.TrimSpace output)) ->
        In "master" (strings.SplitLines (strings.TrimSpace output)) -> b = "master")
    /\ (~ In "main" (strings.SplitLines (strings.TrimSpace output)) ->
        ~ In "master" (strings.SplitLines (strings.TrimSpace output)) ->
        In "dev-integration" (strings.SplitLines (strings.TrimSpace output)) ->
        b = "dev-integration")
    /\ (~ In "main" (strings.SplitLines (strings.TrimSpace output)) ->
        ~ In "master" (strings.SplitLines (strings.TrimSpace output)) ->
        ~ In "dev-integration" (strings.SplitLines (strings.TrimSpace output)) ->
        In "develop" (strings.SplitLines (strings.TrimSpace output)) ->
        b = "develop")
    /\ (~ In "main" (strings.SplitLines (strings.TrimSpace output)) ->
        ~ In "master" (strings.SplitLines (strings.TrimSpace output)) ->
        ~ In "dev-integration" (strings.SplitLines (strings.TrimSpace output)) ->
        ~ In "develop" (strings.SplitLines (strings.TrimSpace output)) ->
        b = hd "" (strings.SplitLines (strings.TrimSpace output)))
    /\ (strings.TrimSpace output = "" -> b = "").
Proof.
  intros Hu Hs Hl.
  unfold DetectBaseBranch. unfold bind at 1. rewrite Hu. cbv beta iota.
  unfold bind at 1. unfold bind at 1. rewrite Output_eq, Hs. cbv beta iota.
  unfold ret at 1. cbv beta iota.
  unfold GetAllBranches, bind. rewrite Output_eq. cbn [trace with_trace].
  rewrite Hl. cbn [out err]. unfold ret at 1.
  set (names := strings.SplitLines (strings.TrimSpace output)).
  assert (Hne : names <> []) by apply SplitLines_nonempty.
  unfold candidates. cbn [firstCandidate].
  destruct (existsb (fun branch => String.eqb branch "main") names) eqn:A;
    [apply existsb_eqb_In in A | apply existsb_eqb_notIn in A].
  { unfold ret. eexists _, _. split; [reflexivity|].
    repeat split; intros; try reflexivity; try contradiction.
    subst names. rewrite H in A. destruct A as [A|[]]. discriminate A. }
  destruct (existsb (fun branch => String.eqb branch "master") names) eqn:B;
    [apply existsb_eqb_In in B | apply existsb_eqb_notIn in B].
  { unfold ret. eexists _, _. split; [reflexivity|].
    repeat split; intros; try reflexivity; try contradiction.
    subst names. rewrite H in B. destruct B as [B|[]]. discriminate B. }
  destruct (existsb (fun branch => String.eqb branch "dev-integration") names) eqn:C;
    [apply existsb_eqb_In in C | apply existsb_eqb_notIn in C].
  { unfold ret. eexists _, _. split; [reflexivity|].
    repeat split; intros; try reflexivity; try contradiction.
    subst names. rewrite H in C. destruct C as [C|[]]. discriminate C. }
  destruct (existsb (fun branch => String.eqb branch "develop") names) eqn:D;
    [apply existsb_eqb_In in D | apply existsb_eqb_notIn in D].
  { unfold ret. eexists _, _. split; [reflexivity|].
    repeat split; intros; try reflexivity; try contradiction.
    subst names. rewrite H in D. destruct D as [D|[]]. discriminate D. }
  destruct names as [|b0 rest] eqn:En; [congruence|].
  unfold ret. eexists _, _. split; [reflexivity|].
  repeat split; intros; try reflexivity; try contradiction.
  subst names. rewrite H in En. cbn in En. now inversion En.
Qed.

Lemma SplitN2_head (rest : string) :
  SplitN2 ("HEAD branch:" ++ rest) = ["HEAD branch"; rest].
Proof. reflexivity. Qed.

Lemma scanHead_skips env pre :
  forall rest w,
    Forall (fun l => strings.HasPrefix (strings.TrimSpace l) "HEAD branch:" = false) pre ->
    scanHead env (List.app pre rest) w = scanHead env rest w.
Proof.
  induction pre as [|l pre IH]; intros rest w H; [reflexivity|].
  inversion H as [|? ? Hl Hp]; subst. cbn [app scanHead]. rewrite Hl. now apply IH.
Qed.

(** X14: when [git remote show] names the HEAD branch of the remote,
    that name is the base branch, whether or not a local branch of that
    name exists and whatever the listing of the local branches
    answers. *)
Theorem X14_remote_head_decides_base_branch
        (env : Env) (w w1 : World) (upstream output : string)
        (pre post : list string) (line rest : string) :
  DetectUpstreamRemote env w = Ok (upstream, None) w1 ->
  git env (trace w1) ["git"; "remote"; "show"; upstream] = mkResult output None ->
  strings.SplitLines output = List.app pre (line :: post) ->
  Forall (fun l => strings.HasPrefix (strings.TrimSpace l) "HEAD branch:" = false) pre ->
  strings.TrimSpace line = "HEAD branch:" ++ rest ->
  exists w',
    DetectBaseBranch env w = Ok (strings.TrimSpace rest, None) w'
    /\ trace w'
       = List.app (trace w1)
           [["git"; "remote"; "show"; upstream];
            ["git"; "branch"; "--format=%(refname:short)"]].
Proof.
  intros Hu Hs Hsplit Hpre Hline.
  unfold DetectBaseBranch. unfold bind at 1. rewrite Hu. cbv beta iota.
  unfold bind at 1. unfold bind at 1. rewrite Output_eq, Hs. cbn [out err].
  rewrite Hsplit, scanHead_skips by exact Hpre.
  cbn [scanHead]. rewrite Hline.
  unfold strings.HasPrefix. rewrite prefix_app, SplitN2_head.
  cbv beta iota. unfold bind at 1.
  unfold GetAllBranches, bind at 1. rewrite Output_eq. cbn [trace with_trace].
  case_err; unfold ret; eexists; (split; [reflexivity|]); cbn [trace with_trace];
    now rewrite <- app_assoc.
Qed.

(** X15: what the file sets is never detected again: with a base branch
    and an upstream remote from the file, [LoadConfig] returns the
    file's configuration and runs no process. *)
Theorem X15_file_values_win
        (env : Env) (file : option (Config -> Config)) (w : World) :
  BaseBranch (configured file) <> "" ->
  UpstreamRemote (configured file) <> "" ->
  LoadConfig env file w = Ok (Some (configured file), None) w.
Proof.
  intros Hb Hu. unfold LoadConfig. fold (configured file).
  apply String.eqb_neq in Hb, Hu. cbv zeta. rewrite Hb. unfold bind, ret.
  now rewrite Hu.
Qed.

(** X16: the only failure of [LoadConfig] is the upstream remote: when
    the file sets none (or there is no file) and [git remote] lists
    neither upstream nor origin, it returns the error "no remotes
    found" and no configuration, whether the base branch was set by
    the file or had to be detected first. *)
Theorem X16_no_remote_is_fatal
        (env : Env) (file : option (Config -> Config)) (w : World) (output : string) :
  UpstreamRemote (configured file) = "" ->
  (forall ext, git env (List.app (trace w) ext) ["git"; "remote"]
               = mkResult output None) ->
  ~ In "upstream" (strings.SplitLines (strings.TrimSpace output)) ->
  ~ In "origin" (strings.SplitLines (strings.TrimSpace output)) ->
  exists w',
    LoadConfig env file w = Ok (None, Some "no remotes found") w'
    /\ heap w' = heap w
    /\ trace w'
       = List.app (trace w)
           (List.app
              (if String.eqb (BaseBranch (configured file)) ""
               then [["git"; "remote"];
                     ["git"; "branch"; "--format=%(refname:short)"]]
               else [])
              [["git"; "remote"]]).
Proof.
  intros Hu Hg Hup Hor.
  apply existsb_eqb_notIn in Hup, Hor.
  assert (D : forall w0 ext, trace w0 = List.app (trace w) ext ->
              DetectUpstreamRemote env w0
              = Ok ("", Some "no remotes found")
                   (with_trace (List.app (trace w0) [["git"; "remote"]]) w0)).
  { intros w0 ext Et. rewrite DetectUpstreamRemote_eq, Et, Hg. cbn [out err]. cbv zeta.
    now rewrite Hup, Hor. }
  assert (B : exists r w1,
             DetectBaseBranch env w = Ok r w1
             /\ heap w1 = heap w
             /\ trace w1
                = List.app (trace w)
                    [["git"; "remote"];
                     ["git"; "branch"; "--format=%(refname:short)"]]).
  { unfold DetectBaseBranch. unfold bind at 1.
    rewrite (D w []) by (now rewrite app_nil_r). cbv beta iota.
    unfold bind at 1. unfold ret at 1. cbv beta iota.
    unfold GetAllBranches, bind at 1. unfold bind at 1. rewrite Output_eq.
    cbn [trace with_trace]. rewrite <- app_assoc. cbn [app].
    case_err; cbv beta iota.
    - unfold ret. eexists _, _. split; [reflexivity|]. split; reflexivity.
    - unfold ret at 1. cbv beta iota.
      destruct (firstCandidate _ _) as [cand|]; cbv beta iota;
        [|destruct (strings.SplitLines (strings.TrimSpace (out _))) as [|b bs];
         cbv beta iota];
        unfold ret; eexists _, _; (split; [reflexivity|]); split; reflexivity. }
  assert (C : exists c w1,
             (if String.eqb (BaseBranch (configured file)) ""
              then
                '(branch, e) <- DetectBaseBranch env ;;
                match e with
                | None => ret (with_BaseBranch branch (configured file))
                | Some _ => ret (configured file)
                end
              else ret (configured file)) w = Ok c w1
             /\ UpstreamRemote c = ""
             /\ heap w1 = heap w
             /\ trace w1
                = List.app (trace w)
                    (if String.eqb (BaseBranch (configured file)) ""
                     then [["git"; "remote"];
                           ["git"; "branch"; "--format=%(refname:short)"]]
                     else [])).
  { destruct (String.eqb (BaseBranch (configured file)) "").
    - destruct B as ([branch [msg|]] & w1 & E & Hh & Ht); unfold bind; rewrite E;
        unfold ret; eexists _, _; (split; [reflexivity|]);
        (split; [exact Hu|]); split; assumption.
    - unfold ret. eexists _, _. split; [reflexivity|]. split; [exact Hu|].
      split; [reflexivity | now rewrite app_nil_r]. }
  destruct C as (c & w1 & E & Hc & Hh & Ht).
  unfold LoadConfig. fold (configured file). cbv zeta.
  unfold bind at 1. rewrite E, Hc. cbn [String.eqb]. unfold bind.
  rewrite (D w1 _ Ht). eexists. split; [reflexivity|].
  cbn [heap trace with_trace]. split; [exact Hh|]. rewrite Ht, <- app_assoc.
  reflexivity.
Qed.

(** X17: a base branch that cannot be detected is no error.  When the
    file sets the upstream remote but no base branch, and neither the
    remotes nor the local branches can be listed, [LoadConfig] returns
    the configuration with an empty base branch and a nil error. *)
Theorem X17_undetected_base_is_silent
        (env : Env) (file : option (Config -> Config)) (w : World) (e1 e2 : string) :
  BaseBranch (configured file) = "" ->
  UpstreamRemote (configured file) <> "" ->
  err (git env (trace w) ["git"; "remote"]) = Some e1 ->
  err (git env (List.app (trace w) [["git"; "remote"]])
           ["git"; "branch"; "--format=%(refname:short)"]) = Some e2 ->
  exists c w',
    LoadConfig env file w = Ok (Some c, None) w'
    /\ BaseBranch c = "".
Proof.
  intros Hb Hu H1 H2. unfold LoadConfig. fold (configured file).
  apply String.eqb_neq in Hu. cbv zeta. rewrite Hb. cbn [String.eqb].
  unfold bind at 1. unfold bind at 1. unfold DetectBaseBranch. unfold bind at 1.
  rewrite DetectUpstreamRemote_eq, H1. cbv beta iota.
  unfold bind at 1. unfold ret at 1. cbv beta iota.
  unfold GetAllBranches, bind at 1. unfold bind at 1.
  rewrite Output_eq. cbn [trace with_trace]. rewrite H2. cbv beta iota.
  unfold ret at 1. cbv beta iota. unfold ret at 1. cbv beta iota.
  unfold ret at 1. rewrite Hu. unfold ret. exists (configured file). eexists.
  split; [reflexivity | exact Hb].
Qed.

(** ** Browsing *)

Lemma len_filter_le {A} (f : A -> bool) (l : list A) : (len (filter f l) <= len l)%Z.
Proof. unfold len. pose proof (filter_length_le f l). lia. Qed.

Lemma len_filterBranches_le env h m : (len (filterBranches env h m) <= len (Model.branches m))%Z.
Proof.
  unfold filterBranches. destruct (String.eqb _ _); [lia | apply len_filter_le].
Qed.

(** The filtered view reads names and descriptions only. *)
Lemma filterBranches_ext env h h' m :
  (forall l, Name (h' l) = Name (h l) /\ Description (h' l) = Description (h l)) ->
  filterBranches env h' m = filterBranches env h m.
Proof.
  intros H. unfold filterBranches. destruct (String.eqb _ _); [reflexivity|].
  apply filter_ext. intros l. unfold matchesQuery. destruct (H l) as [-> ->].
  reflexivity.
Qed.

Section Browsing.

Variable env : Env.

Lemma handleBrowsingKeys_up m key :
  Model.searchMode m = false ->
  keyIs key ["up"; "k"] = true ->
  handleBrowsingKeys env m key
  = (filtered <- getFilteredBranches env m ;;
     let m := if (Model.cursor m >? 0)%Z
              then Model.set_cursor (Model.cursor m - 1)%Z m else m in
     let m := if ((Model.cursor m >=? len filtered) && (len filtered >? 0))%Z
              then Model.set_cursor (len filtered - 1)%Z m else m in
     ret (m, CmdNil)).
Proof.
  intros Hs Hk. unfold handleBrowsingKeys. rewrite Hs, Hk.
  assert (Hq : keyIs key ["ctrl+c"; "q"] = false).
  { unfold keyIs in *. cbn [existsb] in *. rewrite !orb_true_iff in Hk.
    destruct Hk as [H|[H|H]]; try discriminate H;
      apply String.eqb_eq in H; subst; reflexivity. }
  now rewrite Hq.
Qed.

Lemma handleBrowsingKeys_down m key :
  Model.searchMode m = false ->
  keyIs key ["down"; "j"] = true ->
  handleBrowsingKeys env m key
  = (filtered <- getFilteredBranches env m ;;
     let m := if (Model.cursor m <? len filtered - 1)%Z
              then Model.set_cursor (int_incr (Model.cursor m)) m else m in
     ret (m, CmdNil)).
Proof.
  intros Hs Hk. unfold handleBrowsingKeys. rewrite Hs, Hk.
  assert (Hq : keyIs key ["ctrl+c"; "q"] = false /\ keyIs key ["up"; "k"] = false).
  { unfold keyIs in *. cbn [existsb] in *. rewrite !orb_true_iff in Hk.
    destruct Hk as [H|[H|H]]; try discriminate H;
      apply String.eqb_eq in H; subst; split; reflexivity. }
  destruct Hq as [-> ->]. reflexivity.
Qed.

End Browsing.

(** X18: moving the cursor keeps it inside the filtered view.  Up and
    down change nothing but the cursor and start no process; a cursor
    that is not negative stays so; a cursor inside the view moves by at
    most one line and stays inside; and up brings a cursor that was
    left beyond the end of a non-empty view back to its last line. *)
Theorem X18_cursor_stays_in_view
        (env : Env) (m : Model.t) (w : World) (key : string) :
  Model.state m = stateBrowsing ->
  Model.searchMode m = false ->
  keyIs key ["up"; "k"; "down"; "j"] = true ->
  (0 <= Model.cursor m)%Z ->
  (len (Model.branches m) <= int_max)%Z ->
  exists c,
    Update env m (KeyMsg key) w = Ok (Model.set_cursor c m, CmdNil) w
    /\ (0 <= c)%Z
    /\ (c <= Model.cursor m + 1)%Z
    /\ ((Model.cursor m < len (filterBranches env (heap w) m))%Z ->
        (Model.cursor m - 1 <= c < len (filterBranches env (heap w) m))%Z)
    /\ (keyIs key ["up"; "k"] = true ->
        (0 < len (filterBranches env (heap w) m))%Z ->
        (len (filterBranches env (heap w) m) <= Model.cursor m)%Z ->
        c = (len (filterBranches env (heap w) m) - 1)%Z).
Proof.
  intros Hst Hs Hk H0 Hn.
  pose proof (len_filterBranches_le env (heap w) m) as Hle.
  assert (Hsame : forall c, c = Model.cursor m -> Model.set_cursor c m = m)
    by (intros c ->; now destruct m).
  unfold Update, handleKeyPress. rewrite Hst.
  destruct (keyIs key ["up"; "k"]) eqn:Hup.
  - rewrite handleBrowsingKeys_up by assumption.
    unfold bind, getFilteredBranches, gets, ret. cbv zeta.
    set (n := len (filterBranches env (heap w) m)) in *.
    destruct (Z.gtb_spec (Model.cursor m) 0) as [Hp|Hp];
      cbn [Model.cursor Model.set_cursor];
      match goal with
      | |- context [((?a >=? n) && (n >? 0))%Z] =>
          destruct (Z.geb_spec a n); destruct (Z.gtb_spec n 0); cbn [andb]
      end;
      eexists; (split; [first [ reflexivity
                              | rewrite <- (Hsame (Model.cursor m) eq_refl) at 1;
                                reflexivity ] |]);
      repeat split; intros; lia.
  - assert (Hdn : keyIs key ["down"; "j"] = true).
    { unfold keyIs in *. cbn [existsb] in *.
      destruct (String.eqb key "up"), (String.eqb key "k"); cbn in *;
        try discriminate; exact Hk. }
    rewrite handleBrowsingKeys_down by assumption.
    unfold bind, getFilteredBranches, gets, ret. cbv zeta.
    set (n := len (filterBranches env (heap w) m)) in *.
    destruct (Z.ltb_spec (Model.cursor m) (n - 1)).
    + exists (int_incr (Model.cursor m)). split; [reflexivity|].
      rewrite int_incr_small by (unfold int_min; lia).
      repeat split; intros; try lia; discriminate.
    + exists (Model.cursor m). rewrite Hsame by reflexivity. split; [reflexivity|].
      repeat split; intros; try lia; discriminate.
Qed.

(** ** Selecting *)

(** Setting the selection of the listed branches touches their
    [Selected] field and nothing else; no process runs. *)
Lemma forEach_select v bs :
  forall w, exists w',
    forEach bs (fun b => modify b (with_Selected v)) w = Ok tt w'
    /\ trace w' = trace w
    /\ forall l, heap w' l = if in_dec Nat.eq_dec l bs
                             then with_Selected v (heap w l) else heap w l.
Proof.
  induction bs as [|b bs IH]; intros w.
  - exists w. cbn. auto.
  - cbn [forEach]. unfold bind. unfold modify at 1. cbv beta iota.
    destruct (IH (with_heap (upd (heap w) b (with_Selected v)) w))
      as (w' & E & Ht & Hh).
    rewrite E. exists w'. split; [reflexivity|]. split; [exact Ht|].
    intros l. rewrite Hh. cbn [heap with_heap].
    destruct (Nat.eq_dec b l) as [->|Hbl].
    + rewrite upd_same.
      destruct (in_dec Nat.eq_dec l bs), (in_dec Nat.eq_dec l (l :: bs)) as [|N];
        try reflexivity; elim N; now left.
    + rewrite upd_other by congruence.
      destruct (in_dec Nat.eq_dec l bs) as [I|I],
               (in_dec Nat.eq_dec l (b :: bs)) as [J|J]; try reflexivity.
      * elim J. now right.
      * destruct J as [J|J]; [congruence | contradiction].
Qed.

Lemma key_a_or_n key :
  keyIs key ["a"; "n"] = true ->
  keyIs key ["ctrl+c"; "q"] = false /\ keyIs key ["up"; "k"] = false
  /\ keyIs key ["down"; "j"] = false /\ keyIs key [" "] = false
  /\ (keyIs key ["a"] = true /\ key = "a"
      \/ keyIs key ["a"] = false /\ keyIs key ["n"] = true /\ key = "n").
Proof.
  unfold keyIs. cbn [existsb]. intros H. rewrite !orb_true_iff in H.
  destruct H as [H|[H|H]]; try discriminate H; apply String.eqb_eq in H; subst.
  - do 4 (split; [reflexivity|]). left. split; reflexivity.
  - do 4 (split; [reflexivity|]). right. repeat split; reflexivity.
Qed.

(** X19: select-all and select-none act on the filtered view only.  The
    key a selects, and the key n deselects, every branch the search
    shows; the branches it hides, and every other field, stay as they
    are; the model is unchanged and no process runs. *)
Theorem X19_select_all_none_on_view_only
        (env : Env) (m : Model.t) (w : World) (key : string) :
  Model.state m = stateBrowsing ->
  Model.searchMode m = false ->
  keyIs key ["a"; "n"] = true ->
  exists w',
    Update env m (KeyMsg key) w = Ok (m, CmdNil) w'
    /\ trace w' = trace w
    /\ (forall l, In l (filterBranches env (heap w) m) ->
                  heap w' l = with_Selected (String.eqb key "a") (heap w l))
    /\ (forall l, ~ In l (filterBranches env (heap w) m) -> heap w' l = heap w l).
Proof.
  intros Hst Hs Hk. unfold Update, handleKeyPress. rewrite Hst.
  unfold handleBrowsingKeys. rewrite Hs.
  destruct (key_a_or_n key Hk) as (-> & -> & -> & -> & [[-> ->] | (-> & -> & ->)]);
    unfold bind at 1, getFilteredBranches, gets at 1; unfold bind;
    match goal with
    | |- context [forEach ?bs (fun b => modify b (with_Selected ?v)) w] =>
        destruct (forEach_select v bs w) as (w' & E & Ht & Hh)
    end;
    rewrite E; unfold ret; exists w'; (split; [reflexivity|]);
    (split; [exact Ht|]); split; intros l Hl; rewrite Hh;
    match goal with
    | |- context [in_dec ?d ?x ?bs] => destruct (in_dec d x bs)
    end; try reflexivity; contradiction.
Qed.

Lemma key_space :
  keyIs " " ["ctrl+c"; "q"] = false /\ keyIs " " ["up"; "k"] = false
  /\ keyIs " " ["down"; "j"] = false /\ keyIs " " [" "] = true.
Proof. repeat split. Qed.

(** X20: the space key flips the selection of the branch under the
    cursor in the filtered view and touches no other branch; pressed
    twice, it leaves every branch as it was. *)
Theorem X20_toggle_twice_is_identity
        (env : Env) (m : Model.t) (w : World) (b : loc) :
  Model.state m = stateBrowsing ->
  Model.searchMode m = false ->
  index (filterBranches env (heap w) m) (Model.cursor m) = Some b ->
  exists w1 w2,
    Update env m (KeyMsg " ") w = Ok (m, CmdNil) w1
    /\ trace w1 = trace w
    /\ heap w1 b = with_Selected (negb (Selected (heap w b))) (heap w b)
    /\ (forall l, l <> b -> heap w1 l = heap w l)
    /\ Update env m (KeyMsg " ") w1 = Ok (m, CmdNil) w2
    /\ trace w2 = trace w
    /\ (forall l, heap w2 l = heap w l).
Proof.
  intros Hst Hs Hi.
  assert (Step : forall w0,
             filterBranches env (heap w0) m = filterBranches env (heap w) m ->
             Update env m (KeyMsg " ") w0
             = Ok (m, CmdNil)
                  (with_heap (upd (heap w0) b
                                  (fun x => with_Selected (negb (Selected x)) x)) w0)).
  { intros w0 Hf. unfold Update, handleKeyPress. rewrite Hst.
    unfold handleBrowsingKeys. rewrite Hs.
    destruct key_space as (-> & -> & -> & ->).
    unfold bind, getFilteredBranches, gets. rewrite Hf, (index_Some_lt _ _ _ Hi), Hi.
    reflexivity. }
  eexists _, _. split; [apply Step; reflexivity|].
  cbn [trace heap with_heap]. split; [reflexivity|].
  split; [now rewrite upd_same|]. split; [intros l Hl; now rewrite upd_other|].
  split.
  - apply Step. apply filterBranches_ext. intros l. cbn [heap with_heap].
    unfold upd. destruct (Nat.eqb l b); [now destruct (heap w l) | auto].
  - cbn [trace heap with_heap]. split; [reflexivity|]. intros l.
    unfold upd. destruct (Nat.eqb l b); [|reflexivity].
    destruct (heap w l) as [? ? ? ? ? sel ?]. cbn. now rewrite negb_involutive.
Qed.

(** ** Searching *)

Lemma lowerChar_idem (c : ascii) :
  strings.lowerChar (strings.lowerChar c) = strings.lowerChar c.
Proof. destruct c as [[] [] [] [] [] [] [] []]; reflexivity. Qed.

Lemma lowerChar_ascii (c : ascii) :
  (nat_of_ascii (strings.lowerChar c) <? 128)%nat = (nat_of_ascii c <? 128)%nat.
Proof. destruct c as [[] [] [] [] [] [] [] []]; reflexivity. Qed.

Lemma isASCII_lower (s : string) :
  strings.isASCII (strings.lowerASCII s) = strings.isASCII s.
Proof.
  induction s as [|c s IH]; [reflexivity|].
  cbn [strings.lowerASCII strings.isASCII]. now rewrite lowerChar_ascii, IH.
Qed.

Lemma lowerASCII_idem (s : string) :
  strings.lowerASCII (strings.lowerASCII s) = strings.lowerASCII s.
Proof.
  induction s as [|c s IH]; [reflexivity|]. cbn [strings.lowerASCII].
  now rewrite lowerChar_idem, IH.
Qed.

Lemma lowerASCII_empty (s : string) : strings.lowerASCII s = "" <-> s = "".
Proof. destruct s; cbn; split; congruence. Qed.

(** On ASCII strings lower-casing does not consult the case tables,
    and lower-casing twice is lower-casing once. *)
Lemma ToLower_ascii (f : string -> string) (s : string) :
  strings.isASCII s = true ->
  strings.ToLower f s = strings.lowerASCII s
  /\ strings.ToLower f (strings.ToLower f s) = strings.ToLower f s.
Proof.
  intros H. unfold strings.ToLower. rewrite H, isASCII_lower, H, lowerASCII_idem.
  now split.
Qed.

(** X21: the search does not tell the case of an ASCII query: a query
    of ASCII bytes and its lower-case form show the same branches,
    whatever the names and the descriptions of the branches are (they
    need not be ASCII). *)
Theorem X21_search_ignores_query_case
        (env : Env) (h : loc -> Branch) (m : Model.t) (query : string) :
  strings.isASCII query = true ->
  filterBranches env h (Model.set_searchQuery query m)
  = filterBranches env h
      (Model.set_searchQuery (strings.ToLower (mapLower env) query) m).
Proof.
  intros Ha. destruct (ToLower_ascii (mapLower env) query Ha) as [El Ei].
  unfold filterBranches. cbn [Model.searchQuery Model.set_searchQuery Model.branches].
  rewrite Ei.
  destruct (String.eqb_spec query "") as [->|Hq]; [reflexivity|].
  destruct (String.eqb_spec (strings.ToLower (mapLower env) query) "") as [E|_];
    [|reflexivity].
  rewrite El in E. apply (proj1 (lowerASCII_empty query)) in E. contradiction.
Qed.

Lemma length_append (s t : string) :
  String.length (s ++ t) = String.length s + String.length t.
Proof. induction s as [|c s IH]; cbn; [reflexivity | now rewrite IH]. Qed.

Lemma substring_prefix (s t : string) :
  String.substring 0 (String.length s) (s ++ t) = s.
Proof. induction s as [|c s IH]; cbn; [now destruct t | now rewrite IH]. Qed.

Lemma dropLast_append (s key : string) :
  String.length key = 1 -> dropLast (s ++ key) = s.
Proof.
  intros H. unfold dropLast.
  assert (L : String.length (s ++ key) = S (String.length s)).
  { rewrite length_append. lia. }
  rewrite L. cbn [Nat.sub]. rewrite Nat.sub_0_r. apply substring_prefix.
Qed.

Lemma one_char_key key :
  String.length key = 1 ->
  keyIs key ["enter"; "esc"] = false /\ keyIs key ["backspace"] = false
  /\ keyIs key ["ctrl+c"] = false.
Proof.
  intros H.
  assert (No : forall ks, Forall (fun k => String.length k <> 1) ks ->
                          keyIs key ks = false).
  { intros ks F. unfold keyIs. destruct (existsb _ ks) eqn:E; [|reflexivity].
    apply existsb_exists in E as (k & Hin & Ek). apply String.eqb_eq in Ek. subst k.
    rewrite Forall_forall in F. now elim (F _ Hin). }
  repeat split; apply No; repeat constructor; discriminate.
Qed.

(** X22: in search mode every one-character key, q included, is typed
    into the query and puts the cursor on the first line; backspace
    takes it off again, so that the query is what it was. *)
Theorem X22_search_type_then_backspace
        (env : Env) (m : Model.t) (w : World) (key : string) :
  Model.state m = stateBrowsing ->
  Model.searchMode m = true ->
  String.length key = 1 ->
  Update env m (KeyMsg key) w
  = Ok (Model.set_cursor 0%Z (Model.set_searchQuery (Model.searchQuery m ++ key) m),
        CmdNil) w
  /\ Update env (Model.set_cursor 0%Z
                   (Model.set_searchQuery (Model.searchQuery m ++ key) m))
            (KeyMsg "backspace") w
     = Ok (Model.set_cursor 0%Z m, CmdNil) w.
Proof.
  intros Hst Hs Hk. destruct (one_char_key key Hk) as (K1 & K2 & K3). split.
  - unfold Update, handleKeyPress. rewrite Hst. unfold handleBrowsingKeys.
    rewrite Hs. unfold handleSearchKeys. rewrite K1, K2, K3, Hk. reflexivity.
  - unfold Update, handleKeyPress. cbn [Model.state Model.set_cursor Model.set_searchQuery].
    rewrite Hst. unfold handleBrowsingKeys.
    cbn [Model.searchMode Model.set_cursor Model.set_searchQuery]. rewrite Hs.
    unfold handleSearchKeys.
    change (keyIs "backspace" ["enter"; "esc"]) with false.
    change (keyIs "backspace" ["backspace"]) with true. cbv beta iota.
    cbn [Model.searchQuery Model.set_cursor Model.set_searchQuery].
    rewrite length_append, Hk.
    destruct (Z.gtb_spec (Z.of_nat (String.length (Model.searchQuery m) + 1)) 0);
      [|lia].
    rewrite (dropLast_append _ _ Hk). unfold ret.
    first [reflexivity | f_equal; f_equal; now destruct m].
Qed.

(** ** Tagging *)

(** X23: enter in the tag editor runs one [git config] process for the
    branch at the cursor, setting the description or, for an empty
    input, unsetting it, and writes the input into the branch whatever
    git answers: a failure of [git config] is not noticed.  With the
    cursor past the end of the list nothing is saved and no process
    runs.  Either way the session is back at browsing with an empty
    input. *)
Theorem X23_tag_saved_through_git_config
        (env : Env) (m : Model.t) (w : World) :
  Model.state m = stateTagging ->
  (forall b,
      index (Model.branches m) (Model.cursor m) = Some b ->
      exists w',
        Update env m (KeyMsg "enter") w
        = Ok (Model.set_tagInput "" (Model.set_state stateBrowsing m), CmdNil) w'
        /\ trace w'
           = List.app (trace w) [tagCommand (Name (heap w b)) (Model.tagInput m)]
        /\ heap w' b = with_Description (Model.tagInput m) (heap w b)
        /\ (forall l, l <> b -> heap w' l = heap w l))
  /\ ((len (Model.branches m) <= Model.cursor m)%Z ->
      Update env m (KeyMsg "enter") w
      = Ok (Model.set_tagInput "" (Model.set_state stateBrowsing m), CmdNil) w).
Proof.
  intros Hst. split.
  - intros b Hi. unfold Update, handleKeyPress. rewrite Hst.
    unfold handleTaggingKeys. change (keyIs "enter" ["enter"]) with true.
    cbv beta iota. rewrite (index_Some_lt _ _ _ Hi), Hi.
    unfold bind, gets, SetBranchTag, RemoveBranchTag, tagCommand.
    destruct (String.eqb_spec (Model.tagInput m) "") as [E|E]; cbn [negb];
      rewrite Run_eq; unfold modify, ret; eexists; (split; [reflexivity|]);
      cbn [heap trace with_heap with_trace]; (split; [reflexivity|]);
      (split; [rewrite upd_same, ?E; reflexivity|]);
      intros l Hl; now rewrite upd_other.
  - intros Hge. unfold Update, handleKeyPress. rewrite Hst.
    unfold handleTaggingKeys. change (keyIs "enter" ["enter"]) with true.
    cbv beta iota.
    destruct (Z.ltb_spec (Model.cursor m) (len (Model.branches m))); [lia|].
    reflexivity.
Qed.

(** ** Deleting *)

Section Deleting.

Variable env : Env.

Lemma handleBrowsingKeys_d m :
  Model.searchMode m = false ->
  handleBrowsingKeys env m "d"
  = (if negb (Model.deleteMode m) then
       ret (Model.set_message
              "DELETE MODE: Select branches and press 'd' to confirm deletion."
              (Model.set_deleteMode true m), CmdNil)
     else
       selectedCount <- gets (fun h => countSelected h (Model.branches m) 0) ;;
       if (selectedCount >? 0)%Z then
         ret (Model.set_message
                ("Ready to delete " ++ fmt.itoa selectedCount ++ " branch(es).")
                (Model.set_state stateConfirmingDelete m), CmdNil)
       else ret (Model.set_message "No branches selected for deletion." m, CmdNil)).
Proof. intros Hs. unfold handleBrowsingKeys. rewrite Hs. reflexivity. Qed.

End Deleting.

(** X25: deleting from the list.  While browsing, d enters delete mode,
    a second d asks for confirmation when a branch is selected, and y
    runs the whole queue: the session ends in [stateDone], still in
    delete mode, and the successes and failures together are as many as
    the branches that were selected.  Every process on this path is a
    [git branch -d] or a [git push origin --delete] (or the pop of a
    stash owed from before): the working tree is never checked and
    nothing is stashed. *)
Theorem X25_delete_runs_the_whole_queue
        (env : Env) (fuel : nat) (m : Model.t) (w : World) :
  Model.state m = stateBrowsing ->
  Model.searchMode m = false ->
  Model.deleteMode m = false ->
  (len (Model.branches m) <= int_max)%Z ->
  selectedOf (heap w) (Model.branches m) <> [] ->
  List.length (selectedOf (heap w) (Model.branches m)) <= fuel ->
  exists m' w',
    session env fuel m ["d"; "d"; "y"] w = Ok (m', false) w'
    /\ Model.state m' = stateDone
    /\ Model.deleteMode m' = true
    /\ (Model.successCount m' + len (Model.failedBranches m')
        = len (selectedOf (heap w) (Model.branches m)))%Z
    /\ keepsQueue (heap w) (heap w')
    /\ exists ext,
        trace w' = List.app (trace w) ext
        /\ Forall (fun argv => deleteProcess argv \/ argv = ["git"; "stash"; "pop"]) ext.
Proof.
  intros Hst Hs Hd Hn Hq Hf.
  assert (Hcount : countSelected (heap w) (Model.branches m) 0
                   = len (selectedOf (heap w) (Model.branches m)))
    by (rewrite countSelected_from by lia; lia).
  assert (Hpos : (0 < len (selectedOf (heap w) (Model.branches m)))%Z).
  { unfold len. destruct (selectedOf (heap w) (Model.branches m)); [congruence|].
    cbn [List.length]. lia. }
  assert (Hle : (len (selectedOf (heap w) (Model.branches m)) <= int_max)%Z).
  { pose proof (filter_length_le (fun l => Selected (heap w l)) (Model.branches m)) as L.
    unfold len, selectedOf in *. lia. }
  remember (len (selectedOf (heap w) (Model.branches m))) as n eqn:En in *.
  cbn [session]. unfold bind at 1. unfold Update at 1, handleKeyPress.
  rewrite Hst, handleBrowsingKeys_d by assumption. rewrite Hd. cbn [negb].
  unfold ret at 1. cbv beta iota. unfold bind at 1. rewrite pump_idle. cbv beta iota.
  unfold bind at 1. unfold Update at 1, handleKeyPress.
  cbn [Model.state Model.set_message Model.set_deleteMode]. rewrite Hst.
  rewrite handleBrowsingKeys_d by (cbn; assumption).
  cbn [Model.deleteMode Model.set_message Model.set_deleteMode negb].
  unfold bind at 1, gets at 1.
  cbn [Model.branches Model.set_message Model.set_deleteMode]. rewrite Hcount.
  destruct (Z.gtb_spec n 0) as [_|]; [|lia].
  unfold ret at 1. cbv beta iota. unfold bind at 1. rewrite pump_idle. cbv beta iota.
  unfold bind at 1. unfold Update at 1, handleKeyPress.
  cbn [Model.state Model.set_message Model.set_state].
  unfold handleConfirmingDeleteKeys. change (keyIs "y" ["y"; "Y"]) with true.
  cbv beta iota. unfold bind at 1, gets at 1.
  cbn [Model.branches Model.set_message Model.set_state Model.set_deleteMode].
  rewrite Hcount. unfold bind at 1, gets at 1. unfold ret at 1. cbv beta iota.
  unfold bind at 1.
  match goal with
  | |- context [pump env fuel ?m1 (CmdDeleteNext ?m1) ?w1] =>
      destruct (run_reaches_done env "deleted" CmdDeleteNext (deleteNextBranch env)
                  branchDeletedMsg (fun _ => True) deleteProcess
                  (fun m0 => eq_refl) (fun m0 b s e => eq_refl)
                  (fun m0 m1' E H0 => I)
                  deleteProcess_notStash
                  (fun m0 H0 => deleteNextBranch_runs env m0)
                  (Z.to_nat n) fuel m1 w1)
        as (m' & w' & E & Sd & Si & Ss & Sds & Sp & Sk & Sb & ext & T & F)
  end.
  - exact I.
  - cbn. lia.
  - cbn. lia.
  - cbn -[int_max]. exact Hle.
  - cbn. lia.
  - unfold len in En. lia.
  - rewrite E. cbv beta iota. cbn [session]. unfold ret.
    exists m', w'. split; [reflexivity|]. split; [exact Sd|].
    split; [now destruct Sb as [_ ->]|].
    cbn in Ss. split; [unfold len in *; cbn [List.length] in Ss; lia|].
    split; [exact Sk|]. exists ext. split; [exact T | exact F].
Qed.

(** ** Marking a finished branch *)

Lemma forFirst_mark (name status : string) (bs : list loc) (w : World) :
  forFirst bs (fun b => String.eqb (Name b) name)
           (fun b => modify b (with_Status status)) w
  = Ok tt (match find (fun l => String.eqb (Name (heap w l)) name) bs with
           | Some l => with_heap (upd (heap w) l (with_Status status)) w
           | None => w
           end).
Proof.
  induction bs as [|b bs IH]; [reflexivity|].
  cbn [forFirst find]. unfold bind, load.
  destruct (String.eqb (Name (heap w b)) name); [reflexivity | exact IH].
Qed.

(** X26: a success marks one branch.  When a branch is reported as
    updated, the first branch of the list that bears the reported name
    gets the status "updated", and only its status changes; every other
    branch is left as it is, and when no branch bears the name the store
    is unchanged.  The success count goes up by one and the failure list
    is untouched. *)
Theorem X26_success_marks_first_branch_of_that_name
        (env : Env) (m : Model.t) (w : World) (branch error : string) :
  (int_min - 1 <= Model.successCount m < int_max)%Z ->
  exists m' c w',
    Update env m (branchUpdatedMsg branch true error) w = Ok (m', c) w'
    /\ Model.successCount m' = (Model.successCount m + 1)%Z
    /\ Model.failedBranches m' = Model.failedBranches m
    /\ match find (fun l => String.eqb (Name (heap w l)) branch) (Model.branches m) with
       | Some l =>
           heap w' l = with_Status "updated" (heap w l)
           /\ forall l', l' <> l -> heap w' l' = heap w l'
       | None => heap w' = heap w
       end.
Proof.
  intros Hs. unfold Update, branchFinished. unfold bind at 1. unfold bind at 1.
  cbn [Model.branches Model.set_successCount]. rewrite forFirst_mark.
  unfold ret at 1. cbv beta iota.
  set (w1 := match find _ (Model.branches m) with Some l => _ | None => w end).
  assert (Hheap : match find (fun l => String.eqb (Name (heap w l)) branch)
                             (Model.branches m) with
                  | Some l =>
                      heap w1 l = with_Status "updated" (heap w l)
                      /\ forall l', l' <> l -> heap w1 l' = heap w l'
                  | None => heap w1 = heap w
                  end).
  { subst w1. destruct (find _ (Model.branches m)) as [l|]; [|reflexivity].
    cbn [heap with_heap]. split; [apply upd_same|]. intros l' Hl. now apply upd_other. }
  clearbody w1.
  match goal with
  | |- context [if ?c then _ else _] => destruct c
  end.
  - unfold bind.
    match goal with
    | |- context [popOwedStash env ?m0 w1] =>
        destruct (popOwedStash_spec env m0 w1) as (w2 & E & H & _)
    end.
    rewrite E. unfold ret. eexists _, _, _. split; [reflexivity|].
    cbn. rewrite int_incr_small by lia. rewrite H. auto.
  - unfold ret. eexists _, _, _. split; [reflexivity|].
    cbn. rewrite int_incr_small by lia. auto.
Qed.

(** ** The further properties on concrete repositories *)

(** X1, witness: three selected branches, position 1. *)
Lemma X1_witness :
  findTarget (Example.store Example.all) [0; 1; 2] 0 1 = Some 1.
Proof.
  destruct (X1_findTarget_is_kth_selected (Example.store Example.all) [0; 1; 2] 1)
    as [E _].
  - vm_compute. discriminate.
  - lia.
  - exact E.
Defined.

(** X2, witness: three selected branches. *)
Lemma X2_witness :
  countSelected (Example.store Example.all) [0; 1; 2] 0 = 3%Z.
Proof.
  apply (X2_countSelected_is_queue_length (Example.store Example.all) [0; 1; 2]).
  vm_compute. discriminate.
Defined.

(** X3, witness: an update run over three branches, from its start. *)
Lemma X3_witness :
  exists m' w',
    pump Example.quiet 3 (Example.running stateUpdating 0)
         (CmdUpdateNext (Example.running stateUpdating 0)) (Example.world Example.all)
    = Ok (m', CmdNil) w'
    /\ Model.state m' = stateDone.
Proof.
  destruct (X3_update_run_completes Example.quiet 3 (Example.running stateUpdating 0)
              (Example.world Example.all))
    as (m' & w' & E & S & _).
  - discriminate.
  - vm_compute. split; discriminate.
  - vm_compute. split; [discriminate | reflexivity].
  - vm_compute. discriminate.
  - vm_compute. lia.
  - exists m', w'. split; [exact E | exact S].
Defined.

(** X4, witness: a delete run over three branches, from its start. *)
Lemma X4_witness :
  exists m' w',
    pump Example.quiet 3 (Example.running stateDeleting 0)
         (CmdDeleteNext (Example.running stateDeleting 0)) (Example.world Example.all)
    = Ok (m', CmdNil) w'
    /\ Model.state m' = stateDone.
Proof.
  destruct (X4_delete_run_completes Example.quiet 3 (Example.running stateDeleting 0)
              (Example.world Example.all))
    as (m' & w' & E & S & _).
  - vm_compute. split; discriminate.
  - vm_compute. split; [discriminate | reflexivity].
  - vm_compute. discriminate.
  - vm_compute. lia.
  - exists m', w'. split; [exact E | exact S].
Defined.

(** X5, witness: position 1 of three is [feature-b]. *)
Lemma X5_witness :
  exists s e w',
    deleteNextBranch Example.quiet (Example.running stateDeleting 1)
                     (Example.world Example.all)
    = Ok (branchDeletedMsg "feature-b" s e) w'.
Proof.
  refine (proj2 (X5_commands_follow_the_queue Example.quiet
                   (Example.running stateDeleting 1) (Example.world Example.all) _ _)).
  - vm_compute. discriminate.
  - vm_compute. discriminate.
Defined.

(** X6, witness: enter with a clean tree and three branches selected. *)
Lemma X6_witness :
  exists m' w',
    session Example.quiet 3 Example.browsing ["enter"] (Example.world Example.all)
    = Ok (m', false) w'
    /\ Model.state m' = stateDone
    /\ (Model.successCount m' + len (Model.failedBranches m') = 3)%Z.
Proof.
  destruct (X6_enter_runs_the_whole_queue Example.quiet 3 Example.browsing
              (Example.world Example.all) Example.cfg "")
    as (m' & w' & E & S & C & _).
  - reflexivity.
  - reflexivity.
  - reflexivity.
  - reflexivity.
  - reflexivity.
  - reflexivity.
  - reflexivity.
  - vm_compute. discriminate.
  - vm_compute. discriminate.
  - vm_compute. lia.
  - exists m', w'. split; [exact E|]. split; [exact S | exact C].
Defined.

(** X8, witness: the rebase of [feature-b], second of three, stops on
    a conflict: no push, and the reason is the conflict. *)
Lemma X8_witness :
  exists e w',
    updateNextBranch (Example.scripted [Example.conflicting])
                     (Example.running stateUpdating 1) (Example.world Example.all)
    = Ok (branchUpdatedMsg "feature-b" false e) w'
    /\ e = "rebase conflict"
    /\ trace w' = [["git"; "checkout"; "feature-b"];
                   ["git"; "rebase"; "main"];
                   ["git"; "rebase"; "--abort"]].
Proof.
  destruct (X8_push_only_after_rebase (Example.scripted [Example.conflicting])
              (Example.running stateUpdating 1)
              (Example.world Example.all) Example.cfg 1)
    as (s & e & w' & ext & E & _ & T & _ & _ & S & _ & _ & R & _).
  - reflexivity.
  - reflexivity.
  - reflexivity.
  - destruct R as [Ex Ee]; [reflexivity | discriminate |].
    destruct s.
    + destruct (proj1 S eq_refl) as (_ & H & _). discriminate H.
    + exists e, w'. split; [exact E|]. split; [exact Ee|].
      rewrite T, Ex. reflexivity.
Defined.

(** X10, witness: the pattern list holds the empty pattern. *)
Lemma X10_witness :
  exists e w',
    GetBranchesWithInfo (Example.scripted [Example.listing]) "main" ["release/"; ""]
                        emptyWorld
    = Ok ([], e) w'.
Proof.
  apply (X10_empty_pattern_excludes_everything
           (Example.scripted [Example.listing]) "main" ["release/"; ""] emptyWorld).
  simpl. auto.
Defined.

(** X11, witness: a repository without a commit. *)
Lemma X11_witness :
  exists l w',
    GetBranchesWithInfo Example.quiet "main" ["release/"] emptyWorld = Ok ([l], None) w'
    /\ Name (heap w' l) = "".
Proof.
  destruct (X11_blank_listing_gives_nameless_branch Example.quiet "main" ["release/"]
              emptyWorld "") as [_ H].
  - reflexivity.
  - reflexivity.
  - discriminate.
  - intros [H|[]]. discriminate H.
  - exact H.
Defined.

(** X12, witness: both remotes are configured. *)
Lemma X12_witness :
  DetectUpstreamRemote (Example.scripted [Setup.twoRemotes]) emptyWorld
  = Ok ("upstream", None) (with_trace [["git"; "remote"]] emptyWorld).
Proof.
  destruct (X12_upstream_before_origin (Example.scripted [Setup.twoRemotes]) emptyWorld
              "origin
upstream
") as (r & E & Hup & _).
  - reflexivity.
  - rewrite E. f_equal. apply Hup. vm_compute. auto.
Defined.

(** X13, witness: the remote is out of reach; [main] is a local
    branch. *)
Lemma X13_witness :
  exists w',
    DetectBaseBranch
      (Example.scripted [Setup.twoRemotes; Setup.offline; Example.listing]) emptyWorld
    = Ok ("main", None) w'.
Proof.
  destruct (X13_base_branch_fallback_order
              (Example.scripted [Setup.twoRemotes; Setup.offline; Example.listing])
              emptyWorld (with_trace [["git"; "remote"]] emptyWorld)
              "upstream" "exit status 128" "main
release/1.0
feature-x
") as (b & w' & E & Hmain & _).
  - reflexivity.
  - reflexivity.
  - reflexivity.
  - exists w'. rewrite E. f_equal. f_equal. apply Hmain. vm_compute. auto.
Defined.

(** X14, witness: the remote's HEAD is [trunk], which is no local
    branch. *)
Lemma X14_witness :
  exists w',
    DetectBaseBranch
      (Example.scripted [Setup.twoRemotes; Setup.headIsTrunk; Example.listing])
      emptyWorld
    = Ok ("trunk", None) w'.
Proof.
  destruct (X14_remote_head_decides_base_branch
              (Example.scripted [Setup.twoRemotes; Setup.headIsTrunk; Example.listing])
              emptyWorld (with_trace [["git"; "remote"]] emptyWorld)
              "upstream" "* remote upstream
  Fetch URL: git@example.org:team/project.git
  HEAD branch: trunk
"
              ["* remote upstream"; "  Fetch URL: git@example.org:team/project.git"]
              [""] "  HEAD branch: trunk" " trunk")
    as (w' & E & _).
  - reflexivity.
  - reflexivity.
  - reflexivity.
  - repeat constructor.
  - reflexivity.
  - exists w'. exact E.
Defined.

(** X15, witness: a file that sets the base branch and the remote. *)
Lemma X15_witness :
  LoadConfig Example.quiet (Some Setup.fullFile) emptyWorld
  = Ok (Some (mkConfig "develop" "origin" "origin" ["wip/"]), None) emptyWorld.
Proof.
  apply (X15_file_values_win Example.quiet (Some Setup.fullFile) emptyWorld);
    discriminate.
Defined.

(** X16, witness: no file and no remote: the base branch is looked
    for first, then the load fails. *)
Lemma X16_witness :
  exists w',
    LoadConfig Example.quiet None emptyWorld
    = Ok (None, Some "no remotes found") w'
    /\ trace w' = [["git"; "remote"];
                   ["git"; "branch"; "--format=%(refname:short)"];
                   ["git"; "remote"]].
Proof.
  destruct (X16_no_remote_is_fatal Example.quiet None emptyWorld "")
    as (w' & E & _ & T).
  - reflexivity.
  - intros ext. reflexivity.
  - intros [H|[]]. discriminate H.
  - intros [H|[]]. discriminate H.
  - exists w'. split; [exact E | exact T].
Defined.

(** X17, witness: a file with the remote only, in a directory where
    git lists nothing. *)
Lemma X17_witness :
  exists c w',
    LoadConfig (Example.scripted [Setup.noRemotes; Setup.noListing])
               (Some (with_UpstreamRemote "origin")) emptyWorld
    = Ok (Some c, None) w'
    /\ BaseBranch c = "".
Proof.
  apply (X17_undetected_base_is_silent
           (Example.scripted [Setup.noRemotes; Setup.noListing])
           (Some (with_UpstreamRemote "origin")) emptyWorld
           "exit status 128" "exit status 128").
  - reflexivity.
  - discriminate.
  - reflexivity.
  - reflexivity.
Defined.

(** X18, witness: down from the first of three lines. *)
Lemma X18_witness :
  exists c,
    Update Example.quiet Example.browsing (KeyMsg "j") (Example.world Example.none)
    = Ok (Model.set_cursor c Example.browsing, CmdNil) (Example.world Example.none)
    /\ (0 <= c)%Z.
Proof.
  destruct (X18_cursor_stays_in_view Example.quiet Example.browsing
              (Example.world Example.none) "j") as (c & E & H0 & _).
  - reflexivity.
  - reflexivity.
  - reflexivity.
  - vm_compute. discriminate.
  - vm_compute. discriminate.
  - exists c. split; [exact E | exact H0].
Defined.

(** X19, witness: select all, with no filter. *)
Lemma X19_witness :
  exists w',
    Update Example.quiet Example.browsing (KeyMsg "a") (Example.world Example.none)
    = Ok (Example.browsing, CmdNil) w'
    /\ trace w' = [].
Proof.
  destruct (X19_select_all_none_on_view_only Example.quiet Example.browsing
              (Example.world Example.none) "a") as (w' & E & T & _).
  - reflexivity.
  - reflexivity.
  - reflexivity.
  - exists w'. split; [exact E | exact T].
Defined.

(** X20, witness: the first branch, toggled twice. *)
Lemma X20_witness :
  exists w1 w2,
    Update Example.quiet Example.browsing (KeyMsg " ") (Example.world Example.none)
    = Ok (Example.browsing, CmdNil) w1
    /\ Update Example.quiet Example.browsing (KeyMsg " ") w1
       = Ok (Example.browsing, CmdNil) w2
    /\ forall l, heap w2 l = heap (Example.world Example.none) l.
Proof.
  destruct (X20_toggle_twice_is_identity Example.quiet Example.browsing
              (Example.world Example.none) 0) as (w1 & w2 & E1 & _ & _ & _ & E2 & _ & H).
  - reflexivity.
  - reflexivity.
  - reflexivity.
  - exists w1, w2. split; [exact E1|]. split; [exact E2 | exact H].
Defined.

(** X21, witness: [Feature-B] shows what [feature-b] shows. *)
Lemma X21_witness :
  filterBranches Example.quiet (Example.store Example.none)
                 (Model.set_searchQuery "Feature-B" Example.browsing)
  = filterBranches Example.quiet (Example.store Example.none)
                   (Model.set_searchQuery "feature-b" Example.browsing).
Proof.
  apply (X21_search_ignores_query_case
           Example.quiet (Example.store Example.none) Example.browsing "Feature-B").
  reflexivity.
Defined.

(** X22, witness: q, typed into a search. *)
Lemma X22_witness :
  Update Example.quiet (Model.set_searchMode true Example.browsing) (KeyMsg "q")
         (Example.world Example.none)
  = Ok (Model.set_cursor 0%Z
          (Model.set_searchQuery "q" (Model.set_searchMode true Example.browsing)),
        CmdNil) (Example.world Example.none).
Proof.
  apply (X22_search_type_then_backspace Example.quiet
           (Model.set_searchMode true Example.browsing) (Example.world Example.none) "q");
    reflexivity.
Defined.

(** X23, witness: the tag "wip" for the first branch. *)
Lemma X23_witness :
  exists w',
    Update Example.quiet
           (Model.set_tagInput "wip" (Model.set_state stateTagging Example.browsing))
           (KeyMsg "enter") (Example.world Example.none)
    = Ok (Model.set_tagInput ""
            (Model.set_state stateBrowsing
               (Model.set_tagInput "wip" (Model.set_state stateTagging Example.browsing))),
          CmdNil) w'
    /\ trace w' = [["git"; "config"; "branch.feature-a.description"; "wip"]].
Proof.
  destruct (X23_tag_saved_through_git_config Example.quiet
              (Model.set_tagInput "wip" (Model.set_state stateTagging Example.browsing))
              (Example.world Example.none)) as [H _].
  - reflexivity.
  - destruct (H 0) as (w' & E & T & _).
    + reflexivity.
    + exists w'. split; [exact E | exact T].
Defined.

(** X25, witness: three branches selected, then d, d, y. *)
Lemma X25_witness :
  exists m' w',
    session Example.quiet 3 Example.browsing ["d"; "d"; "y"] (Example.world Example.all)
    = Ok (m', false) w'
    /\ Model.state m' = stateDone
    /\ Model.deleteMode m' = true.
Proof.
  destruct (X25_delete_runs_the_whole_queue Example.quiet 3 Example.browsing
              (Example.world Example.all)) as (m' & w' & E & S & D & _).
  - reflexivity.
  - reflexivity.
  - reflexivity.
  - vm_compute. discriminate.
  - vm_compute. discriminate.
  - vm_compute. lia.
  - exists m', w'. split; [exact E|]. split; [exact S | exact D].
Defined.

(** X26, witness: [feature-b] is reported as updated. *)
Lemma X26_witness :
  exists m' c w',
    Update Example.quiet (Example.running stateUpdating 1)
           (branchUpdatedMsg "feature-b" true "") (Example.world Example.all)
    = Ok (m', c) w'
    /\ Model.successCount m' = 1%Z
    /\ Status (heap w' 1) = "updated".
Proof.
  destruct (X26_success_marks_first_branch_of_that_name Example.quiet
              (Example.running stateUpdating 1) (Example.world Example.all)
              "feature-b" "") as (m' & c & w' & E & S & _ & H).
  - vm_compute. split; [discriminate | reflexivity].
  - exists m', c, w'. split; [exact E|]. split; [exact S|].
    destruct H as [H _]. now rewrite H.
Defined.
